(** * NBU open-data dashboard: a shallow embedding of [app.py]

    The application fetches JSON feeds, turns them into tables with
    [pd.json_normalize], detects a date column by its name, and renders a
    line chart or a histogram together with descriptive statistics.

    Layout of this development:
    - Python values: strings, JSON documents, insertion-ordered dicts;
    - the fragment of pandas the application calls (tables, dtype
      inference, [dropna], [select_dtypes], [head]);
    - the fragment of Altair the application calls (the shorthand of an
      encoding channel);
    - the application itself ([fetch_data], [detect_date_column],
      [render_dataset], the sidebar and the two loops of the script), over
      an explicit world made of the cache, the clock, the network log and
      the page;
    - the properties of the application. *)

From Stdlib Require Import ZArith QArith List Bool Ascii String Lia.
From Stdlib Require Import DecimalString DecimalNat.
From stdpp Require Import base option gmap strings.

Import ListNotations.
#[local] Set Warnings "-register-all".
Local Open Scope string_scope.
Local Open Scope list_scope.

(** ** Python strings

    A [str] is modelled by the bytes of its UTF-8 encoding.  The string
    operations of the application are [lower], the substring test [in] and
    [endswith], against the ASCII needles "date" and "dt".  No character
    outside ASCII lowercases to one of [d], [a], [t], [e], and a UTF-8
    continuation byte is never an ASCII byte, so lowering the ASCII
    letters only decides both tests as Python does. *)

Definition lower_char (c : ascii) : ascii :=
  let n := nat_of_ascii c in
  if (65 <=? n)%nat && (n <=? 90)%nat then ascii_of_nat (n + 32) else c.

Fixpoint lower (s : string) : string :=
  match s with
  | EmptyString => EmptyString
  | String c s' => String (lower_char c) (lower s')
  end.

(** [s.startswith(p)] *)
Fixpoint startswith (p s : string) : bool :=
  match p, s with
  | EmptyString, _ => true
  | String _ _, EmptyString => false
  | String a p', String b s' => Ascii.eqb a b && startswith p' s'
  end.

(** [sub in s] *)
Fixpoint contains (sub s : string) : bool :=
  startswith sub s ||
  match s with
  | EmptyString => false
  | String _ s' => contains sub s'
  end.

(** [s.endswith(suf)] *)
Fixpoint endswith (suf s : string) : bool :=
  String.eqb s suf ||
  match s with
  | EmptyString => false
  | String _ s' => endswith suf s'
  end.

(** What is left of [s] after the prefix [p], when [s] starts with it. *)
Fixpoint strip_prefix (p s : string) : option string :=
  match p, s with
  | EmptyString, _ => Some s
  | String _ _, EmptyString => None
  | String a p', String b s' =>
      if Ascii.eqb a b then strip_prefix p' s' else None
  end.

(** What stands in [s] before the suffix [suf], when [s] ends with it. *)
Fixpoint strip_suffix (suf s : string) : option string :=
  if String.eqb s suf then Some EmptyString
  else match s with
       | EmptyString => None
       | String c s' =>
           match strip_suffix suf s' with
           | Some r => Some (String c r)
           | None => None
           end
       end.

(** [s.replace(c, empty)]: the string without the character [c] *)
Fixpoint remove_char (c : ascii) (s : string) : string :=
  match s with
  | EmptyString => EmptyString
  | String a s' =>
      if Ascii.eqb a c then remove_char c s' else String a (remove_char c s')
  end.

(** [s[s.rfind(c) - 1]] when [c] occurs in [s]: the character before the
    last occurrence of [c]; Python counts the index -1 from the end, so
    when that occurrence opens the string this is the last character of
    [s].  [last] is the last character of the whole string. *)
Fixpoint before_last_from (c prev : ascii) (s : string) : option ascii :=
  match s with
  | EmptyString => None
  | String a s' =>
      match before_last_from c a s' with
      | Some b => Some b
      | None => if Ascii.eqb a c then Some prev else None
      end
  end.

Fixpoint last_char (d : ascii) (s : string) : ascii :=
  match s with
  | EmptyString => d
  | String a s' => last_char a s'
  end.

Definition before_last (c : ascii) (s : string) : option ascii :=
  before_last_from c (last_char c s) s.

(** [str(n)] for a natural number *)
Definition decimal (n : nat) : string :=
  NilEmpty.string_of_uint (Nat.to_uint n).

(** ** JSON documents, as [json.loads] returns them

    An object is a Python dict: its members are in the order of the text
    and their keys are distinct.  An integer is a Python [int], of any
    size.  A float is given by the rational it denotes; [JNaN] and [JInf]
    stand for the literals [NaN], [Infinity] and [-Infinity], which
    Python's parser reads too. *)

Inductive json : Type :=
| JNull
| JBool (b : bool)
| JInt (n : Z)
| JFloat (x : Q)
| JNaN
| JInf (negative : bool)
| JStr (s : string)
| JArr (items : list json)
| JObj (members : list (string * json)).

(** ** Python dicts: association lists in insertion order.
    Assigning to a key that is present keeps its position. *)

Definition dict (V : Type) : Type := list (string * V).

Fixpoint dict_get {V} (k : string) (d : dict V) : option V :=
  match d with
  | [] => None
  | (k', v) :: d' => if String.eqb k' k then Some v else dict_get k d'
  end.

Fixpoint dict_set {V} (k : string) (v : V) (d : dict V) : dict V :=
  match d with
  | [] => [(k, v)]
  | (k', v') :: d' =>
      if String.eqb k' k then (k', v) :: d' else (k', v') :: dict_set k v d'
  end.

Definition keys {V} (d : dict V) : list string := map fst d.

(** [{**a, **b}] *)
Definition dict_merge {V} (a b : dict V) : dict V :=
  fold_left (fun acc kv => dict_set (fst kv) (snd kv) acc) b a.

(** ** Exceptions the application can meet *)

Inductive exn : Type :=
| RequestException        (* no response: connection error, timeout *)
| HTTPError (status : Z)  (* [raise_for_status] *)
| JSONDecodeError
| NotImplementedError     (* [json_normalize] on a scalar or a string *)
| AttributeError          (* a method asked of an object that lacks it *)
| ValueError              (* a chart encoding that Altair cannot read *)
| KeyError (column : string)
| DuplicateWidgetID (key : string).

(** ** Table cells

    What a pandas column can hold once a JSON feed has been loaded:
    [None] (JSON null), [nan] (the filler for an absent key, and the null
    of a float column), [NaT] (the null of a datetime column), booleans,
    integers, floats (finite, given by the rational they denote, or
    infinite), strings, raw structures (dicts and lists) and timestamps in
    nanoseconds. *)

Inductive cell : Type :=
| VNone
| VNaN
| VNaT
| VBool (b : bool)
| VInt (n : Z)
| VFloat (x : Q)
| VInf (negative : bool)
| VStr (s : string)
| VRaw (j : json)
| VTimestamp (ns : Z).

(** [pd.isna] on a scalar *)
Definition isna (c : cell) : bool :=
  match c with
  | VNone | VNaN | VNaT => true
  | _ => false
  end.

Inductive dtype : Type :=
| int64 | uint64 | float64 | bool_ | object_ | datetime64.

Record Series : Type := mkSeries {
  s_dtype : dtype;
  s_values : list cell
}.

(** The labels of the columns of a table.  A table built from records is
    labelled by their keys, which are strings; a table built from a list
    of lists is labelled by positions, the integers from 0 on (a
    [RangeIndex]). *)
Inductive labels : Type := Names | Positions.

(** A [DataFrame]: the row labels (a [RangeIndex] when built, the
    surviving labels after rows are dropped), the columns in order, and
    what their labels are.  A position is kept as the string [str] gives
    for it. *)
Record DataFrame : Type := mkDataFrame {
  df_index : list nat;
  df_data : dict Series;
  df_labels : labels
}.

(** [df.columns] and [len(df)] *)
Definition columns (df : DataFrame) : list string := map fst (df_data df).
Definition len (df : DataFrame) : nat := length (df_index df).

(** ** [detect_date_column] (app.py, lines 79-83) *)

Definition is_date_name (col : string) : bool :=
  contains "date" (lower col) || endswith "dt" (lower col).

(** The loop over column names. *)
Fixpoint detect_in (cols : list string) : option string :=
  match cols with
  | [] => None
  | col :: rest => if is_date_name col then Some col else detect_in rest
  end.

(** An integer has no method [lower]: on a table labelled by positions the
    first turn of the loop raises [AttributeError]. *)
Definition detect_date_column (df : DataFrame) : exn + option string :=
  match df_labels df, columns df with
  | Positions, _ :: _ => inl AttributeError
  | _, cols => inr (detect_in cols)
  end.

(** ** The fragment of pandas the application calls

    pandas is a dependency of the repository, not part of it.  The
    definitions of this part follow the library's code paths for the calls
    [app.py] makes, on values that come out of a JSON document. *)

(** *** [pd.json_normalize(data)] with default arguments

    [_normalise_json]: walks nested objects, joining the keys with ".";
    a value that is not an object is stored under the path that leads to
    it.  At the top ([key_string] empty) the path is the key itself. *)

Definition new_key (key_string key : string) : string :=
  if String.eqb key_string EmptyString then key else key_string ++ "." ++ key.

Fixpoint normalise_json (data : json) (key_string : string)
    (normalized_dict : dict json) : dict json :=
  match data with
  | JObj members =>
      (fix items (kvs : list (string * json)) (acc : dict json) : dict json :=
         match kvs with
         | [] => acc
         | (key, value) :: rest =>
             items rest (normalise_json value (new_key key_string key) acc)
         end) members normalized_dict
  | _ => dict_set key_string data normalized_dict
  end.

Definition is_dict (v : json) : bool :=
  match v with JObj _ => true | _ => false end.

(** [_normalise_json_ordered]: the members that are not objects first, then
    the flattened nested objects. *)
Definition normalise_json_ordered (data : dict json) : dict json :=
  let top_dict := List.filter (fun kv => negb (is_dict (snd kv))) data in
  let nested_dict :=
    normalise_json (JObj (List.filter (fun kv => is_dict (snd kv)) data)) EmptyString [] in
  dict_merge top_dict nested_dict.

(** [_simple_json_normalize]: a dict is flattened; a list is normalized
    element by element and stays a list; anything else gives the empty
    dict. *)
Fixpoint simple_json_normalize (ds : json) : json :=
  match ds with
  | JObj members => JObj (normalise_json_ordered members)
  | JArr rows => JArr (map simple_json_normalize rows)
  | _ => JObj []
  end.

(** *** [DataFrame(data)] for a list

    A list whose first element is a dict is read as a list of records: the
    columns are the keys of the records in order of first appearance
    ([fast_unique_multiple_list_gen] without sorting). *)
Definition add_unique (acc : list string) (k : string) : list string :=
  if existsb (String.eqb k) acc then acc else acc ++ [k].

Definition fast_unique (gen : list (list string)) : list string :=
  fold_left (fun acc ks => fold_left add_unique ks acc) gen [].

Definition cell_of_json (v : json) : cell :=
  match v with
  | JNull => VNone
  | JBool b => VBool b
  | JInt n => VInt n
  | JFloat x => VFloat x
  | JNaN => VNaN
  | JInf s => VInf s
  | JStr s => VStr s
  | JArr _ | JObj _ => VRaw v
  end.

(** The object array of one column: the record's value, [nan] when the
    record lacks the key ([dicts_to_array]). *)
Definition column_objects (recs : list (dict json)) (c : string) : list cell :=
  map (fun r => match dict_get c r with
                | Some v => cell_of_json v
                | None => VNaN
                end) recs.

(** [maybe_convert_objects]: the dtype of an object array.  The loop notes
    what it has seen and stops at the first value that only an object
    array can hold.  An integer is checked against the 64-bit ranges as
    long as no [None] has been met. *)
Record Seen : Type := mkSeen {
  null_seen : bool;    (* [None] *)
  nan_seen : bool;
  bool_seen : bool;
  int_seen : bool;
  sint_seen : bool;    (* a negative integer of the int64 range *)
  uint_seen : bool;    (* an integer above the int64 range, within uint64 *)
  float_seen : bool;
  object_seen : bool
}.

Definition INT64_MIN : Z := (- 2 ^ 63)%Z.
Definition INT64_MAX : Z := (2 ^ 63 - 1)%Z.
Definition UINT64_MAX : Z := (2 ^ 64 - 1)%Z.

Definition nothing_seen : Seen :=
  mkSeen false false false false false false false false.

Definition saw_null (s : Seen) : Seen :=
  mkSeen true (nan_seen s) (bool_seen s) (int_seen s) (sint_seen s)
         (uint_seen s) (float_seen s) (object_seen s).

Definition saw_nan (s : Seen) : Seen :=
  mkSeen (null_seen s) true (bool_seen s) (int_seen s) (sint_seen s)
         (uint_seen s) (float_seen s) (object_seen s).

Definition saw_bool (s : Seen) : Seen :=
  mkSeen (null_seen s) (nan_seen s) true (int_seen s) (sint_seen s)
         (uint_seen s) (float_seen s) (object_seen s).

Definition saw_float (s : Seen) : Seen :=
  mkSeen (null_seen s) (nan_seen s) (bool_seen s) (int_seen s) (sint_seen s)
         (uint_seen s) true (object_seen s).

Definition saw_object (s : Seen) : Seen :=
  mkSeen (null_seen s) (nan_seen s) (bool_seen s) (int_seen s) (sint_seen s)
         (uint_seen s) (float_seen s) true.

(** [seen.int_ = True], before the range check *)
Definition saw_integer (s : Seen) : Seen :=
  mkSeen (null_seen s) (nan_seen s) (bool_seen s) true (sint_seen s)
         (uint_seen s) (float_seen s) (object_seen s).

(** [seen.saw_int(val)] *)
Definition saw_int (val : Z) (s : Seen) : Seen :=
  mkSeen (null_seen s) (nan_seen s) (bool_seen s) true
         (sint_seen s || ((INT64_MIN <=? val) && (val <? 0))%Z)
         (uint_seen s || ((INT64_MAX <? val) && (val <=? UINT64_MAX))%Z)
         (float_seen s) (object_seen s).

Fixpoint scan_objects (objects : list cell) (seen : Seen) : Seen :=
  match objects with
  | [] => seen
  | val :: rest =>
      match val with
      | VNone => scan_objects rest (saw_null seen)
      | VNaN => scan_objects rest (saw_nan seen)
      | VBool _ => scan_objects rest (saw_bool seen)
      | VFloat _ | VInf _ => scan_objects rest (saw_float seen)
      | VInt n =>
          if null_seen seen then scan_objects rest (saw_integer seen)
          else
            let seen := saw_int n seen in
            if (uint_seen seen && sint_seen seen)
               || (UINT64_MAX <? n)%Z || (n <? INT64_MIN)%Z
            then saw_object seen
            else scan_objects rest seen
      | VStr _ | VRaw _ | VNaT | VTimestamp _ => saw_object seen
      end
  end.

Definition dtype_of_seen (seen : Seen) : dtype :=
  if object_seen seen then object_
  else if bool_seen seen then
    (if int_seen seen || float_seen seen || null_seen seen || nan_seen seen
     then object_ else bool_)
  else if null_seen seen || nan_seen seen then
    (if float_seen seen || int_seen seen || nan_seen seen then float64 else object_)
  else if float_seen seen then float64
  else if int_seen seen then (if uint_seen seen then uint64 else int64)
  else object_.

Definition infer_dtype (vals : list cell) : dtype :=
  dtype_of_seen (scan_objects vals nothing_seen).

(** The float nearest to an integer, ties to the even significand (53
    bits).  Integers beyond the range of a float (309 digits and more) are
    not considered in this development. *)
Definition float_of_int (n : Z) : Q :=
  let a := Z.abs n in
  if (a <? 2 ^ 53)%Z then inject_Z n
  else
    let e := (Z.log2 a - 52)%Z in
    let q := (a / 2 ^ e)%Z in
    let r := (a mod 2 ^ e)%Z in
    let half := (2 ^ (e - 1))%Z in
    let q' := if (r <? half)%Z then q
              else if (half <? r)%Z then (q + 1)%Z
              else if Z.even q then q else (q + 1)%Z in
    inject_Z (Z.sgn n * q' * 2 ^ e).

(** Storing a value in a float column: integers become floats, [None]
    becomes [nan]. *)
Definition as_float (c : cell) : cell :=
  match c with
  | VInt n => VFloat (float_of_int n)
  | VNone => VNaN
  | _ => c
  end.

Definition convert_objects (vals : list cell) : Series :=
  match infer_dtype vals with
  | float64 => mkSeries float64 (map as_float vals)
  | d => mkSeries d vals
  end.

Definition DataFrame_of_records (recs : list (dict json)) : DataFrame :=
  mkDataFrame (seq 0 (length recs))
    (map (fun c => (c, convert_objects (column_objects recs c)))
         (fast_unique (map keys recs)))
    Names.

(** A list whose first element is a list is read as a list of rows
    ([to_object_array]): a row that is a list gives its elements, a row
    that is a dict gives its keys ([list(row)]); rows are filled up with
    [None] to the longest; the columns are labelled by positions. *)
Definition row_objects (row : json) : list cell :=
  match row with
  | JArr items => map cell_of_json items
  | JObj members => map VStr (keys members)
  | _ => []
  end.

Definition DataFrame_of_rows (rows : list (list cell)) : DataFrame :=
  mkDataFrame (seq 0 (length rows))
    (map (fun j => (decimal j, convert_objects (map (fun row => nth j row VNone) rows)))
         (seq 0 (list_max (map length rows))))
    Positions.

(** The records of a list of dicts; [None] when an element is not a dict
    ([x.keys()] then raises [AttributeError]). *)
Fixpoint records (data : list json) : option (list (dict json)) :=
  match data with
  | [] => Some []
  | JObj members :: rest =>
      match records rest with
      | Some recs => Some (members :: recs)
      | None => None
      end
  | _ :: _ => None
  end.

(** After [_simple_json_normalize] every element is a dict or a list. *)
Definition DataFrame_of_list (data : list json) : exn + DataFrame :=
  match data with
  | JArr _ :: _ => inr (DataFrame_of_rows (map row_objects data))
  | _ =>
      match records data with
      | Some recs => inr (DataFrame_of_records recs)
      | None => inl AttributeError
      end
  end.

(** [DataFrame()] *)
Definition DataFrame_empty : DataFrame := mkDataFrame [] [] Names.

Definition json_normalize (data : json) : exn + DataFrame :=
  match data with
  | JArr [] => inr DataFrame_empty
  | JObj _ => DataFrame_of_list (map simple_json_normalize [data])
  | JArr items => DataFrame_of_list (map simple_json_normalize items)
  | _ => inl NotImplementedError
  end.

(** *** Column access, [select_dtypes], [dropna], [head] *)

(** [df[c]] *)
Definition getitem (df : DataFrame) (c : string) : exn + Series :=
  match dict_get c (df_data df) with
  | Some s => inr s
  | None => inl (KeyError c)
  end.

(** [df[c] = s]: an existing column is replaced where it stands. *)
Definition setitem (df : DataFrame) (c : string) (s : Series) : DataFrame :=
  mkDataFrame (df_index df) (dict_set c s (df_data df)) (df_labels df).

Definition is_number (d : dtype) : bool :=
  match d with int64 | uint64 | float64 => true | _ => false end.

(** [df.select_dtypes(include="number").columns.tolist()] *)
Definition select_dtypes_number (df : DataFrame) : list string :=
  map fst (List.filter (fun cs => is_number (s_dtype (snd cs))) (df_data df)).

(** The cell of a column at a position. *)
Definition cell_at (s : Series) (i : nat) : cell := nth i (s_values s) VNaN.

(** Keeps the entries of [l] whose flag is set. *)
Fixpoint take_mask {A} (mask : list bool) (l : list A) : list A :=
  match mask, l with
  | b :: mask', x :: l' => if b then x :: take_mask mask' l' else take_mask mask' l'
  | _, _ => []
  end.

Fixpoint subset_series (df : DataFrame) (subset : list string)
    : exn + list Series :=
  match subset with
  | [] => inr []
  | c :: rest =>
      match getitem df c, subset_series df rest with
      | inl e, _ => inl e
      | _, inl e => inl e
      | inr s, inr ss => inr (s :: ss)
      end
  end.

(** [df.dropna(subset=...)]: a new table without the rows that are null in
    one of the columns of [subset]; the labels of the other rows are kept. *)
Definition dropna (df : DataFrame) (subset : list string) : exn + DataFrame :=
  match subset_series df subset with
  | inl e => inl e
  | inr ss =>
      let mask := map (fun i => negb (existsb (fun s => isna (cell_at s i)) ss))
                      (seq 0 (len df)) in
      inr (mkDataFrame (take_mask mask (df_index df))
             (map (fun cs => (fst cs, mkSeries (s_dtype (snd cs))
                                        (take_mask mask (s_values (snd cs)))))
                  (df_data df))
             (df_labels df))
  end.

(** [df.head(n)] *)
Definition head (n : nat) (df : DataFrame) : DataFrame :=
  mkDataFrame (firstn n (df_index df))
    (map (fun cs => (fst cs, mkSeries (s_dtype (snd cs))
                               (firstn n (s_values (snd cs)))))
         (df_data df))
    (df_labels df).

(** [df[cols]]: the table of the columns [cols], in that order. *)
Fixpoint getitems (df : DataFrame) (cols : list string) : exn + dict Series :=
  match cols with
  | [] => inr []
  | c :: rest =>
      match getitem df c, getitems df rest with
      | inl e, _ => inl e
      | _, inl e => inl e
      | inr s, inr r => inr ((c, s) :: r)
      end
  end.

Definition select_columns (df : DataFrame) (cols : list string) : exn + DataFrame :=
  match getitems df cols with
  | inr data => inr (mkDataFrame (df_index df) data (df_labels df))
  | inl e => inl e
  end.


(** ** The fragment of Altair the application calls

    Altair is a dependency of the repository, not part of it.  The
    application gives every encoding channel as a shorthand string built
    from a column name ([f"{metric}:Q"], line 106).  Altair reads the
    string when the chart is turned into its specification
    ([Chart.to_dict], called by [st.altair_chart]): [parse_shorthand]
    tries a fixed list of patterns in order and takes the first that fits
    the whole string. *)

Inductive mark : Type := Line | Bar.

Inductive enc_type : Type :=
| Quantitative | Ordinal | Nominal | Temporal | Geojson.

(** The type codes a shorthand may end with, in the order of the pattern. *)
Definition typecodes : list (string * enc_type) :=
  [("ordinal", Ordinal); ("nominal", Nominal); ("quantitative", Quantitative);
   ("temporal", Temporal); ("geojson", Geojson);
   ("O", Ordinal); ("N", Nominal); ("Q", Quantitative); ("T", Temporal);
   ("G", Geojson)].

(** The names Altair's grammar knows as aggregate operations and as time
    units; they depend on its version. *)
Record Altair : Type := mkAltair {
  AGGREGATES : list string;
  TIMEUNITS : list string
}.

(** The type of a channel: written in the shorthand (or implied by it), or
    inferred by Altair from the column of the data that the field names,
    whose dtype is recorded. *)
Inductive channel_type : Type :=
| Given (t : enc_type)
| Inferred (d : dtype).

(** What a shorthand says: an aggregate operation, a time unit, a field
    and a type, each of them optional. *)
Record attrs : Type := mkAttrs {
  a_aggregate : option string;
  a_timeUnit : option string;
  a_field : option string;
  a_type : option channel_type
}.

Fixpoint first_match {A B} (f : A -> option B) (l : list A) : option B :=
  match l with
  | [] => None
  | x :: l' =>
      match f x with
      | Some b => Some b
      | None => first_match f l'
      end
  end.

(** The pattern of a call, a name of [names] followed by the field in
    parentheses: the first name that fits. *)
Definition call_pattern (names : list string) (s : string)
    : option (string * string) :=
  first_match
    (fun name =>
       match strip_prefix (name ++ "(") s with
       | Some rest =>
           match strip_suffix ")" rest with
           | Some f => Some (name, f)
           | None => None
           end
       | None => None
       end)
    names.

(** The pattern of a typed shorthand, a body followed by a colon and a
    type code.  No type code holds a colon, so at most one of them fits. *)
Definition typed_pattern {A} (body : string -> option A) (s : string)
    : option (A * enc_type) :=
  first_match
    (fun tc =>
       match strip_suffix (":" ++ fst tc) s with
       | Some b =>
           match body b with
           | Some a => Some (a, snd tc)
           | None => None
           end
       | None => None
       end)
    typecodes.

Definition is_count (s : string) : option unit :=
  if String.eqb s "count()" then Some tt else None.

(** The patterns, in the order [parse_shorthand] tries them:
    [count():type], [count()], [aggregate(field):type], [aggregate(field)],
    [timeUnit(field):type], [timeUnit(field)], [field:type], [field]. *)
Definition match_patterns (alt : Altair) (s : string) : attrs :=
  match typed_pattern is_count s with
  | Some (_, t) => mkAttrs (Some "count") None None (Some (Given t))
  | None =>
  match is_count s with
  | Some _ => mkAttrs (Some "count") None None None
  | None =>
  match typed_pattern (call_pattern (AGGREGATES alt)) s with
  | Some ((a, f), t) => mkAttrs (Some a) None (Some f) (Some (Given t))
  | None =>
  match call_pattern (AGGREGATES alt) s with
  | Some (a, f) => mkAttrs (Some a) None (Some f) None
  | None =>
  match typed_pattern (call_pattern (TIMEUNITS alt)) s with
  | Some ((u, f), t) => mkAttrs None (Some u) (Some f) (Some (Given t))
  | None =>
  match call_pattern (TIMEUNITS alt) s with
  | Some (u, f) => mkAttrs None (Some u) (Some f) None
  | None =>
  match typed_pattern Some s with
  | Some (f, t) => mkAttrs None None (Some f) (Some (Given t))
  | None => mkAttrs None None (Some s) None
  end end end end end end end.

Definition backslash : ascii := ascii_of_nat 92.

(** The dtype of the column that a field names in the data, backslashes
    removed; a table labelled by positions has no column named by a
    string. *)
Definition column_dtype (data : DataFrame) (f : string) : option dtype :=
  match df_labels data with
  | Names =>
      match dict_get (remove_char backslash f) (df_data data) with
      | Some s => Some (s_dtype s)
      | None => None
      end
  | Positions => None
  end.

(** A colon in the field that no backslash precedes: Altair takes what
    follows it for a type code that it does not know. *)
Definition unescaped_colon (f : string) : bool :=
  match before_last ":" f with
  | Some b => negb (Ascii.eqb b backslash)
  | None => false
  end.

(** [parse_shorthand(shorthand, data)]: the first pattern that fits; a
    lone [count()] is quantitative; a time unit without a type is
    temporal; a field without a type gets the type of its column; and an
    unescaped colon left in the field raises [ValueError]. *)
Definition parse_shorthand (alt : Altair) (shorthand : string) (data : DataFrame)
    : exn + attrs :=
  if String.eqb shorthand EmptyString then inr (mkAttrs None None None None)
  else
    let a := match_patterns alt shorthand in
    let t :=
      match a_type a, a_aggregate a, a_timeUnit a, a_field a with
      | Some t, _, _, _ => Some t
      | None, Some _, None, None => Some (Given Quantitative)
      | None, _, Some _, _ => Some (Given Temporal)
      | None, _, None, Some f =>
          match column_dtype data f with
          | Some d => Some (Inferred d)
          | None => None
          end
      | None, None, None, None => None
      end in
    if match a_field a with Some f => unescaped_colon f | None => false end
    then inl ValueError
    else inr (mkAttrs (a_aggregate a) (a_timeUnit a) (a_field a) t).

(** A channel of the chart specification ([to_dict] of [alt.X], [alt.Y]
    and of a tooltip): the parsed shorthand; a channel left without a type
    raises [ValueError]. *)
Definition channel (alt : Altair) (data : DataFrame) (shorthand : string)
    : exn + attrs :=
  match parse_shorthand alt shorthand data with
  | inr a =>
      match a_type a with
      | Some _ => inr a
      | None => inl ValueError
      end
  | inl e => inl e
  end.

Fixpoint channels (alt : Altair) (data : DataFrame) (shorthands : list string)
    : exn + list attrs :=
  match shorthands with
  | [] => inr []
  | sh :: rest =>
      match channel alt data sh, channels alt data rest with
      | inl e, _ => inl e
      | _, inl e => inl e
      | inr a, inr r => inr (a :: r)
      end
  end.

(** The chart object the application builds: its data, its mark and the
    shorthands of its channels. *)
Record Chart : Type := mkChartObject {
  c_data : DataFrame;
  c_mark : mark;
  c_x : string;
  c_bin : bool;
  c_y : string;
  c_tooltip : list string
}.

(** The chart specification that is drawn. *)
Record chart : Type := mkChart {
  ch_data : DataFrame;
  ch_mark : mark;
  ch_x : attrs;
  ch_bin : bool;
  ch_y : attrs;
  ch_tooltip : list attrs
}.

(** [Chart.to_dict()] *)
Definition to_dict (alt : Altair) (c : Chart) : exn + chart :=
  match channel alt (c_data c) (c_x c),
        channel alt (c_data c) (c_y c),
        channels alt (c_data c) (c_tooltip c) with
  | inr x, inr y, inr tips =>
      inr (mkChart (c_data c) (c_mark c) x (c_bin c) y tips)
  | inl e, _, _ => inl e
  | _, inl e, _ => inl e
  | _, _, inl e => inl e
  end.

(** Lines 101-110 and 121-126. *)
Definition line_chart (data : DataFrame) (date_col metric : string) : Chart :=
  mkChartObject data Line (date_col ++ ":T") false (metric ++ ":Q")
                [date_col; metric].

Definition histogram (data : DataFrame) (metric : string) : Chart :=
  mkChartObject data Bar (metric ++ ":Q") true "count()" [].

(** ** The page, as Streamlit builds it during one run of the script

    The elements that carry data or depend on it.  Spinners, dividers and
    the page chrome are left out. *)

Inductive message : Type :=
| NoNumericFields                           (* line 113 *)
| LoadFailed (name : string) (exc : exn)    (* line 166 *)
| EmptySelection.                           (* line 156 *)

Inductive caption : Type :=
| StatsHeading | PreviewHeading | SummaryHeading.

Record summary_row : Type := mkRow {
  row_name : string;
  row_url : string;
  row_records : nat;
  row_fields : nat;
  row_updated : string
}.

(** [StatsTable described] shows [described.describe().T]: the statistics
    pandas computes for the columns of [described].  They are
    floating-point reductions of the cells and are not evaluated in this
    development. *)
Inductive element : Type :=
| Subheader (name : string)
| Counts (records fields : nat)
| Selectbox (key : string) (options : list string)
| AltairChart (c : chart)
| Info (m : message)
| Error (m : message)
| Caption (c : caption)
| StatsTable (described : DataFrame)
| Preview (df : DataFrame)
| SummaryTable (rows : list summary_row).

(** ** The world of the application

    - [now]: the clock, in seconds;
    - [cache]: the store of [st.cache_data], per URL the time the entry was
      written and the value [fetch_data] returned;
    - [requests]: the URLs requested from the network, oldest first;
    - [page]: the elements drawn by the current run, oldest first;
    - [widget_keys]: the widget keys registered by the current run. *)

Record World : Type := mkWorld {
  now : nat;
  cache : gmap string (nat * (DataFrame * string));
  requests : list string;
  page : list element;
  widget_keys : list string
}.

(** An HTTP response: status, body text and what [response.json()] gives
    ([None] when it raises [JSONDecodeError]). *)
Record Response : Type := mkResponse {
  status_code : Z;
  text : string;
  json_ : option json
}.

(** What [requests.get] does: the seconds it took and the response
    ([None] when no response came: connection error or timeout). *)
Record Reply : Type := mkReply {
  elapsed : nat;
  response : option Response
}.

(** Computations of the application: they read and change the world and
    either return a value or raise. *)
Definition M (A : Type) : Type := World -> (exn + A) * World.

Definition ret {A} (a : A) : M A := fun w => (inr a, w).

Definition raise {A} (e : exn) : M A := fun w => (inl e, w).

Definition bind {A B} (m : M A) (f : A -> M B) : M B :=
  fun w => match m w with
           | (inr a, w') => f a w'
           | (inl e, w') => (inl e, w')
           end.

(** [try: m except Exception as exc: handler(exc)] *)
Definition try_except {A} (m : M A) (handler : exn -> M A) : M A :=
  fun w => match m w with
           | (inr a, w') => (inr a, w')
           | (inl e, w') => handler e w'
           end.

Definition lift {A} (r : exn + A) : M A :=
  match r with
  | inr a => ret a
  | inl e => raise e
  end.

Notation "x <- m ;; k" := (bind m (fun x => k))
  (at level 90, m at level 89, right associativity).
Notation "m ;;; k" := (bind m (fun _ => k))
  (at level 90, right associativity).

(** The cache's time-to-live, in seconds (line 66). *)
Definition ttl : nat := 900.

Section App.

(** The surroundings of the application:
    - [alt]: the vocabulary of the installed Altair;
    - [http_get url t]: what [requests.get(url, timeout=30)] does when it
      is called at time [t];
    - [json_loads]: [json.loads], [None] when it raises [JSONDecodeError];
    - [utcnow_str t]: [datetime.utcnow().strftime(...)] at time [t];
    - [parse_datetime s c]: the timestamp [pd.to_datetime] reads in the
      cell [c] of the column [s] ([None] when it reads none);
    - [user_choice key]: the position the user picked in the select box
      [key] (0, the first option, for a box left untouched);
    - [draw_time e t]: the seconds that pass until the element [e], begun
      at time [t], is on the page (with the computing that led to it). *)
Variable alt : Altair.
Variable http_get : string -> nat -> Reply.
Variable json_loads : string -> option json.
Variable utcnow_str : nat -> string.
Variable parse_datetime : Series -> cell -> option Z.
Variable user_choice : string -> nat.
Variable draw_time : element -> nat -> nat.

(** The world after an element has been drawn. *)
Definition draw (e : element) (w : World) : World :=
  mkWorld (now w + draw_time e (now w)) (cache w) (requests w)
          (page w ++ [e]) (widget_keys w).

(** [st.<element>(...)]: draws an element on the page. *)
Definition emit (e : element) : M unit :=
  fun w => (inr tt, draw e w).

(** *** [fetch_data] (app.py, lines 66-76) *)

(** [requests.get]: the call is logged and takes its time. *)
Definition requests_get (url : string) : M Response :=
  fun w =>
    let r := http_get url (now w) in
    let w' := mkWorld (now w + elapsed r) (cache w) (requests w ++ [url])
                      (page w) (widget_keys w) in
    match response r with
    | Some resp => (inr resp, w')
    | None => (inl RequestException, w')
    end.

Definition raise_for_status (resp : Response) : M unit :=
  if ((400 <=? status_code resp) && (status_code resp <? 600))%Z
  then raise (HTTPError (status_code resp))
  else ret tt.

(** Lines 71-74: [response.json()], and [json.loads(text)] when that
    raises [JSONDecodeError]. *)
Definition parse_payload (resp : Response) : M json :=
  let text := text resp in
  match json_ resp with
  | Some payload => ret payload
  | None =>
      match json_loads text with
      | Some payload => ret payload
      | None => raise JSONDecodeError
      end
  end.

Definition clock : M nat := fun w => (inr (now w), w).

(** The body of [fetch_data], lines 68-76. *)
Definition fetch_data_body (url : string) : M (DataFrame * string) :=
  resp <- requests_get url ;;
  raise_for_status resp ;;;
  payload <- parse_payload resp ;;
  df <- lift (json_normalize payload) ;;
  t <- clock ;;
  ret (df, utcnow_str t).

(** [@st.cache_data(ttl=900)]: an entry younger than [ttl] is returned
    without running the body; otherwise the body runs, an expired entry
    is dropped, and the value the body returns is stored with the time.
    A raised exception is not stored.  The caller gets a copy of the
    entry: what it does to the table does not reach the cache. *)
Definition cache_data (body : string -> M (DataFrame * string)) (url : string)
    : M (DataFrame * string) :=
  fun w =>
    match cache w !! url with
    | Some (stored, value) =>
        if (now w <? stored + ttl)%nat then (inr value, w)
        else
          match body url (mkWorld (now w) (delete url (cache w)) (requests w)
                                  (page w) (widget_keys w)) with
          | (inr value', w') =>
              (inr value', mkWorld (now w') (<[url := (now w', value')]> (cache w'))
                                   (requests w') (page w') (widget_keys w'))
          | (inl e, w') => (inl e, w')
          end
    | None =>
        match body url w with
        | (inr value', w') =>
            (inr value', mkWorld (now w') (<[url := (now w', value')]> (cache w'))
                                 (requests w') (page w') (widget_keys w'))
        | (inl e, w') => (inl e, w')
        end
    end.

Definition fetch_data : string -> M (DataFrame * string) :=
  cache_data fetch_data_body.

(** *** [render_dataset] (app.py, lines 86-134) *)

(** [pd.to_datetime(s, errors="coerce")]: a datetime column; a null cell
    and a cell that holds no readable date become [NaT]. *)
Definition to_datetime (s : Series) : Series :=
  mkSeries datetime64
    (map (fun c => if isna c then VNaT
                   else match parse_datetime s c with
                        | Some ns => VTimestamp ns
                        | None => VNaT
                        end)
         (s_values s)).

(** [st.selectbox(label, options, key=key)]: registers the key, which
    must be new in this run, draws the box and returns the option
    picked. *)
Definition picked (key : string) (options : list string) : string :=
  nth (user_choice key) options (List.hd EmptyString options).

Definition selectbox (key : string) (options : list string) : M string :=
  fun w =>
    if existsb (String.eqb key) (widget_keys w)
    then (inl (DuplicateWidgetID key), w)
    else (inr (picked key options),
          mkWorld (now w + draw_time (Selectbox key options) (now w))
                  (cache w) (requests w)
                  (page w ++ [Selectbox key options]) (widget_keys w ++ [key])).

(** [st.altair_chart(chart)]: the chart is turned into its specification,
    which is drawn. *)
Definition altair_chart (c : Chart) : M unit :=
  spec <- lift (to_dict alt c) ;;
  emit (AltairChart spec).

(** The widget keys [f"metric_{name}"] and [f"dist_{name}"]. *)
Definition metric_key (name : string) : string := ("metric_" ++ name)%string.
Definition dist_key (name : string) : string := ("dist_" ++ name)%string.

(** [if date_col:] holds for a string that is not empty. *)
Definition truthy (o : option string) : option string :=
  match o with
  | Some s => if String.eqb s EmptyString then None else Some s
  | None => None
  end.

(** The table is a mutable object: the result is the table as
    [render_dataset] leaves it. *)
Definition render_dataset (name : string) (df : DataFrame) : M DataFrame :=
  emit (Subheader name) ;;;
  emit (Counts (len df) (length (columns df))) ;;;
  date_col <- lift (detect_date_column df) ;;
  let numeric_cols := select_dtypes_number df in
  df <- match truthy date_col with
        | Some date_col =>
            s <- lift (getitem df date_col) ;;
            let df := setitem df date_col (to_datetime s) in
            match numeric_cols with
            | _ :: _ =>
                metric <- selectbox (metric_key name) numeric_cols ;;
                data <- lift (dropna df [date_col; metric]) ;;
                altair_chart (line_chart data date_col metric) ;;;
                ret df
            | [] => emit (Info NoNumericFields) ;;; ret df
            end
        | None =>
            match numeric_cols with
            | _ :: _ =>
                metric <- selectbox (dist_key name) numeric_cols ;;
                data <- lift (dropna df [metric]) ;;
                altair_chart (histogram data metric) ;;;
                ret df
            | [] => ret df
            end
        end ;;
  match numeric_cols with
  | _ :: _ =>
      emit (Caption StatsHeading) ;;;
      described <- lift (select_columns df numeric_cols) ;;
      emit (StatsTable described)
  | [] => ret tt
  end ;;;
  emit (Caption PreviewHeading) ;;;
  emit (Preview (head 50 df)) ;;;
  ret df.

(** *** The script (app.py, lines 155-190) *)

(** Lines 161-177. *)
Fixpoint summary_loop (selected_urls : list (string * string))
    (summary_rows : list summary_row) : M (list summary_row) :=
  match selected_urls with
  | [] => ret summary_rows
  | (name, url) :: rest =>
      fetched <- try_except
                   (r <- fetch_data url ;; ret (Some r))
                   (fun exc => emit (Error (LoadFailed name exc)) ;;; ret None) ;;
      match fetched with
      | None => summary_loop rest summary_rows
      | Some (df, fetched_at) =>
          summary_loop rest
            (summary_rows ++
             [mkRow name url (len df) (length (columns df)) fetched_at])
      end
  end.

(** Lines 184-190: the call of [render_dataset] stands after the [try]
    statement. *)
Fixpoint analytics_loop (selected_urls : list (string * string)) : M unit :=
  match selected_urls with
  | [] => ret tt
  | (name, url) :: rest =>
      fetched <- try_except
                   (r <- fetch_data url ;; ret (Some r))
                   (fun _ => ret None) ;;
      match fetched with
      | None => analytics_loop rest
      | Some (df, _) => render_dataset name df ;;; analytics_loop rest
      end
  end.

Definition script (selected_urls : list (string * string)) : M unit :=
  match selected_urls with
  | [] => emit (Info EmptySelection)
  | _ :: _ =>
      summary_rows <- summary_loop selected_urls [] ;;
      emit (Caption SummaryHeading) ;;;
      emit (SummaryTable summary_rows) ;;;
      analytics_loop selected_urls
  end.

(** One run of the script: the page and the widget keys start empty, the
    cache and the clock are those the previous run left. *)
Definition run (selected_urls : list (string * string)) (w : World)
    : (exn + unit) * World :=
  script selected_urls (mkWorld (now w) (cache w) (requests w) [] []).

End App.

(** ** The catalogue and the sidebar (app.py, lines 12-55 and 137-157)

    An item of the catalogue is the pair of its name and its URL. *)

Definition CATEGORIES : list (string * list (string * string)) :=
  [("Макро індикатори",
    [("Офіційні курси валют (щоденно)",
      "https://bank.gov.ua/NBUStatService/v1/statdirectory/exchange?json");
     ("Облікова ставка НБУ",
      "https://bank.gov.ua/NBUStatService/v1/statdirectory/discount?json");
     ("Ставки за операціями НБУ",
      "https://bank.gov.ua/NBUStatService/v1/statdirectory/interest?json")]);
   ("Фінансові ринки",
    [("Кредити за класами",
      "https://bank.gov.ua/NBUStatService/v1/statdirectory/credit?json");
     ("Депозити",
      "https://bank.gov.ua/NBUStatService/v1/statdirectory/deposit?json")]);
   ("Банки",
    [("Реєстр банків",
      "https://bank.gov.ua/NBUStatService/v1/statdirectory/bank?json")]);
   ("Міжнародні фінанси",
    [("Офіційні резерви",
      "https://bank.gov.ua/NBUStatService/v1/statdirectory/res?json")]);
   ("Ринки капіталу",
    [("Цінні папери (реєстр)",
      "https://bank.gov.ua/NBUStatService/v1/statdirectory/securities?json")])].

Section Sidebar.

(** What the user has done in the sidebar: [ticked key] is the state of the
    checkbox [key]; [custom_name] and [custom_url] are the two text
    inputs. *)
Variable ticked : string -> bool.
Variable custom_name : string.
Variable custom_url : string.

(** [st.checkbox(label, key=key)]: registers the key, which must be new in
    this run, and returns the state of the box. *)
Definition checkbox (key : string) : M bool :=
  fun w =>
    if existsb (String.eqb key) (widget_keys w)
    then (inl (DuplicateWidgetID key), w)
    else (inr (ticked key),
          mkWorld (now w) (cache w) (requests w) (page w) (widget_keys w ++ [key])).

(** Lines 143-145: the checkboxes of one category. *)
Fixpoint sidebar_datasets (datasets : list (string * string))
    (selected_urls : list (string * string)) : M (list (string * string)) :=
  match datasets with
  | [] => ret selected_urls
  | (name, url) :: rest =>
      b <- checkbox url ;;
      sidebar_datasets rest
        (if b then selected_urls ++ [(name, url)] else selected_urls)
  end.

(** Lines 141-145. *)
Fixpoint sidebar_categories (categories : list (string * list (string * string)))
    (selected_urls : list (string * string)) : M (list (string * string)) :=
  match categories with
  | [] => ret selected_urls
  | (_, datasets) :: rest =>
      selected_urls <- sidebar_datasets datasets selected_urls ;;
      sidebar_categories rest selected_urls
  end.

(** Lines 149-152: the custom dataset; [custom_name or "Custom dataset"]. *)
Definition custom_entry : list (string * string) :=
  if String.eqb custom_url EmptyString then []
  else [(if String.eqb custom_name EmptyString then "Custom dataset"
         else custom_name,
         custom_url)].

(** Lines 137-152. *)
Definition sidebar : M (list (string * string)) :=
  selected_urls <- sidebar_categories CATEGORIES [] ;;
  ret (selected_urls ++ custom_entry).

Variable alt : Altair.
Variable http_get : string -> nat -> Reply.
Variable json_loads : string -> option json.
Variable utcnow_str : nat -> string.
Variable parse_datetime : Series -> cell -> option Z.
Variable user_choice : string -> nat.
Variable draw_time : element -> nat -> nat.

(** One run of the whole script: the sidebar, then lines 155-190, from an
    empty page and no widget key. *)
Definition app (w : World) : (exn + unit) * World :=
  (selected_urls <- sidebar ;;
   script alt http_get json_loads utcnow_str parse_datetime user_choice draw_time
          selected_urls)
    (mkWorld (now w) (cache w) (requests w) [] []).

End Sidebar.

(** The items of the catalogue, in order, and those whose box is ticked. *)
Definition catalogue : list (string * string) := flat_map snd CATEGORIES.

Definition ticked_items (ticked : string -> bool) : list (string * string) :=
  List.filter (fun item => ticked (snd item)) catalogue.

(** ** Reading a table and a page *)

(** The world with other widget keys. *)
Definition with_widget_keys (w : World) (ks : list string) : World :=
  mkWorld (now w) (cache w) (requests w) (page w) ks.

(** The world after a widget key has been registered, and after a list of
    elements has been drawn, one after the other. *)
Definition register (key : string) (w : World) : World :=
  with_widget_keys w (widget_keys w ++ [key]).

Definition draws (draw_time : element -> nat -> nat) (es : list element)
    (w : World) : World :=
  fold_left (fun w e => draw draw_time e w) es w.

(** The table invariant: every column has one cell per row. *)
Definition well_formed (df : DataFrame) : Prop :=
  Forall (fun cs => length (s_values (snd cs)) = len df) (df_data df).

(** A row: its label and its cells, by column. *)
Definition table_row : Type := (nat * dict cell)%type.

Definition row_at (df : DataFrame) (i : nat) : table_row :=
  (nth i (df_index df) 0%nat,
   map (fun cs => (fst cs, cell_at (snd cs) i)) (df_data df)).

(** The rows of a table, in order. *)
Definition rows (df : DataFrame) : list table_row :=
  map (row_at df) (seq 0 (len df)).

(** Whether the cell of a row in the column [c] is null. *)
Definition row_isna (r : table_row) (c : string) : bool :=
  match dict_get c (snd r) with
  | Some v => isna v
  | None => false
  end.

Definition charts (pg : list element) : list chart :=
  flat_map (fun e => match e with AltairChart c => [c] | _ => [] end) pg.


Definition errors (pg : list element) : list message :=
  flat_map (fun e => match e with Error m => [m] | _ => [] end) pg.

Definition stats_tables (pg : list element) : list DataFrame :=
  flat_map (fun e => match e with StatsTable t => [t] | _ => [] end) pg.

Definition previews (pg : list element) : list DataFrame :=
  flat_map (fun e => match e with Preview t => [t] | _ => [] end) pg.

Definition subheaders (pg : list element) : list string :=
  flat_map (fun e => match e with Subheader n => [n] | _ => [] end) pg.

(** A widget key that no widget of the run has taken. *)
Definition fresh_key (key : string) (w : World) : Prop :=
  existsb (String.eqb key) (widget_keys w) = false.

(** The payload lines 71-74 settle on: the first reading, else the second;
    and whether a payload is an array or an object. *)
Definition read_payload (json_loads : string -> option json) (resp : Response)
    : option json :=
  match json_ resp with
  | Some payload => Some payload
  | None => json_loads (text resp)
  end.

Definition is_container (payload : json) : bool :=
  match payload with JArr _ | JObj _ => true | _ => false end.

(** A status that [raise_for_status] lets through. *)
Definition status_ok (resp : Response) : bool :=
  negb ((400 <=? status_code resp)%Z && (status_code resp <? 600)%Z).

(** Every entry of the cache was written at a time that has come, carries
    the timestamp of that time, and holds a table that keeps the table
    invariant. *)
Definition cache_ok (utcnow_str : nat -> string) (w : World) : Prop :=
  forall url stored df fetched_at,
    cache w !! url = Some (stored, (df, fetched_at)) ->
    (stored <= now w)%nat /\ fetched_at = utcnow_str stored /\
    well_formed df /\ NoDup (columns df).


(** What a pass may do to the clock and the request log: the clock does
    not go back, and the requests added are at most [n], all for URLs of
    [urls]. *)
Definition advances (n : nat) (urls : list string) (w w' : World) : Prop :=
  (now w <= now w')%nat /\
  exists extra, requests w' = requests w ++ extra /\
                (length extra <= n)%nat /\
                forall u, In u extra -> In u urls.

(** The key of the select box [render_dataset] draws for a table with
    numeric columns. *)
Definition chart_key (name : string) (df : DataFrame) : string :=
  match detect_date_column df with
  | inr (Some _) => metric_key name
  | _ => dist_key name
  end.

(** A name that every pattern of the shorthand but the plain field passes
    by: it is not empty, holds neither a colon nor a backslash, and does
    not end with a closing parenthesis. *)
Definition plain_name (s : string) : bool :=
  negb (String.eqb s EmptyString)
  && negb (contains ":" s)
  && negb (contains (String backslash EmptyString) s)
  && negb (endswith ")" s).

(** The channel that shows the field [f] with the type [t]. *)
Definition field_channel (f : string) (t : channel_type) : attrs :=
  mkAttrs None None (Some f) (Some t).

(** The channel that counts the rows. *)
Definition count_channel : attrs :=
  mkAttrs (Some "count") None None (Some (Given Quantitative)).

(** A table whose columns are named by strings that are plain names. *)
Definition chartable (df : DataFrame) : Prop :=
  df_labels df = Names /\ Forall (fun c => plain_name c = true) (columns df).


(** An array that starts with an element that is not an array and holds
    an array further on. *)
Definition is_list (v : json) : bool :=
  match v with JArr _ => true | _ => false end.

Definition mixed_array (payload : json) : bool :=
  match payload with
  | JArr (first :: rest) => negb (is_list first) && existsb is_list rest
  | _ => false
  end.



(** ** Tables used as examples *)

(** The spec's reading of "date-like": the lowercased name contains "date"
    or ends with "dt". *)
Definition date_like (col : string) : Prop :=
  (exists a b : string, lower col = (a ++ "date" ++ b)%string) \/
  (exists a : string, lower col = (a ++ "dt")%string).

(** An object none of whose values is an object. *)
Definition flat (o : dict json) : bool :=
  forallb (fun kv => negb (is_dict (snd kv))) o.

Definition str_column (vals : list string) : Series :=
  mkSeries object_ (map VStr vals).

(** Columns [start_date], [end_date], [value]. *)
Definition df_two_dates : DataFrame :=
  mkDataFrame [0; 1]%nat
    [("start_date", str_column ["2024-01-01"; "2024-01-02"]);
     ("end_date", str_column ["2024-02-01"; "2024-02-02"]);
     ("value", mkSeries int64 [VInt 5; VInt 7])]
    Names.

(** A feed whose record has a nested object. *)
Definition nested_feed : json :=
  JArr [JObj [("a", JObj [("b", JInt 1)])]].

(** The records of a feed of exchange rates; the second lacks [rate]. *)
Definition rate_records : list (dict json) :=
  [[("date", JStr "2024-01-01"); ("rate", JFloat (55 # 2))];
   [("date", JStr "2024-01-02")]].






(** A feed whose record has a key with a colon, and a feed that is a list
    of lists. *)
Definition feed_with_colon : json :=
  JArr [JObj [("a:b", JInt 1)]].

Definition feed_of_lists : json :=
  JArr [JArr [JInt 1; JInt 2]].

(** A feed whose record has a key that reads like a call. *)
Definition feed_with_call : json :=
  JArr [JObj [("sum(x)", JInt 1)]].

(** The table of the feed
    [[{"date":"2024-01-01","rate":27.5},{"date":"2024-01-02","rate":27.6}]]. *)
Definition df_rates : DataFrame :=
  mkDataFrame [0; 1]%nat
    [("date", str_column ["2024-01-01"; "2024-01-02"]);
     ("rate", mkSeries float64 [VFloat (55 # 2); VFloat (138 # 5)])]
    Names.


(** The object [{"id":"UAH","name":"Hryvnia"}]. *)
Definition currency_object : dict json :=
  [("id", JStr "UAH"); ("name", JStr "Hryvnia")].

(** A table of sixty rows. *)
Definition df_sixty : DataFrame :=
  mkDataFrame (seq 0 60)
    [("n", mkSeries int64 (map (fun i => VInt (Z.of_nat i)) (seq 0 60)))]
    Names.

(** A table without a date column; its second row has no amount. *)
Definition df_amounts : DataFrame :=
  mkDataFrame [0; 1; 2]%nat
    [("bank", str_column ["A"; "B"; "C"]);
     ("amount", mkSeries float64 [VFloat 10; VNaN; VFloat 30])]
    Names.

(** The dates [pd.to_datetime] reads in the examples, in nanoseconds since
    the epoch. *)
Definition example_dates (_ : Series) (c : cell) : option Z :=
  match c with
  | VStr s =>
      if String.eqb s "2024-01-01" then Some 1704067200000000000%Z
      else if String.eqb s "2024-01-02" then Some 1704153600000000000%Z
      else None
  | _ => None
  end.

(** Some of the aggregate operations and time units of Altair 5. *)
Definition example_altair : Altair :=
  mkAltair ["count"; "sum"; "mean"; "median"; "min"; "max"]
           ["year"; "quarter"; "month"; "date"; "day"; "hours"].

(** The double-quote character, and a body that is the JSON string whose
    content is the JSON text of the empty array: a double-encoded
    payload. *)
Definition quote : string := String (ascii_of_nat 34) EmptyString.

Definition double_encoded_body : string := (quote ++ "[]" ++ quote)%string.

(** What [json.loads] reads in the texts of the examples. *)
Definition example_loads (s : string) : option json :=
  if String.eqb s "[]" then Some (JArr [])
  else if String.eqb s double_encoded_body then Some (JStr "[]")
  else None.

(** A server that answers every request at once, status 200, with the
    double-encoded body, which [response.json()] reads as a string. *)
Definition double_encoding_server (_ : string) (_ : nat) : Reply :=
  mkReply 0 (Some (mkResponse 200 double_encoded_body (Some (JStr "[]")))).

Definition example_utcnow (_ : nat) : string := "2024-01-01 00:00 UTC".

(** A server that answers every request after one second with the empty
    array. *)
Definition empty_feed_server (_ : string) (_ : nat) : Reply :=
  mkReply 1 (Some (mkResponse 200 "[]" (Some (JArr [])))).

(** A server that answers every request at once with a feed of one record
    and one numeric field. *)
Definition amount_body : string :=
  ("[{" ++ quote ++ "amount" ++ quote ++ ": 1}]")%string.

Definition amount_server (_ : string) (_ : nat) : Reply :=
  mkReply 0 (Some (mkResponse 200 amount_body
                              (Some (JArr [JObj [("amount", JInt 1)]])))).

(** A server that cannot be reached for the URL [u1] and answers like
    [amount_server] for the others. *)
Definition flaky_server (url : string) (t : nat) : Reply :=
  if String.eqb url "u1" then mkReply 0 None else amount_server url t.

(** A server whose feed was empty during the first thousand seconds and
    has one record since; it answers after two seconds. *)
Definition growing_server (url : string) (t : nat) : Reply :=
  if (t <? 1000)%nat then mkReply 2 (Some (mkResponse 200 "[]" (Some (JArr []))))
  else mkReply 2 (Some (mkResponse 200 amount_body
                                   (Some (JArr [JObj [("amount", JInt 1)]])))).

(** A server that answers with a given payload, at once. *)
Definition serving (payload : json) (_ : string) (_ : nat) : Reply :=
  mkReply 0 (Some (mkResponse 200 EmptyString (Some payload))).

(** A selection in which two datasets carry the same name: a dataset of
    the catalogue and, last, a custom dataset given the same name. *)
Definition selection_with_twins : list (string * string) :=
  [("B", "u3"); ("A", "u1"); ("A", "u2")].

(** A user who leaves every select box untouched, and one who picks the
    second option in every select box. *)
Definition first_option (_ : string) : nat := 0%nat.

(** Elements that are drawn in no time, elements that take a second each
    and elements that take a minute each. *)
Definition instant (_ : element) (_ : nat) : nat := 0%nat.

(** A world at time 0: nothing cached, requested or drawn. *)
Definition world0 : World := mkWorld 0 ∅ [] [] [].

(** A world at time 1000 whose cache holds, for the URL [u], the empty
    table fetched at time 0. *)
Definition world_stale : World :=
  mkWorld 1000 {[ "u" := (0%nat, (DataFrame_empty, "2024-01-01 00:00 UTC")) ]}
          [] [] [].
(** * Properties *)

(** ** Strings *)

Lemma startswith_spec (p s : string) :
  startswith p s = true <-> exists r : string, s = (p ++ r)%string.
Proof.
  revert s; induction p as [|a p IH]; intros s; simpl.
  - split; [intros _; now exists s | reflexivity].
  - destruct s as [|b s]; simpl.
    + split; [discriminate | intros [r Hr]; discriminate].
    + rewrite andb_true_iff, IH. split.
      * intros [Hab [r ->]]. apply Ascii.eqb_eq in Hab as ->. now exists r.
      * intros [r Hr]. injection Hr as -> ->. split; [apply Ascii.eqb_refl | now exists r].
Qed.

Lemma contains_spec (sub s : string) :
  contains sub s = true <-> exists a b : string, s = (a ++ sub ++ b)%string.
Proof.
  induction s as [|c s IH]; simpl.
  - rewrite orb_false_r, startswith_spec. split.
    + intros [r Hr]. now exists EmptyString, r.
    + intros [a [b H]]. destruct a; simpl in H; [now exists b | discriminate].
  - rewrite orb_true_iff, startswith_spec, IH. split.
    + intros [[r Hr] | [a [b ->]]].
      * now exists EmptyString, r.
      * now exists (String c a), b.
    + intros [a [b H]]. destruct a as [|c' a]; simpl in H.
      * left. now exists b.
      * right. injection H as -> ->. now exists a, b.
Qed.

Lemma endswith_spec (suf s : string) :
  endswith suf s = true <-> exists a : string, s = (a ++ suf)%string.
Proof.
  induction s as [|c s IH]; cbn [endswith].
  - rewrite orb_false_r, String.eqb_eq. split.
    + intros <-. now exists EmptyString.
    + intros [a H]. destruct a; [exact H | discriminate H].
  - rewrite orb_true_iff, String.eqb_eq, IH. split.
    + intros [<- | [a ->]].
      * now exists EmptyString.
      * now exists (String c a).
    + intros [a H]. destruct a as [|c' a].
      * left. exact H.
      * right. injection H as -> ->. now exists a.
Qed.

Lemma is_date_name_spec (col : string) :
  is_date_name col = true <-> date_like col.
Proof.
  unfold is_date_name, date_like.
  now rewrite orb_true_iff, contains_spec, endswith_spec.
Qed.

Lemma is_date_name_false (col : string) :
  is_date_name col = false <-> ~ date_like col.
Proof.
  rewrite <- is_date_name_spec. destruct (is_date_name col); split; congruence.
Qed.

Lemma detect_in_Some (cols : list string) (col : string) :
  detect_in cols = Some col <->
  exists before after,
    cols = before ++ col :: after /\ date_like col /\
    Forall (fun c => ~ date_like c) before.
Proof.
  induction cols as [|c cols IH]; simpl.
  - split; [discriminate | intros (b & a & H & _); destruct b; discriminate].
  - destruct (is_date_name c) eqn:E.
    + split.
      * intros [= <-]. exists [], cols.
        repeat split; [now apply is_date_name_spec | constructor].
      * intros (b & a & H & Hd & Hb). destruct b as [|c' b]; simpl in H.
        -- congruence.
        -- injection H as <- _. apply Forall_inv in Hb.
           apply is_date_name_spec in E. contradiction.
    + rewrite IH. apply is_date_name_false in E. split.
      * intros (b & a & -> & Hd & Hb). exists (c :: b), a.
        repeat split; auto.
      * intros (b & a & H & Hd & Hb). destruct b as [|c' b]; simpl in H.
        -- injection H as <- _. contradiction.
        -- injection H as <- ->. exists b, a. repeat split; auto.
           now apply Forall_inv_tail in Hb.
Qed.

Lemma detect_in_None (cols : list string) :
  detect_in cols = None <-> Forall (fun c => ~ date_like c) cols.
Proof.
  induction cols as [|c cols IH]; simpl.
  - split; [constructor | reflexivity].
  - destruct (is_date_name c) eqn:E.
    + split; [discriminate |].
      intros H. apply Forall_inv in H. apply is_date_name_spec in E. contradiction.
    + rewrite IH. apply is_date_name_false in E. split.
      * now constructor.
      * apply Forall_inv_tail.
Qed.


Lemma detect_date_column_names (df : DataFrame) :
  df_labels df = Names -> detect_date_column df = inr (detect_in (columns df)).
Proof. unfold detect_date_column. now intros ->. Qed.

Lemma detect_date_column_cases (df : DataFrame) :
  (detect_date_column df = inr (detect_in (columns df)) /\
   (df_labels df = Names \/ columns df = [])) \/
  (detect_date_column df = inl AttributeError /\
   df_labels df = Positions /\ columns df <> []).
Proof.
  unfold detect_date_column.
  destruct (df_labels df); [left; split; [reflexivity | now left] |].
  destruct (columns df); [left; split; [reflexivity | now right] |].
  right. repeat split. discriminate.
Qed.

(** C3: [detect_date_column] returns the first column, in column order,
    whose lowercased name contains "date" or ends with "dt": every column
    before it fails the test and columns after it play no part; it returns
    nothing exactly when no column passes the test; two tables with the
    same column names get the same answer whatever their cells hold; and
    for the columns start_date, end_date, value the answer is
    start_date.  (This for a table whose columns are named by strings.  On
    a table labelled by positions that has a column, and only there, the
    call raises [AttributeError].) *)
Theorem detect_date_column_first_match (df : DataFrame) :
  (forall col,
     detect_date_column df = inr (Some col) <->
     df_labels df = Names /\
     exists before after,
       columns df = before ++ col :: after /\ date_like col /\
       Forall (fun c => ~ date_like c) before) /\
  (detect_date_column df = inr None <->
   (df_labels df = Names \/ columns df = []) /\
   Forall (fun c => ~ date_like c) (columns df)) /\
  (forall e,
     detect_date_column df = inl e <->
     e = AttributeError /\ df_labels df = Positions /\ columns df <> []) /\
  (forall df', columns df' = columns df -> df_labels df' = df_labels df ->
               detect_date_column df' = detect_date_column df) /\
  (df_labels df = Names ->
   columns df = ["start_date"; "end_date"; "value"] ->
   detect_date_column df = inr (Some "start_date")).
Proof.
  split; [| split; [| split; [| split]]].
  - intros col.
    destruct (detect_date_column_cases df) as [[-> Hl] | (-> & Hl & Hc)].
    + split.
      * intros [= H]. split; [| now apply detect_in_Some].
        destruct Hl as [Hl | Hl]; [exact Hl |]. rewrite Hl in H. discriminate.
      * intros [_ H]. f_equal. now apply detect_in_Some.
    + split; [discriminate | intros [H _]; congruence].
  - destruct (detect_date_column_cases df) as [[-> Hl] | (-> & Hl & Hc)].
    + split.
      * intros [= H]. split; [exact Hl | now apply detect_in_None].
      * intros [_ H]. f_equal. now apply detect_in_None.
    + split; [discriminate |].
      intros [[H | H] _]; [congruence | contradiction].
  - intros e.
    destruct (detect_date_column_cases df) as [[-> Hl] | (-> & Hl & Hc)].
    + split; [discriminate |].
      intros (_ & Hp & Hc). destruct Hl as [Hl | Hl]; [congruence | contradiction].
    + split; [intros [= <-]; auto | intros (-> & _); reflexivity].
  - intros df' Hc Hl. unfold detect_date_column. now rewrite Hc, Hl.
  - intros Hl Hc. rewrite (detect_date_column_names df Hl), Hc. reflexivity.
Qed.

Lemma detect_date_column_first_match_witness :
  detect_date_column df_two_dates = inr (Some "start_date") /\
  detect_date_column (mkDataFrame [] (df_data df_two_dates) Names)
  = detect_date_column df_two_dates.
Proof.
  split.
  - apply (proj2 (proj2 (proj2 (proj2 (detect_date_column_first_match df_two_dates)))));
      reflexivity.
  - apply (proj1 (proj2 (proj2 (proj2 (detect_date_column_first_match df_two_dates)))));
      reflexivity.
Defined.
(** ** Normalization *)

Lemma add_unique_In (acc : list string) (k c : string) :
  In c (add_unique acc k) <-> In c acc \/ c = k.
Proof.
  unfold add_unique. destruct (existsb (String.eqb k) acc) eqn:E.
  - split; [now left | intros [H | ->]; [exact H |]].
    apply existsb_exists in E as (x & Hx & Heq).
    apply String.eqb_eq in Heq as ->. exact Hx.
  - rewrite in_app_iff. simpl. intuition congruence.
Qed.

Lemma add_unique_NoDup (acc : list string) (k : string) :
  NoDup acc -> NoDup (add_unique acc k).
Proof.
  intros H. unfold add_unique. destruct (existsb (String.eqb k) acc) eqn:E; [exact H |].
  apply NoDup_app; split; [exact H | split; [| apply NoDup_singleton]].
  intros x Hx Hk. apply list_elem_of_singleton in Hk as ->.
  apply list_elem_of_In in Hx.
  assert (existsb (String.eqb k) acc = true) as E'
    by (apply existsb_exists; exists k; split; [exact Hx | apply String.eqb_refl]).
  congruence.
Qed.

Lemma fold_add_unique_In (ks acc : list string) (c : string) :
  In c (fold_left add_unique ks acc) <-> In c acc \/ In c ks.
Proof.
  revert acc; induction ks as [|k ks IH]; intros acc; simpl.
  - tauto.
  - rewrite IH, add_unique_In. intuition congruence.
Qed.

Lemma fold_add_unique_NoDup (ks acc : list string) :
  NoDup acc -> NoDup (fold_left add_unique ks acc).
Proof.
  revert acc; induction ks as [|k ks IH]; intros acc H; simpl; [exact H |].
  apply IH, add_unique_NoDup, H.
Qed.

Lemma fold_fast_unique_In (gen : list (list string)) (acc : list string) (c : string) :
  In c (fold_left (fun acc ks => fold_left add_unique ks acc) gen acc) <->
  In c acc \/ exists ks, In ks gen /\ In c ks.
Proof.
  revert acc; induction gen as [|ks gen IH]; intros acc; simpl.
  - split; [now left | intros [H | (ks & [] & _)]; exact H].
  - rewrite IH, fold_add_unique_In. split.
    + intros [[H | H] | (ks' & H1 & H2)]; eauto 6.
    + intros [H | (ks' & [<- | H1] & H2)]; eauto 6.
Qed.

Lemma fast_unique_In (gen : list (list string)) (c : string) :
  In c (fast_unique gen) <-> exists ks, In ks gen /\ In c ks.
Proof.
  unfold fast_unique. rewrite fold_fast_unique_In. simpl. tauto.
Qed.

Lemma fast_unique_NoDup (gen : list (list string)) : NoDup (fast_unique gen).
Proof.
  unfold fast_unique. generalize (NoDup_nil_2 (A:=string)). generalize (@nil string).
  induction gen as [|ks gen IH]; intros acc H; simpl; [exact H |].
  apply IH, fold_add_unique_NoDup, H.
Qed.

Lemma columns_of_records (recs : list (dict json)) :
  columns (DataFrame_of_records recs) = fast_unique (map keys recs).
Proof.
  unfold columns, DataFrame_of_records. simpl.
  rewrite map_map. simpl. apply map_id.
Qed.

Lemma dict_get_tabulate {V} (f : string -> V) (l : list string) (c : string) (v : V) :
  dict_get c (map (fun k => (k, f k)) l) = Some v -> v = f c.
Proof.
  induction l as [|k l IH]; simpl; [discriminate |].
  destruct (String.eqb k c) eqn:E.
  - apply String.eqb_eq in E as ->. congruence.
  - exact IH.
Qed.

Lemma cell_at_convert_objects (vals : list cell) (i : nat) :
  cell_at (convert_objects vals) i = nth i vals VNaN \/
  cell_at (convert_objects vals) i = as_float (nth i vals VNaN).
Proof.
  unfold convert_objects, cell_at.
  destruct (infer_dtype vals); simpl; auto.
  right. change VNaN with (as_float VNaN) at 1. apply map_nth.
Qed.

Lemma nth_column_objects (recs : list (dict json)) (c : string) (i : nat) (r : dict json) :
  nth_error recs i = Some r ->
  nth i (column_objects recs c) VNaN =
  match dict_get c r with Some v => cell_of_json v | None => VNaN end.
Proof.
  revert i; induction recs as [|r' recs IH]; intros [|i]; simpl; try discriminate.
  - now intros [= ->].
  - apply IH.
Qed.

Lemma records_objects (objs : list (dict json)) :
  records (map simple_json_normalize (map JObj objs))
  = Some (map normalise_json_ordered objs).
Proof.
  induction objs as [|o objs IH]; [reflexivity |].
  cbn [map simple_json_normalize records]. now rewrite IH.
Qed.

Lemma json_normalize_objects (objs : list (dict json)) :
  json_normalize (JArr (map JObj objs)) =
  inr (DataFrame_of_records (map normalise_json_ordered objs)).
Proof.
  destruct objs as [|o objs]; [reflexivity |].
  pose proof (records_objects (o :: objs)) as H.
  unfold json_normalize. cbn [map simple_json_normalize] in *.
  unfold DataFrame_of_list. now rewrite H.
Qed.

Lemma filter_all {A} (p : A -> bool) (l : list A) :
  forallb p l = true -> List.filter p l = l.
Proof.
  induction l as [|x l IH]; simpl; [reflexivity |].
  intros H. apply andb_true_iff in H as [-> H]. now rewrite IH.
Qed.

Lemma filter_none {A} (p : A -> bool) (l : list A) :
  forallb (fun x => negb (p x)) l = true -> List.filter p l = [].
Proof.
  induction l as [|x l IH]; simpl; [reflexivity |].
  intros H. apply andb_true_iff in H as [Hx H].
  apply negb_true_iff in Hx as ->. now apply IH.
Qed.

Lemma normalise_json_ordered_flat (o : dict json) :
  flat o = true -> normalise_json_ordered o = o.
Proof.
  intros H. unfold normalise_json_ordered.
  rewrite (filter_all _ o H), (filter_none _ o H). reflexivity.
Qed.

Lemma length_convert_objects (vals : list cell) :
  length (s_values (convert_objects vals)) = length vals.
Proof.
  unfold convert_objects. destruct (infer_dtype vals); cbn [s_values];
    now rewrite ?length_map.
Qed.

Lemma decimal_inj (n m : nat) : decimal n = decimal m -> n = m.
Proof.
  unfold decimal. intros H.
  assert (E : Some (Nat.to_uint n) = Some (Nat.to_uint m))
    by now rewrite <- !NilEmpty.usu, H.
  injection E as E. rewrite <- (Unsigned.of_to n), <- (Unsigned.of_to m).
  now rewrite E.
Qed.

Lemma well_formed_of_records (recs : list (dict json)) :
  well_formed (DataFrame_of_records recs) /\
  NoDup (columns (DataFrame_of_records recs)).
Proof.
  split; [| rewrite columns_of_records; apply fast_unique_NoDup].
  unfold well_formed, DataFrame_of_records, len. cbn [df_data df_index].
  rewrite length_seq. apply Forall_forall. intros cs Hcs.
  apply list_elem_of_In, in_map_iff in Hcs as (c & <- & _). cbn [snd].
  rewrite length_convert_objects. unfold column_objects. now rewrite length_map.
Qed.

Lemma well_formed_of_rows (rows : list (list cell)) :
  well_formed (DataFrame_of_rows rows) /\
  NoDup (columns (DataFrame_of_rows rows)).
Proof.
  split.
  - unfold well_formed, DataFrame_of_rows, len. cbn [df_data df_index].
    rewrite length_seq. apply Forall_forall. intros cs Hcs.
    apply list_elem_of_In, in_map_iff in Hcs as (j & <- & _). cbn [snd].
    rewrite length_convert_objects. now rewrite length_map.
  - unfold columns, DataFrame_of_rows. cbn [df_data]. rewrite List.map_map.
    cbn [fst]. apply NoDup_fmap_2; [| apply NoDup_ListNoDup, seq_NoDup].
    intros n m. apply decimal_inj.
Qed.

(** Every table that normalization returns satisfies the table invariant:
    one cell per row in every column, and distinct column names. *)
Lemma json_normalize_well_formed (payload : json) (df : DataFrame) :
  json_normalize payload = inr df -> well_formed df /\ NoDup (columns df).
Proof.
  assert (H : forall data df, DataFrame_of_list data = inr df ->
                              well_formed df /\ NoDup (columns df)).
  { intros data df0. unfold DataFrame_of_list.
    assert (Hrec : match records data with
                   | Some recs => inr (DataFrame_of_records recs)
                   | None => inl AttributeError
                   end = inr df0 -> well_formed df0 /\ NoDup (columns df0)).
    { destruct (records data); [| discriminate].
      intros [= <-]. apply well_formed_of_records. }
    destruct data as [|[] data]; try exact Hrec.
    intros [= <-]. apply well_formed_of_rows. }
  destruct payload as [| | | | | | |items|members]; try discriminate.
  - destruct items as [|i items].
    + intros [= <-]. split; constructor.
    + apply H.
  - apply H.
Qed.
(** C1 (amended): for an array of objects, normalization returns a table
    with one row per object; its columns are, without repetition, the keys
    of the flattened objects, where a member that is itself an object is
    replaced by its dotted paths; when no value is an object these are the
    keys of the objects; and in the row of an object that lacks a column
    the cell is the null [nan], while a value that is present is stored
    (as a float in a float column). *)
Theorem json_normalize_array_of_objects (objs : list (dict json)) :
  exists df,
    json_normalize (JArr (map JObj objs)) = inr df /\
    len df = length objs /\
    NoDup (columns df) /\
    (forall c, In c (columns df) <->
               exists o, In o objs /\ In c (keys (normalise_json_ordered o))) /\
    (forallb flat objs = true ->
     forall c, In c (columns df) <-> exists o, In o objs /\ In c (keys o)) /\
    (forall i o c s,
       nth_error objs i = Some o -> getitem df c = inr s ->
       match dict_get c (normalise_json_ordered o) with
       | None => cell_at s i = VNaN
       | Some v => cell_at s i = cell_of_json v \/
                   cell_at s i = as_float (cell_of_json v)
       end).
Proof.
  exists (DataFrame_of_records (map normalise_json_ordered objs)).
  assert (Hcols : forall c,
    In c (columns (DataFrame_of_records (map normalise_json_ordered objs))) <->
    exists o, In o objs /\ In c (keys (normalise_json_ordered o))).
  { intros c. rewrite columns_of_records, fast_unique_In. split.
    - intros (ks & Hks & Hc). apply in_map_iff in Hks as (r & <- & Hr).
      apply in_map_iff in Hr as (o & <- & Ho). eauto.
    - intros (o & Ho & Hc). exists (keys (normalise_json_ordered o)).
      split; [| exact Hc]. apply in_map, in_map, Ho. }
  split; [apply json_normalize_objects |].
  split; [unfold len, DataFrame_of_records; simpl;
          now rewrite length_seq, length_map |].
  split; [rewrite columns_of_records; apply fast_unique_NoDup |].
  split; [exact Hcols |].
  split.
  - intros Hflat c. rewrite Hcols. rewrite forallb_forall in Hflat.
    split; intros (o & Ho & Hc); exists o; split; auto.
    + now rewrite normalise_json_ordered_flat in Hc by auto.
    + now rewrite normalise_json_ordered_flat by auto.
  - intros i o c s Hi Hs. unfold getitem in Hs.
    destruct (dict_get c _) as [s'|] eqn:E in Hs; [| discriminate].
    injection Hs as ->. unfold DataFrame_of_records in E. simpl in E.
    apply dict_get_tabulate in E as ->.
    pose proof (nth_column_objects (map normalise_json_ordered objs) c i
                  (normalise_json_ordered o)) as Hn.
    rewrite nth_error_map, Hi in Hn. specialize (Hn eq_refl).
    destruct (cell_at_convert_objects
                (column_objects (map normalise_json_ordered objs) c) i) as [-> | ->];
      rewrite Hn; destruct (dict_get c (normalise_json_ordered o)); auto.
Qed.

Lemma json_normalize_array_of_objects_witness :
  exists df,
    json_normalize (JArr (map JObj rate_records)) = inr df /\
    len df = 2%nat /\
    (In "rate" (columns df) <->
     exists o, In o rate_records /\ In "rate" (keys o)).
Proof.
  destruct (json_normalize_array_of_objects rate_records)
    as (df & Hdf & Hlen & _ & _ & Hflat & _).
  exists df. split; [exact Hdf |]. split; [exact Hlen |].
  apply Hflat. reflexivity.
Defined.

(** C1 fails as stated: the record has the single key [a], the table
    has the single column [a.b]. *)
Lemma json_normalize_nested_counterexample :
  json_normalize nested_feed
  = inr (mkDataFrame [0%nat] [("a.b", mkSeries int64 [VInt 1])] Names) /\
  columns (mkDataFrame [0%nat] [("a.b", mkSeries int64 [VInt 1])] Names) = ["a.b"] /\
  keys [("a", JObj [("b", JInt 1)])] = ["a"] /\
  existsb (String.eqb "a") ["a.b"] = false.
Proof. repeat split. Qed.

(** C9 (amended): the empty array gives a table with no row and no
    column; the empty object gives a table with one row and no column;
    neither raises. *)
Theorem json_normalize_empty :
  json_normalize (JArr []) = inr DataFrame_empty /\
  len DataFrame_empty = 0%nat /\ columns DataFrame_empty = [] /\
  exists df, json_normalize (JObj []) = inr df /\
             len df = 1%nat /\ columns df = [].
Proof.
  repeat split. eexists. repeat split.
Qed.

(** C9 fails as stated for the empty object: its table has one row. *)
Lemma json_normalize_empty_object_counterexample :
  json_normalize (JObj []) = inr (mkDataFrame [0%nat] [] Names) /\
  len (mkDataFrame [0%nat] [] Names) = 1%nat.
Proof. split; reflexivity. Qed.
(** ** Rows of a table and [dropna] *)

Lemma take_mask_seq {A} (f : nat -> bool) (d : A) (l : list A) (k : nat) :
  take_mask (map f (seq k (length l))) l
  = map (fun i => nth (i - k) l d) (List.filter f (seq k (length l))).
Proof.
  revert k; induction l as [|x l IH]; intros k; [reflexivity |].
  cbn [length seq map take_mask List.filter]. rewrite IH.
  assert (E : map (fun i => nth (i - S k) l d) (List.filter f (seq (S k) (length l)))
              = map (fun i => nth (i - k) (x :: l) d)
                    (List.filter f (seq (S k) (length l)))).
  { apply map_ext_in. intros i Hi. apply filter_In in Hi as [Hi _].
    apply in_seq in Hi. replace (i - k)%nat with (S (i - S k)) by lia. reflexivity. }
  destruct (f k); cbn [map]; rewrite E; [| reflexivity].
  now rewrite Nat.sub_diag.
Qed.

Lemma take_mask_positions {A} (f : nat -> bool) (d : A) (l : list A) :
  take_mask (map f (seq 0 (length l))) l
  = map (fun i => nth i l d) (List.filter f (seq 0 (length l))).
Proof.
  rewrite (take_mask_seq f d). apply map_ext. intros i. now rewrite Nat.sub_0_r.
Qed.

Lemma map_nth_positions {A} (d : A) (l : list A) :
  map (fun j => nth j l d) (seq 0 (length l)) = l.
Proof.
  induction l as [|x l IH]; [reflexivity |].
  cbn [length seq map nth]. rewrite <- seq_shift. rewrite List.map_map.
  now rewrite IH.
Qed.

Lemma nth_map_in {A B} (g : A -> B) (l : list A) (j : nat) (da : A) (db : B) :
  (j < length l)%nat -> nth j (map g l) db = g (nth j l da).
Proof.
  intros H. rewrite (nth_indep _ db (g da)) by now rewrite length_map.
  apply map_nth.
Qed.

(** The table left by a selection of row positions. *)
Lemma rows_of_positions (df : DataFrame) (kept : list nat) :
  rows (mkDataFrame (map (fun i => nth i (df_index df) 0%nat) kept)
          (map (fun cs => (fst cs, mkSeries (s_dtype (snd cs))
                                     (map (fun i => nth i (s_values (snd cs)) VNaN) kept)))
               (df_data df))
          (df_labels df))
  = map (row_at df) kept.
Proof.
  unfold rows, len. cbn [df_index]. rewrite length_map.
  transitivity (map (row_at df) (map (fun j => nth j kept 0%nat) (seq 0 (length kept))));
    [| now rewrite map_nth_positions].
  rewrite List.map_map.
  apply map_ext_in. intros j Hj. apply in_seq in Hj as [_ Hj]. simpl in Hj.
  unfold row_at. cbn [df_index df_data]. f_equal.
  - exact (nth_map_in (fun i => nth i (df_index df) 0%nat) kept j 0%nat 0%nat Hj).
  - rewrite List.map_map. apply map_ext. intros cs. cbn [fst snd]. f_equal.
    unfold cell_at. cbn [s_values].
    exact (nth_map_in (fun i => nth i (s_values (snd cs)) VNaN) kept j 0%nat VNaN Hj).
Qed.

Lemma dict_get_row (df : DataFrame) (c : string) (i : nat) :
  dict_get c (snd (row_at df i))
  = match dict_get c (df_data df) with
    | Some s => Some (cell_at s i)
    | None => None
    end.
Proof.
  unfold row_at. cbn [snd]. induction (df_data df) as [|[k s] data IH]; [reflexivity |].
  cbn [map dict_get fst snd]. destruct (String.eqb k c); [reflexivity | exact IH].
Qed.

Lemma subset_series_isna (df : DataFrame) (subset : list string) (ss : list Series)
    (i : nat) :
  subset_series df subset = inr ss ->
  existsb (fun s => isna (cell_at s i)) ss = existsb (row_isna (row_at df i)) subset.
Proof.
  revert ss; induction subset as [|c subset IH]; intros ss; cbn [subset_series].
  - now intros [= <-].
  - unfold getitem at 1. unfold row_isna at 1. cbn [existsb]. rewrite dict_get_row.
    destruct (dict_get c (df_data df)) as [s|]; [| discriminate].
    destruct (subset_series df subset) as [e|ss']; [discriminate |].
    intros [= <-]. cbn [existsb]. now rewrite (IH ss').
Qed.

(** [dropna] keeps, in order and with their labels and cells, exactly the
    rows that are null in no column of [subset]. *)
Lemma dropna_rows (df data : DataFrame) (subset : list string) :
  well_formed df ->
  dropna df subset = inr data ->
  rows data
  = List.filter (fun r => negb (existsb (row_isna r) subset)) (rows df).
Proof.
  intros Hwf. unfold dropna.
  destruct (subset_series df subset) as [e|ss] eqn:Hss; [discriminate |].
  intros [= <-].
  set (f := fun i => negb (existsb (fun s => isna (cell_at s i)) ss)).
  unfold len. rewrite (take_mask_positions f 0%nat).
  assert (E : map (fun cs => (fst cs, mkSeries (s_dtype (snd cs))
                 (take_mask (map f (seq 0 (length (df_index df)))) (s_values (snd cs)))))
                (df_data df)
              = map (fun cs => (fst cs, mkSeries (s_dtype (snd cs))
                 (map (fun i => nth i (s_values (snd cs)) VNaN)
                      (List.filter f (seq 0 (length (df_index df)))))))
                (df_data df)).
  { apply map_ext_in. intros cs Hcs. unfold well_formed in Hwf.
    rewrite Forall_forall in Hwf. specialize (Hwf cs).
    rewrite list_elem_of_In in Hwf. specialize (Hwf Hcs). unfold len in Hwf.
    rewrite <- Hwf. now rewrite (take_mask_positions f VNaN). }
  rewrite E, rows_of_positions. unfold rows, len.
  rewrite filter_map_swap. f_equal. apply filter_ext. intros i. unfold f.
  now rewrite (subset_series_isna df subset ss i Hss).
Qed.

(** ** Columns that are present *)

Lemma dict_get_In {V} (k : string) (d : dict V) :
  In k (keys d) <-> exists v, dict_get k d = Some v.
Proof.
  induction d as [|[k' v'] d IH]; cbn [keys map fst dict_get In].
  - split; [intros [] | intros [v H]; discriminate].
  - destruct (String.eqb k' k) eqn:E.
    + apply String.eqb_eq in E. split; eauto.
    + apply String.eqb_neq in E. unfold keys in IH. rewrite <- IH. tauto.
Qed.

Lemma keys_dict_set {V} (k : string) (v : V) (d : dict V) :
  In k (keys d) -> keys (dict_set k v d) = keys d.
Proof.
  induction d as [|[k' v'] d IH]; cbn [keys map fst dict_set In]; [intros [] |].
  destruct (String.eqb k' k) eqn:E; [reflexivity |].
  apply String.eqb_neq in E. intros [H | H]; [contradiction |].
  cbn [map fst]. f_equal. now apply IH.
Qed.

Lemma dict_set_Forall {V} (P : string * V -> Prop) (k : string) (v : V) (d : dict V) :
  Forall P d -> P (k, v) -> Forall P (dict_set k v d).
Proof.
  intros Hd Hk. induction d as [|[k' v'] d IH]; cbn [dict_set].
  - now constructor.
  - apply Forall_cons in Hd as [H1 H2].
    destruct (String.eqb k' k) eqn:E.
    + apply String.eqb_eq in E as ->. now constructor.
    + constructor; [exact H1 | now apply IH].
Qed.

Lemma dict_get_some_In {V} (k : string) (v : V) (d : dict V) :
  dict_get k d = Some v -> In (k, v) d.
Proof.
  induction d as [|[k' v'] d IH]; cbn [dict_get]; [discriminate |].
  destruct (String.eqb k' k) eqn:E.
  - apply String.eqb_eq in E as ->. intros [= ->]. now left.
  - intros H. right. now apply IH.
Qed.

Lemma getitem_In (df : DataFrame) (c : string) :
  In c (columns df) <-> exists s, getitem df c = inr s.
Proof.
  unfold columns, getitem. fold (keys (df_data df)). rewrite dict_get_In.
  destruct (dict_get c (df_data df)); split; intros [x H]; try discriminate; eauto.
Qed.

Lemma select_dtypes_number_In (df : DataFrame) (c : string) :
  In c (select_dtypes_number df) -> In c (columns df).
Proof.
  unfold select_dtypes_number, columns. intros H.
  apply in_map_iff in H as (cs & <- & H). apply filter_In in H as [H _].
  now apply in_map.
Qed.

Lemma subset_series_present (df : DataFrame) (subset : list string) :
  (forall c, In c subset -> In c (columns df)) ->
  exists ss, subset_series df subset = inr ss.
Proof.
  induction subset as [|c subset IH]; intros H; cbn [subset_series]; [eauto |].
  destruct (proj1 (getitem_In df c) (H c (or_introl eq_refl))) as [s ->].
  destruct IH as [ss ->]; [intros c' Hc'; apply H; now right | eauto].
Qed.

Lemma dropna_present (df : DataFrame) (subset : list string) :
  (forall c, In c subset -> In c (columns df)) ->
  exists data, dropna df subset = inr data.
Proof.
  intros H. unfold dropna.
  destruct (subset_series_present df subset H) as [ss ->]. eauto.
Qed.

Lemma getitems_present (df : DataFrame) (cols : list string) :
  (forall c, In c cols -> In c (columns df)) ->
  exists data, getitems df cols = inr data.
Proof.
  induction cols as [|c cols IH]; intros H; cbn [getitems]; [eauto |].
  destruct (proj1 (getitem_In df c) (H c (or_introl eq_refl))) as [s ->].
  destruct IH as [r ->]; [intros c' Hc'; apply H; now right | eauto].
Qed.

Lemma select_columns_present (df : DataFrame) (cols : list string) :
  (forall c, In c cols -> In c (columns df)) ->
  exists described, select_columns df cols = inr described.
Proof.
  intros H. unfold select_columns.
  destruct (getitems_present df cols H) as [data ->]. eauto.
Qed.

Lemma columns_setitem (df : DataFrame) (c : string) (s : Series) :
  In c (columns df) -> columns (setitem df c s) = columns df.
Proof.
  unfold columns, setitem. cbn [df_data]. apply keys_dict_set.
Qed.

Lemma well_formed_setitem (df : DataFrame) (c : string) (s : Series) :
  well_formed df -> length (s_values s) = len df ->
  well_formed (setitem df c s).
Proof.
  unfold well_formed, setitem, len. cbn [df_data df_index]. intros H Hs.
  apply dict_set_Forall; auto.
Qed.

Lemma is_date_name_nonempty (c : string) :
  is_date_name c = true -> String.eqb c EmptyString = false.
Proof.
  destruct c; [discriminate | reflexivity].
Qed.

Lemma detect_date_column_present (df : DataFrame) (d : string) :
  detect_date_column df = inr (Some d) ->
  String.eqb d EmptyString = false /\ In d (columns df) /\ df_labels df = Names.
Proof.
  intros H.
  destruct (detect_date_column_cases df) as [[E Hl] | (E & _)];
    rewrite E in H; [| discriminate].
  injection H as H. pose proof H as H'.
  apply detect_in_Some in H as (b & a & Hc & Hd & _). split; [| split].
  - now apply is_date_name_nonempty, is_date_name_spec.
  - rewrite Hc. apply in_elt.
  - destruct Hl as [Hl | Hl]; [exact Hl |]. rewrite Hl in H'. discriminate.
Qed.

(** ** The shorthand of a channel *)

Section Shorthand.

#[local] Arguments String.append : simpl nomatch.

Lemma append_nil_r (s : string) : (s ++ EmptyString)%string = s.
Proof. induction s as [|c s IH]; simpl; [reflexivity | now rewrite IH]. Qed.

Lemma append_assoc (a b c : string) :
  ((a ++ b) ++ c)%string = (a ++ b ++ c)%string.
Proof. induction a as [|x a IH]; simpl; [reflexivity | now rewrite IH]. Qed.

Lemma length_append (a b : string) :
  String.length (a ++ b) = (String.length a + String.length b)%nat.
Proof. induction a as [|x a IH]; simpl; [reflexivity | now rewrite IH]. Qed.

Lemma append_inv_tail (a b t : string) :
  (a ++ t)%string = (b ++ t)%string -> a = b.
Proof.
  revert b. induction a as [|x a IH]; intros [|y b] H; simpl in H.
  - reflexivity.
  - apply (f_equal String.length) in H. simpl in H. rewrite length_append in H. lia.
  - apply (f_equal String.length) in H. simpl in H. rewrite length_append in H. lia.
  - injection H as -> H. f_equal. now apply IH.
Qed.

Lemma strip_prefix_spec (p s r : string) :
  strip_prefix p s = Some r <-> s = (p ++ r)%string.
Proof.
  revert s. induction p as [|a p IH]; intros s; simpl.
  - split; [now intros [= ->] | now intros ->].
  - destruct s as [|b s]; [split; discriminate |].
    destruct (Ascii.eqb_spec a b) as [-> | Hne].
    + rewrite IH. split; [now intros -> | now intros [= ->]].
    + split; [discriminate | intros [= E _]; congruence].
Qed.

Lemma strip_suffix_spec (suf s r : string) :
  strip_suffix suf s = Some r <-> s = (r ++ suf)%string.
Proof.
  revert r. induction s as [|c s IH]; intros r; cbn [strip_suffix].
  - destruct (String.eqb_spec EmptyString suf) as [<- | Hne].
    + split; [now intros [= <-] |].
      destruct r; [reflexivity | discriminate].
    + split; [discriminate |]. destruct r; simpl; [congruence | discriminate].
  - destruct (String.eqb_spec (String c s) suf) as [<- | Hne].
    + split; [now intros [= <-] |].
      intros H. change (String c s) with (EmptyString ++ String c s)%string in H at 1.
      apply append_inv_tail in H. now subst.
    + destruct (strip_suffix suf s) as [r'|].
      * pose proof (proj1 (IH r') eq_refl) as ->. split; [now intros [= <-] |].
        destruct r as [|x r]; simpl; [congruence |].
        intros [= <- H]. apply append_inv_tail in H. now subst.
      * split; [discriminate |]. destruct r as [|x r]; simpl; [congruence |].
        intros [= <- H]. apply IH in H. discriminate.
Qed.

Lemma contains_colon_append (a c : string) :
  contains ":" (a ++ ":" ++ c) = true.
Proof. apply contains_spec. now exists a, c. Qed.

(** Cutting a string at its last colon: there is one way. *)
Lemma append_colon_inj (b s c q : string) :
  contains ":" c = false -> contains ":" q = false ->
  (b ++ ":" ++ c)%string = (s ++ ":" ++ q)%string -> b = s /\ c = q.
Proof.
  intros Hc Hq. revert s.
  induction b as [|y b IH]; intros [|x s] H; simpl in H.
  - injection H as H. auto.
  - injection H as _ H.
    assert (contains ":" c = true) by (rewrite H; apply contains_colon_append).
    congruence.
  - injection H as _ H.
    assert (contains ":" q = true) by (rewrite <- H; apply contains_colon_append).
    congruence.
  - injection H as -> H. apply IH in H as [-> ->]. auto.
Qed.

Lemma strip_suffix_code (code code' s : string) :
  contains ":" code = false -> contains ":" code' = false ->
  strip_suffix (":" ++ code) (s ++ ":" ++ code')
  = if String.eqb code code' then Some s else None.
Proof.
  intros Hc Hc'.
  destruct (strip_suffix (":" ++ code) (s ++ ":" ++ code')) as [b|] eqn:E.
  - apply strip_suffix_spec in E. symmetry in E.
    apply append_colon_inj in E as [-> ->]; try assumption.
    now rewrite String.eqb_refl.
  - destruct (String.eqb_spec code code') as [-> | Hne]; [| reflexivity].
    assert (H : strip_suffix (":" ++ code') (s ++ ":" ++ code') = Some s)
      by now apply strip_suffix_spec.
    congruence.
Qed.

Lemma strip_suffix_no_colon (code s : string) :
  contains ":" s = false -> strip_suffix (":" ++ code) s = None.
Proof.
  intros Hs. destruct (strip_suffix (":" ++ code) s) as [b|] eqn:E; [| reflexivity].
  apply strip_suffix_spec in E.
  assert (contains ":" s = true) by (rewrite E; apply contains_colon_append).
  congruence.
Qed.

Lemma first_match_none {A B} (f : A -> option B) (l : list A) :
  (forall x, In x l -> f x = None) -> first_match f l = None.
Proof.
  induction l as [|x l IH]; intros H; cbn [first_match]; [reflexivity |].
  rewrite (H x (or_introl eq_refl)). apply IH. intros y Hy. apply H. now right.
Qed.

Lemma call_pattern_none (names : list string) (s : string) :
  endswith ")" s = false -> call_pattern names s = None.
Proof.
  intros Hs. unfold call_pattern. apply first_match_none. intros name _.
  destruct (strip_prefix (name ++ "(") s) as [rest|] eqn:E; [| reflexivity].
  destruct (strip_suffix ")" rest) as [f|] eqn:E'; [| reflexivity].
  apply strip_prefix_spec in E. apply strip_suffix_spec in E'. subst.
  assert (H : endswith ")" ((name ++ "(") ++ f ++ ")") = true).
  { apply endswith_spec. exists ((name ++ "(") ++ f)%string.
    symmetry. apply append_assoc. }
  congruence.
Qed.

Lemma is_count_none (s : string) : endswith ")" s = false -> is_count s = None.
Proof.
  intros Hs. unfold is_count.
  destruct (String.eqb_spec s "count()") as [-> | _]; [discriminate | reflexivity].
Qed.

(** The typed shorthand of a column is read as the column and the type. *)
Lemma typed_pattern_code {A} (body : string -> option A) (s code : string)
    (t : enc_type) :
  (code = "T" /\ t = Temporal) \/ (code = "Q" /\ t = Quantitative) ->
  typed_pattern body (s ++ ":" ++ code)
  = match body s with
    | Some a => Some (a, t)
    | None => None
    end.
Proof.
  intros [[-> ->] | [-> ->]]; unfold typed_pattern, typecodes;
    cbn [first_match fst snd];
    rewrite !strip_suffix_code by reflexivity; cbn;
    destruct (body s); reflexivity.
Qed.

Lemma typed_pattern_no_colon {A} (body : string -> option A) (s : string) :
  contains ":" s = false -> typed_pattern body s = None.
Proof.
  intros Hs. unfold typed_pattern. apply first_match_none. intros tc _.
  now rewrite strip_suffix_no_colon.
Qed.

Lemma before_last_from_none (c prev : ascii) (s : string) :
  contains (String c EmptyString) s = false -> before_last_from c prev s = None.
Proof.
  revert prev. induction s as [|a s IH]; intros prev; [reflexivity |].
  cbn [contains startswith before_last_from].
  destruct (Ascii.eqb_spec c a) as [-> | Hne]; cbn.
  - discriminate.
  - intros H. rewrite IH by exact H.
    destruct (Ascii.eqb_spec a c) as [-> | _]; [contradiction | reflexivity].
Qed.

Lemma unescaped_colon_none (s : string) :
  contains ":" s = false -> unescaped_colon s = false.
Proof.
  intros Hs. unfold unescaped_colon, before_last.
  now rewrite before_last_from_none.
Qed.

Lemma remove_char_none (c : ascii) (s : string) :
  contains (String c EmptyString) s = false -> remove_char c s = s.
Proof.
  induction s as [|a s IH]; [reflexivity |].
  cbn [contains startswith remove_char].
  destruct (Ascii.eqb_spec c a) as [-> | Hne]; cbn.
  - discriminate.
  - intros H. rewrite IH by exact H.
    destruct (Ascii.eqb_spec a c) as [-> | _]; [contradiction | reflexivity].
Qed.

Lemma append_not_empty (s t : string) :
  t <> EmptyString -> String.eqb (s ++ t) EmptyString = false.
Proof.
  intros Ht. apply String.eqb_neq. destruct s; simpl; [exact Ht | discriminate].
Qed.

Lemma endswith_paren_append (s t : string) :
  t <> EmptyString -> endswith ")" (s ++ t) = endswith ")" t.
Proof.
  intros Ht. induction s as [|c s IH]; [reflexivity |].
  simpl. rewrite IH.
  replace (String.eqb (s ++ t) EmptyString) with false;
    [now destruct (Ascii.eqb c ")") |].
  symmetry. apply String.eqb_neq. intros H.
  destruct s; simpl in H; [contradiction | discriminate].
Qed.

Lemma endswith_paren_code (s code : string) :
  code = "T" \/ code = "Q" -> endswith ")" (s ++ ":" ++ code) = false.
Proof.
  intros Hcode. rewrite endswith_paren_append by discriminate.
  destruct Hcode as [-> | ->]; reflexivity.
Qed.

Variable alt : Altair.

(** A column whose name holds no colon and does not end with a closing
    parenthesis, given with a type code: the channel shows that column
    with that type. *)
Lemma channel_typed (data : DataFrame) (s code : string) (t : enc_type) :
  (code = "T" /\ t = Temporal) \/ (code = "Q" /\ t = Quantitative) ->
  contains ":" s = false -> endswith ")" s = false ->
  channel alt data (s ++ ":" ++ code) = inr (field_channel s (Given t)).
Proof.
  intros Hcode Hcolon Hparen.
  assert (Hend : endswith ")" (s ++ ":" ++ code) = false)
    by (apply endswith_paren_code; tauto).
  assert (E : match_patterns alt (s ++ ":" ++ code)
              = mkAttrs None None (Some s) (Some (Given t))).
  { unfold match_patterns.
    rewrite !(typed_pattern_code _ s code t Hcode).
    rewrite (is_count_none s Hparen), !(call_pattern_none _ s Hparen).
    rewrite (is_count_none _ Hend), !(call_pattern_none _ _ Hend).
    reflexivity. }
  unfold channel, parse_shorthand.
  rewrite append_not_empty by discriminate.
  rewrite E. cbn [a_type a_aggregate a_timeUnit a_field].
  now rewrite (unescaped_colon_none s Hcolon).
Qed.

(** A column with a plain name, given without a type: the channel shows
    that column, with the type Altair infers for its dtype. *)
Lemma channel_plain (data : DataFrame) (s : string) (col : Series) :
  plain_name s = true -> df_labels data = Names ->
  getitem data s = inr col ->
  channel alt data s = inr (field_channel s (Inferred (s_dtype col))).
Proof.
  unfold plain_name. rewrite !andb_true_iff, !negb_true_iff.
  intros [[[Hne Hcolon] Hback] Hparen] Hl Hcol.
  assert (E : match_patterns alt s = mkAttrs None None (Some s) None).
  { unfold match_patterns.
    rewrite !(typed_pattern_no_colon _ s Hcolon).
    now rewrite (is_count_none s Hparen), !(call_pattern_none _ s Hparen). }
  unfold channel, parse_shorthand. rewrite Hne, E.
  cbn [a_type a_aggregate a_timeUnit a_field].
  rewrite (unescaped_colon_none s Hcolon).
  unfold column_dtype. rewrite Hl, (remove_char_none _ s Hback).
  unfold getitem in Hcol. destruct (dict_get s (df_data data)); [| discriminate].
  injection Hcol as ->. reflexivity.
Qed.

(** A colon in the name of the column, with no backslash before it: the
    typed shorthand is refused. *)
Lemma channel_colon (data : DataFrame) (s code : string) (t : enc_type) :
  (code = "T" /\ t = Temporal) \/ (code = "Q" /\ t = Quantitative) ->
  endswith ")" s = false -> unescaped_colon s = true ->
  channel alt data (s ++ ":" ++ code) = inl ValueError.
Proof.
  intros Hcode Hparen Hcolon.
  assert (Hend : endswith ")" (s ++ ":" ++ code) = false)
    by (apply endswith_paren_code; tauto).
  assert (E : match_patterns alt (s ++ ":" ++ code)
              = mkAttrs None None (Some s) (Some (Given t))).
  { unfold match_patterns.
    rewrite !(typed_pattern_code _ s code t Hcode).
    rewrite (is_count_none s Hparen), !(call_pattern_none _ s Hparen).
    rewrite (is_count_none _ Hend), !(call_pattern_none _ _ Hend).
    reflexivity. }
  unfold channel, parse_shorthand.
  rewrite append_not_empty by discriminate.
  rewrite E. cbn [a_type a_aggregate a_timeUnit a_field].
  now rewrite Hcolon.
Qed.

Lemma channel_count (data : DataFrame) :
  channel alt data "count()" = inr count_channel.
Proof. reflexivity. Qed.

(** What [to_dict] raises is [ValueError]. *)
Lemma channel_error (data : DataFrame) (sh : string) (e : exn) :
  channel alt data sh = inl e -> e = ValueError.
Proof.
  unfold channel, parse_shorthand.
  destruct (String.eqb sh EmptyString); cbn.
  - now intros [= <-].
  - destruct (match a_field (match_patterns alt sh) with
              | Some f => unescaped_colon f
              | None => false
              end); [now intros [= <-] |].
    cbn [a_type].
    match goal with |- match ?t with _ => _ end = _ -> _ => destruct t end;
      [discriminate | now intros [= <-]].
Qed.

Lemma to_dict_error (c : Chart) (e : exn) :
  to_dict alt c = inl e -> e = ValueError.
Proof.
  assert (Hs : forall shs e0, channels alt (c_data c) shs = inl e0 -> e0 = ValueError).
  { induction shs as [|sh shs IH]; intros e0; cbn [channels]; [discriminate |].
    destruct (channel alt (c_data c) sh) as [e1|a] eqn:E1.
    - intros [= <-]. now apply channel_error in E1.
    - destruct (channels alt (c_data c) shs) as [e2|r]; [| discriminate].
      intros [= <-]. now apply IH. }
  unfold to_dict.
  destruct (channel alt (c_data c) (c_x c)) as [e1|x] eqn:E1.
  - intros [= <-]. now apply channel_error in E1.
  - destruct (channel alt (c_data c) (c_y c)) as [e2|y] eqn:E2.
    + intros [= <-]. now apply channel_error in E2.
    + destruct (channels alt (c_data c) (c_tooltip c)) as [e3|tips] eqn:E3;
        [| discriminate].
      intros [= <-]. now apply Hs in E3.
Qed.

End Shorthand.

(** ** Running [render_dataset] *)

Lemma draws_app (draw_time : element -> nat -> nat) (es es' : list element)
    (w : World) :
  draws draw_time (es ++ es') w = draws draw_time es' (draws draw_time es w).
Proof. unfold draws. apply fold_left_app. Qed.

(** Drawing adds to the page and lets time pass; it changes nothing
    else. *)
Lemma draws_world (draw_time : element -> nat -> nat) (es : list element)
    (w : World) :
  page (draws draw_time es w) = page w ++ es /\
  cache (draws draw_time es w) = cache w /\
  requests (draws draw_time es w) = requests w /\
  widget_keys (draws draw_time es w) = widget_keys w /\
  (now w <= now (draws draw_time es w))%nat.
Proof.
  revert w. induction es as [|e es IH]; intros w.
  - cbn. rewrite app_nil_r. auto.
  - change (draws draw_time (e :: es) w)
      with (draws draw_time es (draw draw_time e w)).
    destruct (IH (draw draw_time e w)) as (-> & -> & -> & -> & Hn).
    cbn [draw page cache requests widget_keys now] in *.
    rewrite <- app_assoc. repeat split; try reflexivity. lia.
Qed.

Section Rendering.

Variable alt : Altair.
Variable parse_datetime : Series -> cell -> option Z.
Variable user_choice : string -> nat.
Variable draw_time : element -> nat -> nat.

Local Abbreviation render := (render_dataset alt parse_datetime user_choice draw_time).
Local Abbreviation to_dt := (to_datetime parse_datetime).
Local Abbreviation pick := (picked user_choice).
Local Abbreviation drawn := (draws draw_time).

Lemma picked_In (key : string) (m0 : string) (ms : list string) :
  In (pick key (m0 :: ms)) (m0 :: ms).
Proof.
  unfold picked. destruct (Nat.lt_ge_cases (user_choice key) (length (m0 :: ms))).
  - now apply nth_In.
  - rewrite nth_overflow by assumption. now left.
Qed.

Lemma picked_nth (key : string) (m0 : string) (ms : list string) :
  pick key (m0 :: ms) = nth (user_choice key) (m0 :: ms) m0.
Proof. reflexivity. Qed.

Ltac run_steps :=
  cbv beta iota zeta
      delta [bind emit draw ret lift raise selectbox altair_chart truthy
             now cache requests page widget_keys].

Ltac show_world :=
  cbv beta iota zeta
      delta [draws fold_left draw register with_widget_keys
             now cache requests page widget_keys].

(** A table labelled by positions that has a column: the detection of the
    date column raises, after the header and the counts. *)
Lemma render_dataset_positions (name : string) (df : DataFrame) (w : World) (e : exn) :
  detect_date_column df = inl e ->
  render name df w
  = (inl e, drawn [Subheader name; Counts (len df) (length (columns df))] w).
Proof.
  intros Hd. unfold render_dataset. destruct w as [t ca rq pg ks].
  rewrite Hd. run_steps. show_world. reflexivity.
Qed.

(** A table with a date column and numeric columns. *)
Lemma render_dataset_line (name : string) (df : DataFrame) (w : World)
    (d m0 : string) (ms : list string) :
  detect_date_column df = inr (Some d) ->
  select_dtypes_number df = m0 :: ms ->
  fresh_key (metric_key name) w ->
  exists s data described,
    let df' := setitem df d (to_dt s) in
    let metric := pick (metric_key name) (m0 :: ms) in
    let w1 := register (metric_key name)
                (drawn [Subheader name; Counts (len df) (length (columns df));
                        Selectbox (metric_key name) (m0 :: ms)] w) in
    getitem df d = inr s /\
    dropna df' [d; metric] = inr data /\
    select_columns df' (m0 :: ms) = inr described /\
    render name df w
    = match to_dict alt (line_chart data d metric) with
      | inr spec =>
          (inr df',
           drawn [AltairChart spec; Caption StatsHeading; StatsTable described;
                  Caption PreviewHeading; Preview (head 50 df')] w1)
      | inl e => (inl e, w1)
      end.
Proof.
  intros Hd Hn Hk.
  destruct (detect_date_column_present df d Hd) as (Hne & Hin & _).
  destruct (proj1 (getitem_In df d) Hin) as [s Hs].
  set (df' := setitem df d (to_dt s)).
  set (metric := pick (metric_key name) (m0 :: ms)).
  assert (Hcols : columns df' = columns df) by now apply columns_setitem.
  assert (Hnum : forall c, In c (m0 :: ms) -> In c (columns df')).
  { intros c Hc. rewrite Hcols. apply select_dtypes_number_In. now rewrite Hn. }
  destruct (dropna_present df' [d; metric]) as [data Hdata].
  { intros c [<- | [<- | []]]; [now rewrite Hcols | apply Hnum, picked_In]. }
  destruct (select_columns_present df' (m0 :: ms) Hnum) as [described Hdesc].
  exists s, data, described. cbv zeta. repeat split; try assumption.
  unfold render_dataset, fresh_key in *.
  destruct w as [t ca rq pg ks]. cbn [widget_keys] in Hk.
  rewrite Hd, Hn. run_steps. rewrite Hne, Hs. run_steps. rewrite Hk.
  fold df' metric. rewrite Hdata. run_steps.
  destruct (to_dict alt (line_chart data d metric)) as [e|spec].
  - show_world. reflexivity.
  - run_steps. rewrite Hdesc. run_steps. show_world. reflexivity.
Qed.

(** A table with a date column and no numeric column. *)
Lemma render_dataset_note (name : string) (df : DataFrame) (w : World) (d : string) :
  detect_date_column df = inr (Some d) ->
  select_dtypes_number df = [] ->
  exists s,
    let df' := setitem df d (to_dt s) in
    getitem df d = inr s /\
    render name df w
    = (inr df',
       drawn [Subheader name; Counts (len df) (length (columns df));
              Info NoNumericFields;
              Caption PreviewHeading; Preview (head 50 df')] w).
Proof.
  intros Hd Hn.
  destruct (detect_date_column_present df d Hd) as (Hne & Hin & _).
  destruct (proj1 (getitem_In df d) Hin) as [s Hs].
  exists s. cbv zeta. split; [assumption |].
  unfold render_dataset. destruct w as [t ca rq pg ks].
  rewrite Hd, Hn. run_steps. rewrite Hne, Hs. run_steps. show_world. reflexivity.
Qed.

(** A table with numeric columns and no date column. *)
Lemma render_dataset_histogram (name : string) (df : DataFrame) (w : World)
    (m0 : string) (ms : list string) :
  detect_date_column df = inr None ->
  select_dtypes_number df = m0 :: ms ->
  fresh_key (dist_key name) w ->
  exists data described,
    let metric := pick (dist_key name) (m0 :: ms) in
    let w1 := register (dist_key name)
                (drawn [Subheader name; Counts (len df) (length (columns df));
                        Selectbox (dist_key name) (m0 :: ms)] w) in
    dropna df [metric] = inr data /\
    select_columns df (m0 :: ms) = inr described /\
    render name df w
    = match to_dict alt (histogram data metric) with
      | inr spec =>
          (inr df,
           drawn [AltairChart spec; Caption StatsHeading; StatsTable described;
                  Caption PreviewHeading; Preview (head 50 df)] w1)
      | inl e => (inl e, w1)
      end.
Proof.
  intros Hd Hn Hk.
  set (metric := pick (dist_key name) (m0 :: ms)).
  assert (Hnum : forall c, In c (m0 :: ms) -> In c (columns df)).
  { intros c Hc. apply select_dtypes_number_In. now rewrite Hn. }
  destruct (dropna_present df [metric]) as [data Hdata].
  { intros c [<- | []]. apply Hnum, picked_In. }
  destruct (select_columns_present df (m0 :: ms) Hnum) as [described Hdesc].
  exists data, described. cbv zeta. repeat split; try assumption.
  unfold render_dataset, fresh_key in *.
  destruct w as [t ca rq pg ks]. cbn [widget_keys] in Hk.
  rewrite Hd, Hn. run_steps. rewrite Hk.
  fold metric. rewrite Hdata. run_steps.
  destruct (to_dict alt (histogram data metric)) as [e|spec].
  - show_world. reflexivity.
  - run_steps. rewrite Hdesc. run_steps. show_world. reflexivity.
Qed.

(** A table with neither. *)
Lemma render_dataset_plain (name : string) (df : DataFrame) (w : World) :
  detect_date_column df = inr None ->
  select_dtypes_number df = [] ->
  render name df w
  = (inr df,
     drawn [Subheader name; Counts (len df) (length (columns df));
            Caption PreviewHeading; Preview (head 50 df)] w).
Proof.
  intros Hd Hn. unfold render_dataset. destruct w as [t ca rq pg ks].
  rewrite Hd, Hn. run_steps. show_world. reflexivity.
Qed.

(** A select box whose key is taken raises, and the run of
    [render_dataset] ends there. *)
Lemma render_dataset_duplicate (name : string) (df : DataFrame) (w : World)
    (o : option string) (m0 : string) (ms : list string) :
  detect_date_column df = inr o ->
  select_dtypes_number df = m0 :: ms ->
  existsb (String.eqb (chart_key name df)) (widget_keys w) = true ->
  render name df w
  = (inl (DuplicateWidgetID (chart_key name df)),
     drawn [Subheader name; Counts (len df) (length (columns df))] w).
Proof.
  intros Hd Hn Hk. unfold render_dataset, chart_key in *.
  destruct w as [t ca rq pg ks]. cbn [widget_keys] in Hk.
  rewrite Hd in *. destruct o as [d|].
  - destruct (detect_date_column_present df d Hd) as (Hne & Hin & _).
    destruct (proj1 (getitem_In df d) Hin) as [s Hs].
    rewrite Hn. run_steps. rewrite Hne, Hs. run_steps. rewrite Hk.
    show_world. reflexivity.
  - rewrite Hn. run_steps. rewrite Hk. show_world. reflexivity.
Qed.

End Rendering.
(** ** Chart selection *)


Lemma dict_get_dict_set {V} (k c : string) (v : V) (d : dict V) :
  dict_get c (dict_set k v d)
  = if String.eqb k c then Some v else dict_get c d.
Proof.
  induction d as [|[k' v'] d IH]; cbn [dict_set dict_get].
  - destruct (String.eqb k c); reflexivity.
  - destruct (String.eqb k' k) eqn:E; cbn [dict_get].
    + apply String.eqb_eq in E as ->. destruct (String.eqb k c); reflexivity.
    + destruct (String.eqb k' c) eqn:E'.
      * apply String.eqb_eq in E' as ->. rewrite String.eqb_sym, E. reflexivity.
      * exact IH.
Qed.



Lemma getitem_setitem_other (df : DataFrame) (d c : string) (s : Series) :
  c <> d -> getitem (setitem df d s) c = getitem df c.
Proof.
  intros Hc. unfold getitem, setitem. cbn [df_data]. rewrite dict_get_dict_set.
  destruct (String.eqb d c) eqn:E; [| reflexivity].
  apply String.eqb_eq in E. congruence.
Qed.

Lemma well_formed_coerced (parse_datetime : Series -> cell -> option Z)
    (df : DataFrame) (d : string) (s : Series) :
  well_formed df -> getitem df d = inr s ->
  well_formed (setitem df d (to_datetime parse_datetime s)).
Proof.
  intros Hwf Hs. apply well_formed_setitem; [exact Hwf |].
  unfold to_datetime. cbn [s_values]. rewrite length_map.
  unfold getitem in Hs. destruct (dict_get d (df_data df)) as [s'|] eqn:E; [| discriminate].
  injection Hs as ->. apply dict_get_some_In in E.
  unfold well_formed in Hwf. rewrite Forall_forall in Hwf.
  apply (Hwf (d, s)). now apply list_elem_of_In.
Qed.


Lemma filter_one_column (metric : string) (l : list table_row) :
  List.filter (fun r => negb (existsb (row_isna r) [metric])) l
  = List.filter (fun r => negb (row_isna r metric)) l.
Proof.
  apply filter_ext. intros r. cbn [existsb]. now rewrite orb_false_r.
Qed.

Lemma dict_get_map_values {V W} (g : V -> W) (c : string) (d : dict V) :
  dict_get c (map (fun kv => (fst kv, g (snd kv))) d)
  = match dict_get c d with
    | Some v => Some (g v)
    | None => None
    end.
Proof.
  induction d as [|[k v] d IH]; [reflexivity |].
  cbn [map dict_get fst snd]. destruct (String.eqb k c); [reflexivity | exact IH].
Qed.

(** [dropna] keeps the columns, their dtypes and the labels. *)
Lemma dropna_columns (df data : DataFrame) (subset : list string) :
  dropna df subset = inr data ->
  df_labels data = df_labels df /\
  forall c s, getitem df c = inr s ->
              exists s', getitem data c = inr s' /\ s_dtype s' = s_dtype s.
Proof.
  unfold dropna. destruct (subset_series df subset) as [e|ss]; [discriminate |].
  intros [= <-]. split; [reflexivity |].
  intros c s. unfold getitem. cbn [df_data].
  rewrite (dict_get_map_values
             (fun s0 => mkSeries (s_dtype s0) (take_mask _ (s_values s0)))).
  destruct (dict_get c (df_data df)) as [s0|]; [| discriminate].
  intros [= ->]. eexists. split; reflexivity.
Qed.

Lemma getitem_setitem_same (df : DataFrame) (d : string) (s : Series) :
  getitem (setitem df d s) d = inr s.
Proof.
  unfold getitem, setitem. cbn [df_data].
  now rewrite dict_get_dict_set, String.eqb_refl.
Qed.

(** The world after a select box and what was drawn before and after
    it. *)
Lemma drawn_register (draw_time : element -> nat -> nat) (key : string)
    (es1 es2 : list element) (w : World) :
  let w' := draws draw_time es2 (register key (draws draw_time es1 w)) in
  page w' = page w ++ es1 ++ es2 /\
  cache w' = cache w /\ requests w' = requests w /\
  widget_keys w' = widget_keys w ++ [key] /\
  (now w <= now w')%nat.
Proof.
  cbv zeta.
  destruct (draws_world draw_time es2 (register key (draws draw_time es1 w)))
    as (Hp & Hc & Hr & Hk & Hn2).
  destruct (draws_world draw_time es1 w) as (H1 & H2 & H3 & H4 & Hn1).
  unfold register, with_widget_keys in *.
  cbn [page cache requests widget_keys now] in *.
  repeat split;
    [rewrite Hp, H1, <- app_assoc; reflexivity | congruence | congruence
    | rewrite Hk, H4; reflexivity | lia].
Qed.

Section Charts.

Variable alt : Altair.

Lemma plain_name_parts (s : string) :
  plain_name s = true ->
  contains ":" s = false /\ endswith ")" s = false.
Proof.
  unfold plain_name. rewrite !andb_true_iff, !negb_true_iff. tauto.
Qed.

Lemma channel_T (data : DataFrame) (s : string) :
  contains ":" s = false -> endswith ")" s = false ->
  channel alt data (s ++ ":T") = inr (field_channel s (Given Temporal)).
Proof.
  intros H1 H2.
  exact (channel_typed alt data s "T" Temporal (or_introl (conj eq_refl eq_refl)) H1 H2).
Qed.

Lemma channel_Q (data : DataFrame) (s : string) :
  contains ":" s = false -> endswith ")" s = false ->
  channel alt data (s ++ ":Q") = inr (field_channel s (Given Quantitative)).
Proof.
  intros H1 H2.
  exact (channel_typed alt data s "Q" Quantitative (or_intror (conj eq_refl eq_refl)) H1 H2).
Qed.

Lemma channel_Q_colon (data : DataFrame) (s : string) :
  endswith ")" s = false -> unescaped_colon s = true ->
  channel alt data (s ++ ":Q") = inl ValueError.
Proof.
  intros H1 H2.
  exact (channel_colon alt data s "Q" Quantitative (or_intror (conj eq_refl eq_refl)) H1 H2).
Qed.

(** The specification of the line chart of two columns with plain
    names. *)
Lemma to_dict_line_chart (data : DataFrame) (d metric : string) (sd sm : Series) :
  plain_name d = true -> plain_name metric = true ->
  df_labels data = Names ->
  getitem data d = inr sd -> getitem data metric = inr sm ->
  to_dict alt (line_chart data d metric)
  = inr (mkChart data Line (field_channel d (Given Temporal)) false
                 (field_channel metric (Given Quantitative))
                 [field_channel d (Inferred (s_dtype sd));
                  field_channel metric (Inferred (s_dtype sm))]).
Proof.
  intros Hd Hm Hl Hsd Hsm.
  destruct (plain_name_parts d Hd) as [Hd1 Hd2].
  destruct (plain_name_parts metric Hm) as [Hm1 Hm2].
  unfold to_dict, line_chart. cbn [c_data c_mark c_x c_bin c_y c_tooltip channels].
  rewrite (channel_T data d), (channel_Q data metric) by assumption.
  rewrite (channel_plain alt data d sd), (channel_plain alt data metric sm)
    by assumption.
  reflexivity.
Qed.

(** The specification of the histogram of a column whose name holds no
    colon and does not end with a closing parenthesis. *)
Lemma to_dict_histogram (data : DataFrame) (metric : string) :
  contains ":" metric = false -> endswith ")" metric = false ->
  to_dict alt (histogram data metric)
  = inr (mkChart data Bar (field_channel metric (Given Quantitative)) true
                 count_channel []).
Proof.
  intros Hm1 Hm2.
  unfold to_dict, histogram. cbn [c_data c_mark c_x c_bin c_y c_tooltip channels].
  rewrite (channel_Q data metric) by assumption.
  reflexivity.
Qed.

End Charts.



(** C2 fails as stated: the feed has one record with the numeric field
    [a:b] and no date column, so a histogram is due; Altair refuses the
    shorthand that the name makes, [render_dataset] raises [ValueError]
    and no chart is drawn. *)
Lemma chart_name_with_colon_counterexample :
  exists df,
    json_normalize feed_with_colon = inr df /\
    detect_date_column df = inr None /\
    select_dtypes_number df = ["a:b"] /\
    fst (render_dataset example_altair example_dates first_option instant
           "feed" df world0) = inl ValueError /\
    charts (page (snd (render_dataset example_altair example_dates first_option
                         instant "feed" df world0))) = [].
Proof.
  eexists. split; [reflexivity |]. repeat split.
Qed.

(** C10: in the histogram branch (no date column, at least one numeric
    column, the key of the select box free) the metric is the numeric
    column the user picked, and the data of the chart are the rows of the
    table that are not null in the metric, in order: every row that is
    null there is left out and every other row is kept.  The call either
    draws one bar chart, of these data, and returns, or raises
    [ValueError], when Altair cannot read the name of the metric, and
    draws no chart; it draws the chart, counts over the binned metric,
    when the name of the metric holds no colon and does not end with a
    closing parenthesis. *)
Theorem histogram_drops_null_rows
    (alt : Altair) (parse_datetime : Series -> cell -> option Z)
    (user_choice : string -> nat) (draw_time : element -> nat -> nat)
    (name : string) (df : DataFrame) (w : World) :
  well_formed df ->
  detect_date_column df = inr None ->
  select_dtypes_number df <> [] ->
  fresh_key (dist_key name) w ->
  exists r w' drawn data,
    let metric := nth (user_choice (dist_key name)) (select_dtypes_number df)
                      (List.hd EmptyString (select_dtypes_number df)) in
    render_dataset alt parse_datetime user_choice draw_time name df w = (r, w') /\
    page w' = page w ++ drawn /\
    In metric (select_dtypes_number df) /\
    dropna df [metric] = inr data /\
    rows data = List.filter (fun r => negb (row_isna r metric)) (rows df) /\
    (forall r, In r (rows df) -> row_isna r metric = true -> ~ In r (rows data)) /\
    (forall r, In r (rows df) -> row_isna r metric = false -> In r (rows data)) /\
    ((r = inl ValueError /\ charts drawn = [] /\
      to_dict alt (histogram data metric) = inl ValueError) \/
     (exists c, r = inr df /\ charts drawn = [c] /\
                to_dict alt (histogram data metric) = inr c /\
                ch_data c = data /\ ch_mark c = Bar /\ ch_bin c = true /\
                ch_y c = count_channel)) /\
    (contains ":" metric = false -> endswith ")" metric = false ->
     r = inr df /\
     charts drawn
     = [mkChart data Bar (field_channel metric (Given Quantitative)) true
                count_channel []]).
Proof.
  intros Hwf Hd Hne Hk.
  destruct (select_dtypes_number df) as [|m0 ms] eqn:Hn; [contradiction |].
  destruct (render_dataset_histogram alt parse_datetime user_choice draw_time
              name df w m0 ms Hd Hn Hk) as (data & described & Hdata & _ & Hrun).
  cbv zeta in *. cbn [List.hd].
  set (metric := nth (user_choice (dist_key name)) (m0 :: ms) m0).
  change (picked user_choice (dist_key name) (m0 :: ms)) with metric in *.
  assert (Hrows : rows data
                  = List.filter (fun r => negb (row_isna r metric)) (rows df))
    by (rewrite (dropna_rows _ _ _ Hwf Hdata); apply filter_one_column).
  assert (Hfacts :
    In metric (m0 :: ms) /\ dropna df [metric] = inr data /\
    rows data = List.filter (fun r => negb (row_isna r metric)) (rows df) /\
    (forall r, In r (rows df) -> row_isna r metric = true -> ~ In r (rows data)) /\
    (forall r, In r (rows df) -> row_isna r metric = false -> In r (rows data))).
  { split; [apply (picked_In user_choice (dist_key name) m0 ms) |].
    split; [exact Hdata |]. split; [exact Hrows |]. rewrite Hrows. split.
    - intros r _ Hna Hin. apply filter_In in Hin as [_ Hin].
      rewrite Hna in Hin. discriminate.
    - intros r Hr Hna. apply filter_In. split; [exact Hr |]. now rewrite Hna. }
  destruct Hfacts as (F1 & F2 & F3 & F4 & F5).
  destruct (to_dict alt (histogram data metric)) as [e|spec] eqn:Hspec.
  - pose proof (to_dict_error alt _ e Hspec) as ->.
    do 3 eexists. exists data. cbv zeta. cbn [List.hd]. fold metric.
    split; [exact Hrun |].
    split; [apply (drawn_register draw_time _ _ []) |].
    do 5 (split; [assumption |]). split.
    + left. split; [reflexivity |]. split; [reflexivity | exact Hspec].
    + intros H1 H2. rewrite (to_dict_histogram alt data metric H1 H2) in Hspec.
      discriminate Hspec.
  - do 3 eexists. exists data. cbv zeta. cbn [List.hd]. fold metric.
    split; [exact Hrun |].
    split; [apply drawn_register |].
    do 5 (split; [assumption |]). split.
    + right. exists spec.
      split; [reflexivity |]. split; [reflexivity |]. split; [exact Hspec |].
      unfold to_dict, histogram in Hspec.
      cbn [c_data c_mark c_x c_bin c_y c_tooltip channels] in Hspec.
      rewrite channel_count in Hspec.
      destruct (channel alt data (metric ++ ":Q")) as [e|x]; [discriminate |].
      injection Hspec as <-. repeat split.
    + intros H1 H2. rewrite (to_dict_histogram alt data metric H1 H2) in Hspec.
      injection Hspec as <-. split; reflexivity.
Qed.

Lemma histogram_drops_null_rows_witness :
  exists w' c,
    render_dataset example_altair example_dates first_option instant
      "amounts" df_amounts world0 = (inr df_amounts, w') /\
    charts (page w') = [c] /\
    ch_x c = field_channel "amount" (Given Quantitative) /\
    map fst (rows (ch_data c)) = [0; 2]%nat.
Proof.
  assert (Hwf : well_formed df_amounts) by (repeat constructor).
  assert (Hne : select_dtypes_number df_amounts <> []) by discriminate.
  destruct (histogram_drops_null_rows example_altair example_dates first_option
              instant "amounts" df_amounts world0 Hwf eq_refl Hne eq_refl)
    as (r & w' & drawn & data & Hrun & Hpage & _ & _ & Hrows & _ & _ & Hcase & _).
  cbn in Hcase, Hrows.
  destruct Hcase as [(_ & _ & Hbad) | (c & -> & Hc & Hspec & Hdata & _)].
  - rewrite (to_dict_histogram example_altair data "amount") in Hbad
      by reflexivity.
    discriminate.
  - rewrite (to_dict_histogram example_altair data "amount") in Hspec
      by reflexivity.
    injection Hspec as <-.
    exists w', (mkChart data Bar (field_channel "amount" (Given Quantitative))
                        true count_channel []).
    split; [exact Hrun |]. rewrite Hpage. split; [exact Hc |].
    split; [reflexivity |]. cbn [ch_data]. rewrite Hrows. reflexivity.
Defined.

(** ** What [render_dataset] does to the table it is given *)

Lemma existsb_cases (key : string) (ks : list string) :
  existsb (String.eqb key) ks = true \/ existsb (String.eqb key) ks = false.
Proof. destruct (existsb (String.eqb key) ks); auto. Qed.

Section RenderResult.

Variable alt : Altair.
Variable parse_datetime : Series -> cell -> option Z.
Variable user_choice : string -> nat.
Variable draw_time : element -> nat -> nat.

Ltac split_run H :=
  let H1 := fresh in let H2 := fresh in
  apply pair_equal_spec in H as [H1 H2]; injection H1 as <-; subst.

(** When [render_dataset] returns: the table it leaves, what it has drawn
    and what it has done to the world. *)
Lemma render_dataset_returns (name : string) (df df' : DataFrame) (w w' : World) :
  render_dataset alt parse_datetime user_choice draw_time name df w = (inr df', w') ->
  ((detect_date_column df = inr None /\ df' = df) \/
   exists d s, detect_date_column df = inr (Some d) /\ getitem df d = inr s /\
               df' = setitem df d (to_datetime parse_datetime s)) /\
  (exists middle,
     page w' = page w ++ Subheader name :: Counts (len df) (length (columns df))
                         :: middle ++ [Caption PreviewHeading; Preview (head 50 df')] /\
     previews middle = [] /\
     match select_dtypes_number df with
     | [] => stats_tables middle = [] /\ widget_keys w' = widget_keys w
     | m0 :: ms =>
         fresh_key (chart_key name df) w /\
         widget_keys w' = widget_keys w ++ [chart_key name df] /\
         exists described,
           select_columns df' (m0 :: ms) = inr described /\
           stats_tables middle = [described]
     end) /\
  cache w' = cache w /\ requests w' = requests w /\ (now w <= now w')%nat.
Proof.
  intros Hrun.
  destruct (detect_date_column df) as [e|[d|]] eqn:Hd.
  - rewrite (render_dataset_positions alt parse_datetime user_choice draw_time
               name df w e Hd) in Hrun. discriminate.
  - destruct (select_dtypes_number df) as [|m0 ms] eqn:Hn.
    + destruct (render_dataset_note alt parse_datetime user_choice draw_time
                  name df w d Hd Hn) as (s & Hs & E).
      rewrite E in Hrun. split_run Hrun.
      destruct (draws_world draw_time
                  [Subheader name; Counts (len df) (length (columns df));
                   Info NoNumericFields; Caption PreviewHeading;
                   Preview (head 50 (setitem df d (to_datetime parse_datetime s)))] w)
        as (Hp & Hc & Hr & Hk & Ht).
      split; [right; eauto |]. split; [| auto].
      exists [Info NoNumericFields]. rewrite Hp. now repeat split.
    + destruct (existsb_cases (metric_key name) (widget_keys w)) as [Hk | Hk].
      * rewrite (render_dataset_duplicate alt parse_datetime user_choice draw_time
                   name df w (Some d) m0 ms Hd Hn) in Hrun
          by (unfold chart_key; now rewrite Hd).
        discriminate.
      * destruct (render_dataset_line alt parse_datetime user_choice draw_time
                    name df w d m0 ms Hd Hn Hk)
          as (s & data & described & Hs & _ & Hdesc & E).
        cbv zeta in E. rewrite E in Hrun.
        destruct (to_dict alt _) as [e|spec]; [discriminate |].
        split_run Hrun.
        match goal with |- context [draws draw_time ?es2 (register ?k (draws draw_time ?es1 w))] =>
          destruct (drawn_register draw_time k es1 es2 w) as (Hp & Hc & Hr & Hkeys & Ht)
        end.
        split; [right; eauto |]. split; [| auto].
        eexists [_; _; _; _]. rewrite Hp. split; [reflexivity |].
        split; [reflexivity |]. unfold chart_key. rewrite Hd.
        split; [exact Hk |]. split; [exact Hkeys |].
        exists described. split; [exact Hdesc | reflexivity].
  - destruct (select_dtypes_number df) as [|m0 ms] eqn:Hn.
    + rewrite (render_dataset_plain alt parse_datetime user_choice draw_time
                 name df w Hd Hn) in Hrun.
      split_run Hrun.
      destruct (draws_world draw_time
                  [Subheader name; Counts (len df) (length (columns df));
                   Caption PreviewHeading; Preview (head 50 df)] w)
        as (Hp & Hc & Hr & Hk & Ht).
      split; [now left |]. split; [| auto].
      exists []. rewrite Hp. now repeat split.
    + destruct (existsb_cases (dist_key name) (widget_keys w)) as [Hk | Hk].
      * rewrite (render_dataset_duplicate alt parse_datetime user_choice draw_time
                   name df w None m0 ms Hd Hn) in Hrun
          by (unfold chart_key; now rewrite Hd).
        discriminate.
      * destruct (render_dataset_histogram alt parse_datetime user_choice draw_time
                    name df w m0 ms Hd Hn Hk)
          as (data & described & _ & Hdesc & E).
        cbv zeta in E. rewrite E in Hrun.
        destruct (to_dict alt _) as [e|spec]; [discriminate |].
        split_run Hrun.
        match goal with |- context [draws draw_time ?es2 (register ?k (draws draw_time ?es1 w))] =>
          destruct (drawn_register draw_time k es1 es2 w) as (Hp & Hc & Hr & Hkeys & Ht)
        end.
        split; [now left |]. split; [| auto].
        eexists [_; _; _; _]. rewrite Hp. split; [reflexivity |].
        split; [reflexivity |]. unfold chart_key. rewrite Hd.
        split; [exact Hk |]. split; [exact Hkeys |].
        exists described. split; [exact Hdesc | reflexivity].
Qed.

End RenderResult.

(** C7 (amended): [render_dataset] changes the table it is given in one
    way only.  When no date column is detected the table it leaves is the
    table it got.  When a date column is detected, that column is replaced
    by its reading as dates, where it stands: the row labels, the column
    names and their order, and every other column are as before.
    (Classification, statistics, chart data and preview are computed from
    the table without changing it.) *)
Theorem render_dataset_frame
    (alt : Altair) (parse_datetime : Series -> cell -> option Z)
    (user_choice : string -> nat) (draw_time : element -> nat -> nat)
    (name : string) (df df' : DataFrame) (w w' : World) :
  render_dataset alt parse_datetime user_choice draw_time name df w = (inr df', w') ->
  df_index df' = df_index df /\
  columns df' = columns df /\
  (detect_date_column df = inr None -> df' = df) /\
  (forall d, detect_date_column df = inr (Some d) ->
     exists s, getitem df d = inr s /\
               df' = setitem df d (to_datetime parse_datetime s) /\
               forall c, c <> d -> getitem df' c = getitem df c).
Proof.
  intros Hrun.
  destruct (render_dataset_returns alt parse_datetime user_choice draw_time
              name df df' w w' Hrun) as [[[Hd ->] | (d & s & Hd & Hs & ->)] _].
  - repeat split. intros d0 Hd0. congruence.
  - split; [reflexivity |]. split.
    + apply columns_setitem. now apply (detect_date_column_present df d).
    + split; [congruence |]. intros d0 Hd0. assert (d0 = d) as -> by congruence.
      exists s. repeat split; [assumption |].
      intros c Hc. now apply getitem_setitem_other.
Qed.

Lemma render_dataset_frame_witness :
  exists df' w',
    render_dataset example_altair example_dates first_option instant
      "rates" df_rates world0 = (inr df', w') /\
    columns df' = ["date"; "rate"] /\
    getitem df' "rate" = getitem df_rates "rate".
Proof.
  destruct (render_dataset example_altair example_dates first_option instant
              "rates" df_rates world0)
    as [[e|df'] w'] eqn:E; [vm_compute in E; discriminate |].
  destruct (render_dataset_frame example_altair example_dates first_option instant
              "rates" df_rates df' world0 w' E) as (_ & Hcols & _ & Hd).
  destruct (Hd "date" eq_refl) as (s & _ & _ & Hother).
  exists df', w'. repeat split; [exact Hcols | now apply Hother].
Defined.

(** C7 fails as stated: after [render_dataset] the column [date] of the
    table holds timestamps where it held strings. *)
Lemma render_dataset_mutates_counterexample :
  exists df',
    fst (render_dataset example_altair example_dates first_option instant
           "rates" df_rates world0) = inr df' /\
    getitem df_rates "date"
    = inr (mkSeries object_ [VStr "2024-01-01"; VStr "2024-01-02"]) /\
    getitem df' "date"
    = inr (mkSeries datetime64 [VTimestamp 1704067200000000000;
                                VTimestamp 1704153600000000000]).
Proof.
  eexists. split; [vm_compute; reflexivity |]. split; reflexivity.
Qed.

(** ** When [render_dataset] returns and when it raises *)

Section RenderOutcome.

Variable alt : Altair.
Variable parse_datetime : Series -> cell -> option Z.
Variable user_choice : string -> nat.
Variable draw_time : element -> nat -> nat.

Ltac split_run H :=
  let H1 := fresh in let H2 := fresh in
  apply pair_equal_spec in H as [H1 H2]; injection H1 as <-; subst.

(** The chart of a table with plain column names has a specification. *)
Lemma to_dict_chartable_line (df data : DataFrame) (d metric : string) (s : Series) :
  chartable df -> In d (columns df) -> In metric (columns df) ->
  dropna (setitem df d s) [d; metric] = inr data ->
  exists spec, to_dict alt (line_chart data d metric) = inr spec.
Proof.
  intros [Hl Hp] Hd Hm Hdata. rewrite List.Forall_forall in Hp.
  destruct (dropna_columns _ _ _ Hdata) as [Hldata Hcols].
  destruct (Hcols d s (getitem_setitem_same df d s)) as (sd & Hsd & _).
  assert (Hm' : In metric (columns (setitem df d s)))
    by now rewrite columns_setitem.
  destruct (proj1 (getitem_In _ metric) Hm') as [sm0 Hsm0].
  destruct (Hcols metric sm0 Hsm0) as (sm & Hsm & _).
  assert (Hlab : df_labels data = Names) by (rewrite Hldata; exact Hl).
  eexists. apply (to_dict_line_chart alt data d metric sd sm); auto.
Qed.

(** A table whose column names are plain, in a run in which the key of its
    select box is free: [render_dataset] returns. *)
Lemma render_dataset_total (name : string) (df : DataFrame) (w : World) :
  chartable df -> fresh_key (chart_key name df) w ->
  exists df' w',
    render_dataset alt parse_datetime user_choice draw_time name df w = (inr df', w').
Proof.
  intros Hc Hk. pose proof Hc as [Hl Hp]. rewrite List.Forall_forall in Hp.
  pose proof (detect_date_column_names df Hl) as Hdet.
  unfold chart_key in Hk. rewrite Hdet in Hk.
  destruct (detect_in (columns df)) as [d|] eqn:Hd;
    destruct (select_dtypes_number df) as [|m0 ms] eqn:Hn.
  - destruct (render_dataset_note alt parse_datetime user_choice draw_time
                name df w d Hdet Hn) as (s & _ & ->). eauto.
  - destruct (render_dataset_line alt parse_datetime user_choice draw_time
                name df w d m0 ms Hdet Hn Hk)
      as (s & data & described & _ & Hdata & _ & E).
    cbv zeta in E. rewrite E.
    destruct (to_dict_chartable_line df data d
                (picked user_choice (metric_key name) (m0 :: ms))
                (to_datetime parse_datetime s) Hc) as [spec ->];
      [now apply (detect_date_column_present df d) | | exact Hdata | eauto].
    apply select_dtypes_number_In. rewrite Hn. apply picked_In.
  - rewrite (render_dataset_plain alt parse_datetime user_choice draw_time
               name df w Hdet Hn). eauto.
  - destruct (render_dataset_histogram alt parse_datetime user_choice draw_time
                name df w m0 ms Hdet Hn Hk)
      as (data & described & _ & _ & E).
    cbv zeta in E. rewrite E.
    assert (Hm : plain_name (picked user_choice (dist_key name) (m0 :: ms)) = true).
    { apply Hp, select_dtypes_number_In. rewrite Hn. apply picked_In. }
    destruct (plain_name_parts _ Hm) as [H1 H2].
    rewrite (to_dict_histogram alt data _ H1 H2). eauto.
Qed.

(** When [render_dataset] raises: the exception, what is on the page and
    what has become of the world.  Three exceptions can leave it:
    [AttributeError] from the detection of the date column, on a table
    labelled by positions; [DuplicateWidgetID] from the select box, when
    its key is taken; [ValueError] from the chart, when Altair cannot read
    a channel.  Neither statistics nor preview are drawn. *)
Lemma render_dataset_raises (name : string) (df : DataFrame) (e : exn) (w w' : World) :
  render_dataset alt parse_datetime user_choice draw_time name df w = (inl e, w') ->
  cache w' = cache w /\ requests w' = requests w /\ (now w <= now w')%nat /\
  ((e = AttributeError /\ df_labels df = Positions /\ columns df <> [] /\
    page w' = page w ++ [Subheader name; Counts (len df) (length (columns df))] /\
    widget_keys w' = widget_keys w) \/
   (e = DuplicateWidgetID (chart_key name df) /\
    select_dtypes_number df <> [] /\
    In (chart_key name df) (widget_keys w) /\
    page w' = page w ++ [Subheader name; Counts (len df) (length (columns df))] /\
    widget_keys w' = widget_keys w) \/
   (e = ValueError /\
    select_dtypes_number df <> [] /\
    fresh_key (chart_key name df) w /\ ~ chartable df /\
    page w' = page w ++ [Subheader name; Counts (len df) (length (columns df));
                         Selectbox (chart_key name df) (select_dtypes_number df)] /\
    widget_keys w' = widget_keys w ++ [chart_key name df])).
Proof.
  intros Hrun.
  destruct (detect_date_column_cases df) as [[Hdet Hl] | (Hdet & Hl & Hc)].
  2:{ rewrite (render_dataset_positions alt parse_datetime user_choice draw_time
                 name df w _ Hdet) in Hrun. split_run Hrun.
      destruct (draws_world draw_time
                  [Subheader name; Counts (len df) (length (columns df))] w)
        as (Hp & Hca & Hr & Hk & Ht).
      repeat (split; [assumption |]). left. now repeat split. }
  destruct (select_dtypes_number df) as [|m0 ms] eqn:Hn.
  { destruct (detect_in (columns df)) as [d|].
    - destruct (render_dataset_note alt parse_datetime user_choice draw_time
                  name df w d Hdet Hn) as (s & _ & E).
      rewrite E in Hrun. discriminate.
    - rewrite (render_dataset_plain alt parse_datetime user_choice draw_time
                 name df w Hdet Hn) in Hrun. discriminate. }
  destruct (existsb_cases (chart_key name df) (widget_keys w)) as [Hk | Hk].
  { rewrite (render_dataset_duplicate alt parse_datetime user_choice draw_time
               name df w _ m0 ms Hdet Hn Hk) in Hrun. split_run Hrun.
    destruct (draws_world draw_time
                [Subheader name; Counts (len df) (length (columns df))] w)
      as (Hp & Hca & Hr & Hkeys & Ht).
    repeat (split; [assumption |]). right; left.
    split; [reflexivity |]. split; [discriminate |]. split; [| now split].
    apply existsb_exists in Hk as (k & Hin & Hk).
    now apply String.eqb_eq in Hk as ->. }
  assert (Hnc : ~ chartable df).
  { intros Hc.
    destruct (render_dataset_total name df w Hc Hk) as (df' & w0 & E).
    rewrite E in Hrun. discriminate. }
  assert (Hend :
    forall w1,
      w1 = register (chart_key name df)
             (draws draw_time [Subheader name; Counts (len df) (length (columns df));
                               Selectbox (chart_key name df) (m0 :: ms)] w) ->
      page w1 = page w ++ [Subheader name; Counts (len df) (length (columns df));
                           Selectbox (chart_key name df) (m0 :: ms)] /\
      cache w1 = cache w /\ requests w1 = requests w /\
      widget_keys w1 = widget_keys w ++ [chart_key name df] /\
      (now w <= now w1)%nat).
  { intros w1 ->.
    destruct (drawn_register draw_time (chart_key name df)
                [Subheader name; Counts (len df) (length (columns df));
                 Selectbox (chart_key name df) (m0 :: ms)] [] w)
      as (Hp & Hca & Hr & Hkeys & Ht).
    rewrite app_nil_r in Hp. auto. }
  pose proof Hk as Hfresh. unfold chart_key in Hk, Hend. rewrite Hdet in Hk, Hend.
  destruct (detect_in (columns df)) as [d|].
  - destruct (render_dataset_line alt parse_datetime user_choice draw_time
                name df w d m0 ms Hdet Hn Hk)
      as (s & data & described & _ & _ & _ & E).
    cbv zeta in E. rewrite E in Hrun.
    destruct (to_dict alt _) as [e0|spec] eqn:Hspec; [| discriminate].
    apply to_dict_error in Hspec as ->. split_run Hrun.
    destruct (Hend _ eq_refl) as (Hp & Hca & Hr & Hkeys & Ht).
    repeat (split; [assumption |]). right; right.
    unfold chart_key. rewrite Hdet.
    split; [reflexivity |]. split; [discriminate |].
    now repeat (split; [assumption |]).
  - destruct (render_dataset_histogram alt parse_datetime user_choice draw_time
                name df w m0 ms Hdet Hn Hk)
      as (data & described & _ & _ & E).
    cbv zeta in E. rewrite E in Hrun.
    destruct (to_dict alt _) as [e0|spec] eqn:Hspec; [| discriminate].
    apply to_dict_error in Hspec as ->. split_run Hrun.
    destruct (Hend _ eq_refl) as (Hp & Hca & Hr & Hkeys & Ht).
    repeat (split; [assumption |]). right; right.
    unfold chart_key. rewrite Hdet.
    split; [reflexivity |]. split; [discriminate |].
    now repeat (split; [assumption |]).
Qed.

End RenderOutcome.

(** ** Numeric columns and their statistics *)















(** ** Fetching *)

Section Fetching.

Variable http_get : string -> nat -> Reply.
Variable json_loads : string -> option json.
Variable utcnow_str : nat -> string.

Local Abbreviation fetch_body := (fetch_data_body http_get json_loads utcnow_str).
Local Abbreviation fetch := (fetch_data http_get json_loads utcnow_str).
Local Abbreviation parse := (parse_payload json_loads).

(** The payload: the first reading when there is one, else the second
    reading of the same text. *)
Lemma parse_payload_eq (resp : Response) (w : World) :
  parse resp w
  = (match json_ resp with
     | Some payload => inr payload
     | None => match json_loads (text resp) with
               | Some payload => inr payload
               | None => inl JSONDecodeError
               end
     end, w).
Proof.
  unfold parse_payload.
  destruct (json_ resp); [reflexivity |].
  destruct (json_loads (text resp)); reflexivity.
Qed.

(** Lines 68-76 in one equation: one request, which takes its time; the
    status check; the two readings of the body; normalization. *)
Lemma fetch_data_body_eq (url : string) (w : World) :
  fetch_body url w
  = (match response (http_get url (now w)) with
     | None => inl RequestException
     | Some resp =>
         if ((400 <=? status_code resp) && (status_code resp <? 600))%Z
         then inl (HTTPError (status_code resp))
         else
           match match json_ resp with
                 | Some payload => Some payload
                 | None => json_loads (text resp)
                 end with
           | None => inl JSONDecodeError
           | Some payload =>
               match json_normalize payload with
               | inl e => inl e
               | inr df => inr (df, utcnow_str (now w + elapsed (http_get url (now w))))
               end
           end
     end,
     mkWorld (now w + elapsed (http_get url (now w))) (cache w)
             (requests w ++ [url]) (page w) (widget_keys w)).
Proof.
  unfold fetch_data_body, requests_get, raise_for_status, clock, bind.
  destruct (response (http_get url (now w))) as [resp|]; [| reflexivity].
  destruct ((400 <=? status_code resp)%Z && (status_code resp <? 600)%Z);
    [reflexivity |].
  unfold ret at 1. rewrite parse_payload_eq.
  destruct (json_ resp) as [payload|];
    [| destruct (json_loads (text resp)) as [payload|]; [| reflexivity]];
    (destruct (json_normalize payload); reflexivity).
Qed.

(** Normalization raises [NotImplementedError] for a payload that is
    neither an array nor an object, [AttributeError] for an array that
    starts with an object and holds an element of another kind, and
    nothing else. *)
Lemma json_normalize_errors (payload : json) (e : exn) :
  json_normalize payload = inl e ->
  e = NotImplementedError \/ e = AttributeError.
Proof.
  assert (H : forall data, DataFrame_of_list data = inl e -> e = AttributeError).
  { intros data. unfold DataFrame_of_list.
    destruct data as [|[] data]; try discriminate;
      destruct (records _); try discriminate; now intros [= <-]. }
  destruct payload as [| | | | | | |items|members]; cbn [json_normalize];
    try (intros [= <-]; now left).
  all: try (destruct items; [discriminate |]); intros E; right; now apply H in E.
Qed.

Lemma json_normalize_no_decode_error (payload : json) :
  json_normalize payload <> inl JSONDecodeError.
Proof.
  intros H. apply json_normalize_errors in H as [H | H]; discriminate.
Qed.

(** A hit of [st.cache_data]. *)
Lemma fetch_data_hit (url : string) (w : World) (stored : nat)
    (value : DataFrame * string) :
  cache w !! url = Some (stored, value) ->
  (now w < stored + ttl)%nat ->
  fetch url w = (inr value, w).
Proof.
  intros Hc Ht. unfold fetch_data, cache_data. rewrite Hc.
  apply Nat.ltb_lt in Ht. now rewrite Ht.
Qed.

(** A miss: the body runs once; a value it returns is stored with the
    time; when it raises, nothing is stored. *)
Lemma fetch_data_miss (url : string) (w : World) :
  (cache w !! url = None \/
   exists stored value, cache w !! url = Some (stored, value) /\
                        (stored + ttl <= now w)%nat) ->
  exists r w',
    fetch url w = (r, w') /\
    r = fst (fetch_body url w) /\
    now w' = (now w + elapsed (http_get url (now w)))%nat /\
    requests w' = requests w ++ [url] /\
    page w' = page w /\ widget_keys w' = widget_keys w /\
    cache w' = match r with
               | inr value' => <[url := (now w', value')]> (cache w)
               | inl _ => delete url (cache w)
               end.
Proof.
  intros H.
  assert (Hbody : forall w0, now w0 = now w ->
            fst (fetch_body url w0) = fst (fetch_body url w)).
  { intros w0 Hw0. rewrite !fetch_data_body_eq. cbn [fst]. now rewrite Hw0. }
  unfold fetch_data, cache_data.
  destruct H as [Hc | (stored & value & Hc & Ht)]; rewrite Hc.
  - destruct (fetch_body url w) as [o w1] eqn:E.
    rewrite fetch_data_body_eq in E. apply pair_equal_spec in E as [_ <-].
    destruct o as [e|v]; do 2 eexists; (split; [reflexivity |]);
      cbn [now requests page widget_keys cache fst]; repeat split.
    symmetry. now apply delete_id.
  - apply Nat.ltb_ge in Ht. rewrite Ht.
    match goal with |- context [fetch_body url ?w0] =>
      pose proof (Hbody w0 eq_refl) as Hfst;
      destruct (fetch_body url w0) as [o w1] eqn:E end.
    rewrite fetch_data_body_eq in E. cbn [now requests page widget_keys cache] in E.
    apply pair_equal_spec in E as [_ <-]. cbn [fst] in Hfst.
    destruct o as [e|v]; do 2 eexists; (split; [reflexivity |]);
      cbn [now requests page widget_keys cache fst]; repeat split; try exact Hfst.
    apply insert_delete_eq.
Qed.

Lemma cache_cases (url : string) (w : World) :
  (exists stored value, cache w !! url = Some (stored, value) /\
                        (now w < stored + ttl)%nat) \/
  (cache w !! url = None \/
   exists stored value, cache w !! url = Some (stored, value) /\
                        (stored + ttl <= now w)%nat).
Proof.
  destruct (cache w !! url) as [[stored value]|]; [| now right; left].
  destruct (Nat.lt_ge_cases (now w) (stored + ttl)); [left | right; right]; eauto.
Qed.

(** C5: the time-to-live is 900 seconds, 15 minutes.  A fetch that returns
    leaves in the cache a live entry that holds what it returned.  While
    the entry of a URL is younger than the time-to-live, a fetch of that
    URL returns the content of the entry and leaves the world as it is: no
    request is made.  Once the entry has expired, a fetch runs the body of
    [fetch_data] as if there were no entry: it makes exactly one request,
    which takes its time, and its outcome is that of the body; the value
    it returns replaces the entry, stamped with the time at which the body
    ended, and the other entries stay; when it raises, the expired entry
    is gone and nothing is stored.  Fetching another URL leaves the entry
    alone. *)
Theorem fetch_data_cache_ttl :
  ttl = (15 * 60)%nat /\
  (forall url w value w1,
     fetch_data http_get json_loads utcnow_str url w = (inr value, w1) ->
     exists stored, cache w1 !! url = Some (stored, value) /\
                    (now w1 < stored + ttl)%nat) /\
  (forall url w stored value,
     cache w !! url = Some (stored, value) -> (now w < stored + ttl)%nat ->
     fetch_data http_get json_loads utcnow_str url w = (inr value, w)) /\
  (forall url w stored value,
     cache w !! url = Some (stored, value) -> (stored + ttl <= now w)%nat ->
     exists r w',
       fetch_data http_get json_loads utcnow_str url w = (r, w') /\
       r = fst (fetch_data_body http_get json_loads utcnow_str url w) /\
       requests w' = requests w ++ [url] /\
       now w' = (now w + elapsed (http_get url (now w)))%nat /\
       match r with
       | inr value' =>
           cache w' = <[url := (now w', value')]> (cache w) /\
           cache w' !! url = Some (now w', value')
       | inl _ =>
           cache w' = delete url (cache w) /\ cache w' !! url = None
       end) /\
  (forall url url' w r w',
     url' <> url ->
     fetch_data http_get json_loads utcnow_str url' w = (r, w') ->
     cache w' !! url = cache w !! url).
Proof.
  split; [reflexivity |]. split; [| split; [| split]].
  - intros url w value w1 Hrun.
    destruct (cache_cases url w) as [(stored & v0 & Hc & Ht) | Hmiss].
    + rewrite (fetch_data_hit url w stored v0 Hc Ht) in Hrun.
      injection Hrun as <- <-. eauto.
    + destruct (fetch_data_miss url w Hmiss) as (r & w' & E & _ & _ & _ & _ & _ & Hc).
      rewrite E in Hrun. injection Hrun as -> ->.
      exists (now w1). rewrite Hc, lookup_insert_eq. split; [reflexivity |].
      unfold ttl. lia.
  - apply fetch_data_hit.
  - intros url w stored value Hc Ht.
    destruct (fetch_data_miss url w)
      as (r & w' & E & Hr & Hnow & Hreq & _ & _ & Hc'); [right; eauto |].
    exists r, w'. split; [exact E |]. split; [exact Hr |].
    split; [exact Hreq |]. split; [exact Hnow |].
    rewrite Hc'. destruct r; (split; [reflexivity |]);
      [apply lookup_delete_eq | apply lookup_insert_eq].
  - intros url url' w r w' Hne Hrun.
    destruct (cache_cases url' w) as [(stored & v0 & Hc & Ht) | Hmiss].
    + rewrite (fetch_data_hit url' w stored v0 Hc Ht) in Hrun.
      now injection Hrun as _ <-.
    + destruct (fetch_data_miss url' w Hmiss)
        as (r0 & w0 & E & _ & _ & _ & _ & _ & Hc).
      rewrite E in Hrun. injection Hrun as -> ->. rewrite Hc.
      destruct r; [now apply lookup_delete_ne | now apply lookup_insert_ne].
Qed.

(** C6 (amended): when the first reading of the body, [response.json()],
    raises a decode error, the same text is read again with [json.loads]
    and that reading is the payload; when the first reading succeeds it is
    the payload as it is, so a body that is a JSON string stays a string
    and normalization rejects it; and [fetch_data]'s body raises the
    decode error exactly when a response with a passing status came and
    both readings failed. *)
Theorem parse_payload_fallback :
  (forall resp w,
     parse_payload json_loads resp w
     = (match json_ resp with
        | Some payload => inr payload
        | None => match json_loads (text resp) with
                  | Some payload => inr payload
                  | None => inl JSONDecodeError
                  end
        end, w)) /\
  (forall url w,
     fst (fetch_data_body http_get json_loads utcnow_str url w)
     = inl JSONDecodeError <->
     exists resp,
       response (http_get url (now w)) = Some resp /\
       ((400 <=? status_code resp) && (status_code resp <? 600))%Z = false /\
       json_ resp = None /\ json_loads (text resp) = None) /\
  (forall url w resp s,
     response (http_get url (now w)) = Some resp ->
     ((400 <=? status_code resp) && (status_code resp <? 600))%Z = false ->
     json_ resp = Some (JStr s) ->
     fst (fetch_data_body http_get json_loads utcnow_str url w)
     = inl NotImplementedError).
Proof.
  split; [exact parse_payload_eq |]. split.
  - intros url w. rewrite fetch_data_body_eq. cbn [fst]. split.
    + destruct (response (http_get url (now w))) as [resp|]; [| discriminate].
      destruct ((400 <=? status_code resp) && (status_code resp <? 600))%Z eqn:Hst;
        [discriminate |].
      destruct (json_ resp) as [payload|] eqn:Hj.
      * pose proof (json_normalize_no_decode_error payload) as Hn.
        destruct (json_normalize payload) as [e|df]; [| discriminate].
        intros [= ->]. contradiction.
      * destruct (json_loads (text resp)) as [payload|] eqn:Hl.
        -- pose proof (json_normalize_no_decode_error payload) as Hn.
           destruct (json_normalize payload) as [e|df]; [| discriminate].
           intros [= ->]. contradiction.
        -- intros _. exists resp. auto.
    + intros (resp & -> & -> & -> & ->). reflexivity.
  - intros url w resp s Hr Hst Hj. rewrite fetch_data_body_eq. cbn [fst].
    rewrite Hr, Hst, Hj. reflexivity.
Qed.

End Fetching.

Lemma fetch_data_cache_ttl_witness :
  exists value w1,
    fetch_data growing_server example_loads example_utcnow "u" world_stale
    = (inr value, w1) /\
    requests w1 = ["u"] /\ now w1 = 1002%nat /\
    columns (fst value) = ["amount"] /\
    cache w1 !! "u" = Some (1002%nat, value) /\
    fetch_data growing_server example_loads example_utcnow "u" w1
    = (inr value, w1).
Proof.
  destruct (fetch_data_cache_ttl growing_server example_loads example_utcnow)
    as (_ & _ & Hhit & Hexpired & _).
  destruct (Hexpired "u" world_stale 0%nat
              (DataFrame_empty, "2024-01-01 00:00 UTC"))
    as (r & w1 & E & Hr & Hreq & Hnow & Hc);
    [apply lookup_singleton_eq | unfold ttl; simpl; lia |].
  vm_compute in Hr. subst r. destruct Hc as [_ Hc].
  cbn [now world_stale growing_server Nat.ltb Nat.leb elapsed] in Hnow.
  eexists. exists w1. split; [exact E |]. split; [exact Hreq |].
  split; [exact Hnow |]. split; [reflexivity |].
  rewrite Hnow in Hc. split; [exact Hc |].
  apply (Hhit "u" w1 1002%nat _ Hc). rewrite Hnow. unfold ttl. lia.
Defined.

Lemma parse_payload_fallback_witness :
  fst (fetch_data_body double_encoding_server example_loads example_utcnow "u" world0)
  = inl NotImplementedError.
Proof.
  apply (proj2 (proj2 (parse_payload_fallback double_encoding_server example_loads
                         example_utcnow))
           "u" world0 (mkResponse 200 double_encoded_body (Some (JStr "[]"))) "[]");
    reflexivity.
Defined.

(** C6 fails as stated: the body is the JSON string that holds the text of
    the empty array; the first reading succeeds and gives that string; the
    text inside is not read, although [json.loads] reads it as the empty
    array; and the fetch raises, where the inner document would give the
    empty table. *)
Lemma double_encoded_counterexample :
  parse_payload example_loads
    (mkResponse 200 double_encoded_body (Some (JStr "[]"))) world0
  = (inr (JStr "[]"), world0) /\
  example_loads "[]" = Some (JArr []) /\
  json_normalize (JArr []) = inr DataFrame_empty /\
  fst (fetch_data_body double_encoding_server example_loads example_utcnow "u" world0)
  = inl NotImplementedError.
Proof. repeat split. Qed.

(** ** The two loops of the script *)

Section Script.

Variable alt : Altair.
Variable http_get : string -> nat -> Reply.
Variable json_loads : string -> option json.
Variable utcnow_str : nat -> string.
Variable parse_datetime : Series -> cell -> option Z.
Variable user_choice : string -> nat.
Variable draw_time : element -> nat -> nat.

Local Abbreviation fetch := (fetch_data http_get json_loads utcnow_str).
Local Abbreviation summary := (summary_loop http_get json_loads utcnow_str draw_time).
Local Abbreviation analytics :=
  (analytics_loop alt http_get json_loads utcnow_str parse_datetime user_choice
                  draw_time).
Local Abbreviation render :=
  (render_dataset alt parse_datetime user_choice draw_time).

Lemma fetch_data_page (url : string) (w w1 : World)
    (r : exn + DataFrame * string) :
  fetch url w = (r, w1) -> page w1 = page w.
Proof.
  intros Hrun.
  destruct (cache_cases url w) as [(stored & v0 & Hc & Ht) | Hmiss].
  - rewrite (fetch_data_hit _ _ _ url w stored v0 Hc Ht) in Hrun.
    now injection Hrun as _ <-.
  - destruct (fetch_data_miss http_get json_loads utcnow_str url w Hmiss)
      as (r0 & w0 & E & _ & _ & _ & Hp & _).
    rewrite E in Hrun. now injection Hrun as _ <-.
Qed.

Lemma summary_loop_fail (name url : string) (rest : list (string * string))
    (summary_rows : list summary_row) (w w1 : World) (exc : exn) :
  fetch url w = (inl exc, w1) ->
  summary ((name, url) :: rest) summary_rows w
  = summary rest summary_rows (draw draw_time (Error (LoadFailed name exc)) w1).
Proof.
  intros E. cbn [summary_loop]. unfold bind at 1, try_except, bind at 1.
  rewrite E. reflexivity.
Qed.

Lemma summary_loop_ok (name url : string) (rest : list (string * string))
    (summary_rows : list summary_row) (w w1 : World) (df : DataFrame)
    (fetched_at : string) :
  fetch url w = (inr (df, fetched_at), w1) ->
  summary ((name, url) :: rest) summary_rows w
  = summary rest
      (summary_rows ++ [mkRow name url (len df) (length (columns df)) fetched_at]) w1.
Proof.
  intros E. cbn [summary_loop]. unfold bind at 1, try_except, bind at 1.
  rewrite E. reflexivity.
Qed.

Lemma analytics_loop_fail (name url : string) (rest : list (string * string))
    (w w1 : World) (exc : exn) :
  fetch url w = (inl exc, w1) ->
  analytics ((name, url) :: rest) w = analytics rest w1.
Proof.
  intros E. cbn [analytics_loop]. unfold bind at 1, try_except, bind at 1.
  rewrite E. reflexivity.
Qed.

Lemma analytics_loop_ok (name url : string) (rest : list (string * string))
    (w w1 w2 : World) (df df' : DataFrame) (fetched_at : string) :
  fetch url w = (inr (df, fetched_at), w1) ->
  render name df w1 = (inr df', w2) ->
  analytics ((name, url) :: rest) w = analytics rest w2.
Proof.
  intros E R. cbn [analytics_loop]. unfold bind at 1, try_except, bind at 1.
  rewrite E. unfold ret at 1. unfold bind at 1. rewrite R. reflexivity.
Qed.

Lemma analytics_loop_raise (name url : string) (rest : list (string * string))
    (w w1 w2 : World) (df : DataFrame) (fetched_at : string) (exc : exn) :
  fetch url w = (inr (df, fetched_at), w1) ->
  render name df w1 = (inl exc, w2) ->
  analytics ((name, url) :: rest) w = (inl exc, w2).
Proof.
  intros E R. cbn [analytics_loop]. unfold bind at 1, try_except, bind at 1.
  rewrite E. unfold ret at 1. unfold bind at 1. rewrite R. reflexivity.
Qed.

(** The summary pass never raises: it draws one message per dataset whose
    fetch failed and adds one summary row per dataset whose fetch
    returned. *)
Lemma summary_loop_total (selected_urls : list (string * string))
    (summary_rows : list summary_row) (w : World) :
  exists rows' w' msgs,
    summary selected_urls summary_rows w = (inr rows', w') /\
    page w' = page w ++ map Error msgs /\
    (length rows' + length msgs = length summary_rows + length selected_urls)%nat /\
    Forall (fun m => exists name url exc,
                       In (name, url) selected_urls /\ m = LoadFailed name exc) msgs.
Proof.
  revert summary_rows w.
  induction selected_urls as [|[name url] rest IH]; intros summary_rows w.
  - exists summary_rows, w, []. cbn [summary_loop length map]. unfold ret.
    rewrite app_nil_r. split; [reflexivity |]. split; [reflexivity |].
    split; [lia | constructor].
  - destruct (fetch url w) as [[exc|[df fetched_at]] w1] eqn:E.
    + rewrite (summary_loop_fail name url rest summary_rows w w1 exc E).
      destruct (IH summary_rows (draw draw_time (Error (LoadFailed name exc)) w1))
        as (rows' & w' & msgs & Hrun & Hpage & Hlen & Hall).
      exists rows', w', (LoadFailed name exc :: msgs).
      split; [exact Hrun |]. split; [| split].
      * rewrite Hpage. unfold draw. cbn [page map].
        rewrite (fetch_data_page url w w1 _ E), <- app_assoc. reflexivity.
      * cbn [length]. lia.
      * constructor; [exists name, url, exc; split; [now left | reflexivity] |].
        eapply Forall_impl; [exact Hall |].
        intros m (n & u & e & Hin & ->). exists n, u, e. split; [now right | reflexivity].
    + rewrite (summary_loop_ok name url rest summary_rows w w1 df fetched_at E).
      destruct (IH (summary_rows ++ [mkRow name url (len df) (length (columns df)) fetched_at]) w1)
        as (rows' & w' & msgs & Hrun & Hpage & Hlen & Hall).
      exists rows', w', msgs.
      split; [exact Hrun |]. split; [| split].
      * rewrite Hpage. now rewrite (fetch_data_page url w w1 _ E).
      * rewrite length_app in Hlen. cbn [length] in *. lia.
      * eapply Forall_impl; [exact Hall |].
        intros m (n & u & e & Hin & ->). exists n, u, e. split; [now right | reflexivity].
Qed.

(** C8 (amended): a failure of [fetch_data] for one dataset is caught at
    that dataset: the summary pass turns it into an error message that
    names the dataset and goes on with the datasets that follow, and so
    never raises: it ends with one message per dataset whose fetch failed
    and one summary row per dataset whose fetch returned; the analytics
    pass skips the dataset and goes on with the datasets that follow. *)
Theorem fetch_failures_isolated :
  (forall selected_urls summary_rows w,
     exists rows' w' msgs,
       summary_loop http_get json_loads utcnow_str draw_time selected_urls summary_rows w
       = (inr rows', w') /\
       page w' = page w ++ map Error msgs /\
       (length rows' + length msgs
        = length summary_rows + length selected_urls)%nat /\
       Forall (fun m => exists name url exc,
                          In (name, url) selected_urls /\
                          m = LoadFailed name exc) msgs) /\
  (forall name url rest summary_rows w w1 exc,
     fetch_data http_get json_loads utcnow_str url w = (inl exc, w1) ->
     summary_loop http_get json_loads utcnow_str draw_time ((name, url) :: rest)
       summary_rows w
     = summary_loop http_get json_loads utcnow_str draw_time rest summary_rows
         (draw draw_time (Error (LoadFailed name exc)) w1)) /\
  (forall name url rest w w1 exc,
     fetch_data http_get json_loads utcnow_str url w = (inl exc, w1) ->
     analytics_loop alt http_get json_loads utcnow_str parse_datetime user_choice
       draw_time ((name, url) :: rest) w
     = analytics_loop alt http_get json_loads utcnow_str parse_datetime user_choice
         draw_time rest w1).
Proof.
  split; [exact summary_loop_total |].
  split; [exact summary_loop_fail | exact analytics_loop_fail].
Qed.

End Script.

Lemma fetch_failures_isolated_witness :
  exists rows' w',
    summary_loop flaky_server example_loads example_utcnow instant
      [("A", "u1"); ("B", "u2")] [] world0 = (inr rows', w') /\
    errors (page w') = [LoadFailed "A" RequestException] /\
    map row_name rows' = ["B"].
Proof.
  rewrite (proj1 (proj2 (fetch_failures_isolated example_altair flaky_server
                           example_loads example_utcnow example_dates first_option
                           instant))
             "A" "u1" [("B", "u2")] [] world0 (mkWorld 0 ∅ ["u1"] [] [])
             RequestException eq_refl).
  do 2 eexists. split; [vm_compute; reflexivity |]. split; reflexivity.
Defined.

(** C8 fails as stated: [render_dataset] is called after the [try]
    statement, so what it raises is not caught.  Two selected datasets
    named A ask for the same select-box key; the second call raises and
    the run ends with that exception: no error message is drawn. *)
Lemma render_error_counterexample :
  fst (run example_altair amount_server example_loads example_utcnow example_dates
           first_option instant selection_with_twins world0)
  = inl (DuplicateWidgetID "dist_A") /\
  errors (page (snd (run example_altair amount_server example_loads example_utcnow
                         example_dates first_option instant selection_with_twins
                         world0))) = [] /\
  subheaders (page (snd (run example_altair amount_server example_loads
                             example_utcnow example_dates first_option instant
                             selection_with_twins world0)))
  = ["B"; "A"; "A"].
Proof. vm_compute. repeat split. Qed.
(** * Further properties of the application *)

(** ** The sidebar *)

Lemma existsb_eqb_false (k : string) (l : list string) :
  existsb (String.eqb k) l = false <-> k ∉ l.
Proof.
  rewrite <- not_true_iff_false, existsb_exists, list_elem_of_In. split.
  - intros H Hin. apply H. exists k. split; [exact Hin | apply String.eqb_refl].
  - intros H (x & Hx & E). apply String.eqb_eq in E as ->. contradiction.
Qed.

Lemma sidebar_datasets_eq (ticked : string -> bool)
    (datasets selected_urls : list (string * string)) (w : World) :
  NoDup (widget_keys w ++ map snd datasets) ->
  sidebar_datasets ticked datasets selected_urls w
  = (inr (selected_urls ++ List.filter (fun item => ticked (snd item)) datasets),
     with_widget_keys w (widget_keys w ++ map snd datasets)).
Proof.
  revert selected_urls w.
  induction datasets as [|[name url] rest IH]; intros selected_urls w Hnd.
  - cbn [sidebar_datasets List.filter map]. unfold ret, with_widget_keys.
    rewrite !app_nil_r. now destruct w.
  - cbn [sidebar_datasets map snd] in *. unfold bind, checkbox.
    assert (Hfresh : existsb (String.eqb url) (widget_keys w) = false).
    { apply existsb_eqb_false. apply NoDup_app in Hnd as (_ & Hdisj & _).
      intros Hin. apply (Hdisj url Hin). now left. }
    rewrite Hfresh, IH.
    + cbn [widget_keys now cache requests page List.filter snd].
      unfold with_widget_keys. cbn [widget_keys now cache requests page].
      rewrite <- !app_assoc. cbn [app].
      destruct (ticked url); [rewrite <- app_assoc |]; reflexivity.
    + cbn [widget_keys]. now rewrite <- app_assoc.
Qed.

Lemma sidebar_categories_eq (ticked : string -> bool)
    (categories : list (string * list (string * string)))
    (selected_urls : list (string * string)) (w : World) :
  NoDup (widget_keys w ++ map snd (flat_map snd categories)) ->
  sidebar_categories ticked categories selected_urls w
  = (inr (selected_urls
          ++ List.filter (fun item => ticked (snd item)) (flat_map snd categories)),
     with_widget_keys w (widget_keys w ++ map snd (flat_map snd categories))).
Proof.
  revert selected_urls w.
  induction categories as [|[category datasets] rest IH]; intros selected_urls w Hnd.
  - cbn [sidebar_categories flat_map List.filter map]. unfold ret, with_widget_keys.
    rewrite !app_nil_r. now destruct w.
  - cbn [sidebar_categories flat_map snd] in *. rewrite map_app in Hnd.
    unfold bind. rewrite sidebar_datasets_eq.
    + rewrite IH.
      * unfold with_widget_keys. cbn [widget_keys now cache requests page].
        rewrite map_app, List.filter_app, <- !app_assoc. reflexivity.
      * unfold with_widget_keys. cbn [widget_keys]. now rewrite <- app_assoc.
    + rewrite app_assoc in Hnd. now apply NoDup_app in Hnd as (Hnd & _).
Qed.

Lemma catalogue_urls_NoDup : NoDup (map snd catalogue).
Proof. apply (bool_decide_unpack _). vm_compute. reflexivity. Qed.

Lemma catalogue_names_NoDup : NoDup (map fst catalogue).
Proof. apply (bool_decide_unpack _). vm_compute. reflexivity. Qed.

Lemma filter_map_NoDup {A B} `{EqDecision B} (f : A -> B) (p : A -> bool) (l : list A) :
  NoDup (map f l) -> NoDup (map f (List.filter p l)).
Proof.
  induction l as [|x l IH]; cbn [map List.filter]; [trivial |].
  intros Hnd. apply NoDup_cons in Hnd as [Hx Hnd].
  destruct (p x); [| now apply IH]. cbn [map]. apply NoDup_cons. split; [| now apply IH].
  intros Hin. apply Hx. apply list_elem_of_In in Hin. apply list_elem_of_In.
  apply in_map_iff in Hin as (y & <- & Hy). apply filter_In in Hy as [Hy _].
  now apply in_map.
Qed.

(** X1: The sidebar, run on a world without widget keys, never raises.  It
    returns the ticked items of the catalogue, in catalogue order, followed
    by the custom dataset when a URL was typed; it registers one checkbox
    key per catalogue item and changes nothing else.  The ticked items
    have pairwise distinct names and pairwise distinct URLs. *)
Theorem sidebar_selection (ticked : string -> bool) (custom_name custom_url : string)
    (w : World) :
  sidebar ticked custom_name custom_url
    (mkWorld (now w) (cache w) (requests w) (page w) [])
  = (inr (ticked_items ticked ++ custom_entry custom_name custom_url),
     mkWorld (now w) (cache w) (requests w) (page w) (map snd catalogue)) /\
  NoDup (map fst (ticked_items ticked)) /\
  NoDup (map snd (ticked_items ticked)).
Proof.
  split; [| split].
  - unfold sidebar, bind. rewrite sidebar_categories_eq.
    + reflexivity.
    + cbn [widget_keys app]. exact catalogue_urls_NoDup.
  - apply filter_map_NoDup, catalogue_names_NoDup.
  - apply filter_map_NoDup, catalogue_urls_NoDup.
Qed.

(** ** The preview and the table invariant *)

Lemma firstn_positions {A} (d : A) (n : nat) (l : list A) :
  firstn n l = map (fun i => nth i l d) (seq 0 (min n (length l))).
Proof.
  rewrite <- (map_nth_positions d (firstn n l)) at 1. rewrite length_firstn.
  apply map_ext_in. intros i Hi. apply in_seq in Hi as [_ Hi]. cbn in Hi.
  rewrite nth_firstn. destruct (Nat.ltb_spec i n); [reflexivity | lia].
Qed.

Lemma firstn_seq_0 (n m : nat) : firstn n (seq 0 m) = seq 0 (min n m).
Proof.
  rewrite (firstn_positions 0%nat), length_seq.
  rewrite <- (map_nth_positions 0%nat (seq 0 (min n m))) at 2. rewrite length_seq.
  apply map_ext_in. intros i Hi. apply in_seq in Hi as [_ Hi]. cbn in Hi.
  rewrite !seq_nth by lia. reflexivity.
Qed.

(** [head] keeps the first rows, in order, with their labels and cells. *)
Lemma rows_head (n : nat) (df : DataFrame) :
  well_formed df -> rows (head n df) = firstn n (rows df).
Proof.
  intros Hwf. unfold rows at 2. rewrite firstn_map, firstn_seq_0.
  rewrite <- rows_of_positions. unfold head, len. f_equal.
  f_equal.
  - apply firstn_positions.
  - apply map_ext_in. intros cs Hcs. f_equal. f_equal.
    unfold well_formed in Hwf. rewrite Forall_forall in Hwf.
    specialize (Hwf cs (proj2 (list_elem_of_In _ _) Hcs)). unfold len in Hwf.
    rewrite <- Hwf. apply firstn_positions.
Qed.

(** X4: [render_dataset] keeps the table invariant: the table it leaves has one
    cell per row in every column, distinct column names, and as many rows
    as the table it was given. *)
Theorem render_dataset_keeps_invariant
    (alt : Altair) (parse_datetime : Series -> cell -> option Z)
    (user_choice : string -> nat) (draw_time : element -> nat -> nat)
    (name : string) (df df' : DataFrame) (w w' : World) :
  well_formed df -> NoDup (columns df) ->
  render_dataset alt parse_datetime user_choice draw_time name df w = (inr df', w') ->
  well_formed df' /\ NoDup (columns df') /\ len df' = len df.
Proof.
  intros Hwf Hnd Hrun.
  destruct (render_dataset_returns alt parse_datetime user_choice draw_time
              name df df' w w' Hrun)
    as [[[_ ->] | (d & s & Hd & Hs & ->)] _]; [auto |].
  split; [now apply well_formed_coerced |]. split; [| reflexivity].
  rewrite columns_setitem; [exact Hnd |].
  now apply (detect_date_column_present df d).
Qed.

Lemma render_dataset_keeps_invariant_witness :
  exists df' w',
    render_dataset example_altair example_dates first_option instant
      "rates" df_rates world0 = (inr df', w') /\
    well_formed df' /\ len df' = 2%nat.
Proof.
  destruct (render_dataset example_altair example_dates first_option instant
              "rates" df_rates world0)
    as [[e|df'] w'] eqn:E; [vm_compute in E; discriminate |].
  assert (Hwf : well_formed df_rates) by (repeat constructor).
  assert (Hnd : NoDup (columns df_rates))
    by (apply (bool_decide_unpack _); vm_compute; reflexivity).
  destruct (render_dataset_keeps_invariant example_altair example_dates first_option
              instant "rates" df_rates df' world0 w' Hwf Hnd E) as (H1 & _ & H3).
  exists df', w'. repeat split; assumption.
Defined.

Lemma previews_app (a b : list element) : previews (a ++ b) = previews a ++ previews b.
Proof. unfold previews. apply flat_map_app. Qed.

(** X5: Whenever [render_dataset] returns, with or without a chart, the last
    element it draws is the preview, and it draws no other: the first 50
    rows of the table it leaves, in table order, with their labels and
    cells (all the rows when there are fewer than 50). *)
Theorem render_dataset_preview
    (alt : Altair) (parse_datetime : Series -> cell -> option Z)
    (user_choice : string -> nat) (draw_time : element -> nat -> nat)
    (name : string) (df df' : DataFrame) (w w' : World) :
  well_formed df ->
  render_dataset alt parse_datetime user_choice draw_time name df w = (inr df', w') ->
  exists before,
    page w' = page w ++ before ++ [Preview (head 50 df')] /\
    previews before = [] /\
    rows (head 50 df') = firstn 50 (rows df') /\
    len (head 50 df') = min 50 (len df).
Proof.
  intros Hwf Hrun.
  destruct (render_dataset_returns alt parse_datetime user_choice draw_time
              name df df' w w' Hrun)
    as (Hdf & (middle & Hpage & Hmid & _) & _).
  assert (Hwf' : well_formed df' /\ len df' = len df).
  { destruct Hdf as [[_ ->] | (d & s & Hd & Hs & ->)]; [auto |].
    split; [now apply well_formed_coerced | reflexivity]. }
  destruct Hwf' as [Hwf' Hlen].
  exists (Subheader name :: Counts (len df) (length (columns df))
          :: middle ++ [Caption PreviewHeading]).
  split; [| split; [| split]].
  - rewrite Hpage. f_equal. simpl. do 2 f_equal. now rewrite <- app_assoc.
  - change (previews (middle ++ [Caption PreviewHeading]) = []).
    now rewrite previews_app, Hmid.
  - now apply rows_head.
  - unfold len, head in *. cbn [df_index]. rewrite length_firstn. now rewrite Hlen.
Qed.

Lemma render_dataset_preview_witness :
  exists df' w' before,
    render_dataset example_altair example_dates first_option instant
      "sixty" df_sixty world0 = (inr df', w') /\
    page w' = before ++ [Preview (head 50 df')] /\
    len df' = 60%nat /\ len (head 50 df') = 50%nat.
Proof.
  destruct (render_dataset example_altair example_dates first_option instant
              "sixty" df_sixty world0)
    as [[e|df'] w'] eqn:E; [vm_compute in E; discriminate |].
  assert (Hwf : well_formed df_sixty) by (constructor; [reflexivity | constructor]).
  destruct (render_dataset_preview example_altair example_dates first_option instant
              "sixty" df_sixty df' world0 w' Hwf E) as (before & Hpage & _ & _ & Hlen).
  exists df', w', before. split; [reflexivity |]. split; [exact Hpage |].
  split; [| exact Hlen].
  vm_compute in E. injection E as <- _. reflexivity.
Defined.

(** ** More on [fetch_data] *)

Section FetchMore.

Variable http_get : string -> nat -> Reply.
Variable json_loads : string -> option json.
Variable utcnow_str : nat -> string.

Local Abbreviation fetch_body := (fetch_data_body http_get json_loads utcnow_str).
Local Abbreviation fetch := (fetch_data http_get json_loads utcnow_str).

Lemma fetch_data_miss_outcome (url : string) (w : World) :
  (cache w !! url = None \/
   exists stored value, cache w !! url = Some (stored, value) /\
                        (stored + ttl <= now w)%nat) ->
  fst (fetch url w) = fst (fetch_body url w).
Proof.
  intros H.
  destruct (fetch_data_miss http_get json_loads utcnow_str url w H)
    as (r & w' & E & Hr & _).
  now rewrite E.
Qed.

Lemma fetch_body_value (url : string) (w : World) (df : DataFrame) (fetched_at : string) :
  fst (fetch_body url w) = inr (df, fetched_at) ->
  (exists payload, json_normalize payload = inr df) /\
  fetched_at = utcnow_str (now w + elapsed (http_get url (now w))).
Proof.
  rewrite fetch_data_body_eq. cbn [fst].
  destruct (response (http_get url (now w))) as [resp|]; [| discriminate].
  destruct ((400 <=? status_code resp)%Z && (status_code resp <? 600)%Z);
    [discriminate |].
  destruct (match json_ resp with Some p => Some p | None => json_loads (text resp) end)
    as [payload|]; [| discriminate].
  destruct (json_normalize payload) as [e|df0] eqn:E; [discriminate |].
  intros [= <- <-]. split; [now exists payload | reflexivity].
Qed.

(** What a fetch does to the world. *)
Lemma fetch_data_world (url : string) (w w' : World) (r : exn + DataFrame * string) :
  fetch url w = (r, w') ->
  page w' = page w /\ widget_keys w' = widget_keys w /\ (now w <= now w')%nat /\
  (requests w' = requests w \/ requests w' = requests w ++ [url]).
Proof.
  intros Hrun.
  destruct (cache_cases url w) as [(stored & v0 & Hc & Ht) | Hmiss].
  - rewrite (fetch_data_hit _ _ _ url w stored v0 Hc Ht) in Hrun.
    injection Hrun as _ <-. repeat split; auto.
  - destruct (fetch_data_miss http_get json_loads utcnow_str url w Hmiss)
      as (r0 & w0 & E & _ & Hnow & Hreq & Hp & Hk & _).
    rewrite E in Hrun. injection Hrun as _ <-. repeat split; auto. lia.
Qed.

(** X6: [fetch_data] draws nothing and registers no widget; it never turns the
    clock back; it logs no request when the cache holds a live entry of
    the URL and exactly one request, for that URL, otherwise. *)
Theorem fetch_data_frame (url : string) (w : World) :
  exists r w',
    fetch_data http_get json_loads utcnow_str url w = (r, w') /\
    page w' = page w /\ widget_keys w' = widget_keys w /\ (now w <= now w')%nat /\
    requests w'
    = match cache w !! url with
      | Some (stored, _) =>
          if (now w <? stored + ttl)%nat then requests w else requests w ++ [url]
      | None => requests w ++ [url]
      end.
Proof.
  destruct (fetch url w) as [r w'] eqn:E. exists r, w'. split; [reflexivity |].
  destruct (fetch_data_world url w w' r E) as (Hp & Hk & Hn & _).
  repeat split; try assumption.
  destruct (cache_cases url w) as [(stored & v0 & Hc & Ht) | Hmiss].
  - rewrite (fetch_data_hit _ _ _ url w stored v0 Hc Ht) in E.
    injection E as _ <-. rewrite Hc. apply Nat.ltb_lt in Ht. now rewrite Ht.
  - destruct (fetch_data_miss http_get json_loads utcnow_str url w Hmiss)
      as (r0 & w0 & E0 & _ & _ & Hreq & _).
    rewrite E0 in E. injection E as _ <-. rewrite Hreq.
    destruct Hmiss as [-> | (stored & v0 & -> & Ht)]; [reflexivity |].
    apply Nat.ltb_ge in Ht. now rewrite Ht.
Qed.

(** X7: A fetch that raises leaves no entry for the URL in the cache, so the
    next fetch of that URL makes a request: failures are not remembered. *)
Theorem fetch_failure_not_cached (url : string) (w w1 : World) (exc : exn) :
  fetch_data http_get json_loads utcnow_str url w = (inl exc, w1) ->
  cache w1 !! url = None /\
  exists r w2,
    fetch_data http_get json_loads utcnow_str url w1 = (r, w2) /\
    requests w2 = requests w1 ++ [url].
Proof.
  intros Hrun.
  assert (Hnone : cache w1 !! url = None).
  { destruct (cache_cases url w) as [(stored & v0 & Hc & Ht) | Hmiss].
    - rewrite (fetch_data_hit _ _ _ url w stored v0 Hc Ht) in Hrun. discriminate.
    - destruct (fetch_data_miss http_get json_loads utcnow_str url w Hmiss)
        as (r0 & w0 & E & _ & _ & _ & _ & _ & Hc).
      rewrite E in Hrun. injection Hrun as -> ->. rewrite Hc.
      apply lookup_delete_eq. }
  split; [exact Hnone |].
  destruct (fetch_data_miss http_get json_loads utcnow_str url w1 (or_introl Hnone))
    as (r & w2 & E & _ & _ & Hreq & _).
  eauto.
Qed.

(** X8: A fetch that returns, done again at once, returns the same value and
    leaves the world as it is. *)
Theorem fetch_data_repeat (url : string) (w w1 : World) (value : DataFrame * string) :
  fetch_data http_get json_loads utcnow_str url w = (inr value, w1) ->
  fetch_data http_get json_loads utcnow_str url w1 = (inr value, w1).
Proof.
  intros Hrun.
  destruct (cache_cases url w) as [(stored & v0 & Hc & Ht) | Hmiss].
  - rewrite (fetch_data_hit _ _ _ url w stored v0 Hc Ht) in Hrun.
    injection Hrun as <- <-. now apply (fetch_data_hit _ _ _ url w stored v0).
  - destruct (fetch_data_miss http_get json_loads utcnow_str url w Hmiss)
      as (r0 & w0 & E & _ & _ & _ & _ & _ & Hc).
    rewrite E in Hrun. injection Hrun as -> ->.
    apply (fetch_data_hit _ _ _ url w1 (now w1) value).
    + rewrite Hc. apply lookup_insert_eq.
    + unfold ttl. lia.
Qed.

(** X9: A fetch keeps the cache sound: entries are stamped with a time that
    has come and with the timestamp string of that time, and hold tables
    that keep the table invariant; so does every table a fetch returns. *)
Theorem fetch_data_keeps_cache_ok (url : string) (w w' : World)
    (r : exn + DataFrame * string) :
  cache_ok utcnow_str w ->
  fetch_data http_get json_loads utcnow_str url w = (r, w') ->
  cache_ok utcnow_str w' /\
  match r with
  | inr (df, _) => well_formed df /\ NoDup (columns df)
  | inl _ => True
  end.
Proof.
  intros Hok Hrun.
  destruct (cache_cases url w) as [(stored & [df0 at0] & Hc & Ht) | Hmiss].
  - rewrite (fetch_data_hit _ _ _ url w stored (df0, at0) Hc Ht) in Hrun.
    injection Hrun as <- <-. split; [exact Hok |].
    now destruct (Hok url stored df0 at0 Hc) as (_ & _ & H1 & H2).
  - pose proof (fetch_data_miss_outcome url w Hmiss) as Hout.
    destruct (fetch_data_miss http_get json_loads utcnow_str url w Hmiss)
      as (r0 & w0 & E & _ & Hnow & _ & _ & _ & Hc).
    rewrite E in Hrun. injection Hrun as -> ->. rewrite E in Hout. cbn [fst] in Hout.
    destruct r as [e|[df fetched_at]].
    + split; [| exact I]. intros u stored df at_ Hu. rewrite Hc in Hu.
      apply lookup_delete_Some in Hu as [_ Hu].
      destruct (Hok u stored df at_ Hu) as (H1 & H2 & H3 & H4).
      repeat split; try assumption. lia.
    + symmetry in Hout. apply fetch_body_value in Hout as [[payload Hp] Hat].
      apply json_normalize_well_formed in Hp.
      split; [| exact Hp]. intros u stored df1 at1 Hu. rewrite Hc in Hu.
      apply lookup_insert_Some in Hu as [(<- & [= <- <- <-]) | (_ & Hu)].
      * repeat split; try apply Hp; [lia | now rewrite Hat, Hnow].
      * destruct (Hok u stored df1 at1 Hu) as (H1 & H2 & H3 & H4).
        repeat split; try assumption. lia.
Qed.

Lemma records_normalized (data : list json) :
  records (map simple_json_normalize data)
  = if existsb is_list data then None
    else Some (map (fun x => match simple_json_normalize x with
                             | JObj members => members
                             | _ => []
                             end) data).
Proof.
  induction data as [|x data IH]; [reflexivity |].
  cbn [map records existsb]. rewrite IH.
  destruct x; cbn [simple_json_normalize is_list orb]; try reflexivity;
    destruct (existsb is_list data); reflexivity.
Qed.

(** The two exceptions of normalization, each with its cause. *)
Lemma json_normalize_error_cases (payload : json) (e : exn) :
  json_normalize payload = inl e ->
  (e = NotImplementedError /\ is_container payload = false) \/
  (e = AttributeError /\ mixed_array payload = true).
Proof.
  assert (H : forall x data,
            DataFrame_of_list (map simple_json_normalize (x :: data)) = inl e ->
            e = AttributeError /\ negb (is_list x) && existsb is_list data = true).
  { intros x data. unfold DataFrame_of_list.
    pose proof (records_normalized (x :: data)) as Hr.
    cbn [map existsb] in *.
    destruct x; cbn [simple_json_normalize is_list negb andb orb] in *;
      try discriminate;
      rewrite Hr; destruct (existsb is_list data); try discriminate;
      now intros [= <-]. }
  destruct payload as [| | | | | | |items|members];
    cbn [json_normalize is_container mixed_array];
    try (intros [= <-]; now left).
  destruct items as [|x items]; [discriminate |]. intros E. right. now apply H.
Qed.

Lemma json_normalize_scalar (payload : json) :
  is_container payload = false -> json_normalize payload = inl NotImplementedError.
Proof. destruct payload; try discriminate; reflexivity. Qed.

Lemma json_normalize_mixed (payload : json) :
  mixed_array payload = true -> json_normalize payload = inl AttributeError.
Proof.
  destruct payload as [| | | | | | |[|x items]|members]; try discriminate.
  cbn [mixed_array]. rewrite andb_true_iff, negb_true_iff. intros [Hx Hitems].
  unfold json_normalize, DataFrame_of_list.
  pose proof (records_normalized (x :: items)) as Hr.
  cbn [map existsb] in *. rewrite Hx, Hitems in Hr. cbn [orb] in Hr.
  destruct x; try discriminate Hx; cbn [simple_json_normalize] in *;
    now rewrite Hr.
Qed.

(** X10: The exceptions of the body of [fetch_data], each with its cause: no
    response; a status from 400 to 599; a payload that is neither an array
    nor an object; an array that starts with an element that is not an
    array and holds an array further on.  It never raises a key error or a
    widget error. *)
Theorem fetch_data_body_errors (url : string) (w : World) :
  (fst (fetch_data_body http_get json_loads utcnow_str url w) = inl RequestException <->
   response (http_get url (now w)) = None) /\
  (forall status,
     fst (fetch_data_body http_get json_loads utcnow_str url w) = inl (HTTPError status) <->
     exists resp, response (http_get url (now w)) = Some resp /\
                  status_ok resp = false /\ status_code resp = status) /\
  (fst (fetch_data_body http_get json_loads utcnow_str url w) = inl NotImplementedError <->
   exists resp payload,
     response (http_get url (now w)) = Some resp /\ status_ok resp = true /\
     read_payload json_loads resp = Some payload /\ is_container payload = false) /\
  (forall k,
     fst (fetch_data_body http_get json_loads utcnow_str url w) <> inl (KeyError k) /\
     fst (fetch_data_body http_get json_loads utcnow_str url w)
     <> inl (DuplicateWidgetID k)) /\
  (fst (fetch_data_body http_get json_loads utcnow_str url w) = inl AttributeError <->
   exists resp payload,
     response (http_get url (now w)) = Some resp /\ status_ok resp = true /\
     read_payload json_loads resp = Some payload /\ mixed_array payload = true) /\
  fst (fetch_data_body http_get json_loads utcnow_str url w) <> inl ValueError.
Proof.
  rewrite fetch_data_body_eq. cbn [fst]. unfold status_ok, read_payload.
  destruct (response (http_get url (now w))) as [resp|].
  2:{ repeat split; try discriminate.
      - intros (r0 & Hr & _). discriminate Hr.
      - intros (r0 & p0 & Hr & _). discriminate Hr.
      - intros (r0 & p0 & Hr & _). discriminate Hr. }
  destruct ((400 <=? status_code resp)%Z && (status_code resp <? 600)%Z) eqn:Hst;
    cbn [negb].
  { repeat split; try discriminate.
    - intros [= <-]. exists resp. now rewrite Hst.
    - intros (r0 & [= <-] & _ & <-). reflexivity.
    - intros (r0 & p0 & [= <-] & Hf & _). rewrite Hst in Hf. discriminate Hf.
    - intros (r0 & p0 & [= <-] & Hf & _). rewrite Hst in Hf. discriminate Hf. }
  destruct (match json_ resp with Some p => Some p | None => json_loads (text resp) end)
    as [payload|] eqn:Hread.
  2:{ repeat split; try discriminate.
      - intros (r0 & [= <-] & Hf & _). rewrite Hst in Hf. discriminate Hf.
      - intros (r0 & p0 & [= <-] & _ & Hp & _). congruence.
      - intros (r0 & p0 & [= <-] & _ & Hp & _). congruence. }
  destruct (json_normalize payload) as [e|df] eqn:Hn.
  2:{ repeat split; try discriminate.
      - intros (r0 & [= <-] & Hf & _). rewrite Hst in Hf. discriminate Hf.
      - intros (r0 & p0 & [= <-] & _ & Hp & Hc).
        assert (p0 = payload) as -> by congruence.
        rewrite (json_normalize_scalar payload Hc) in Hn. discriminate Hn.
      - intros (r0 & p0 & [= <-] & _ & Hp & Hc).
        assert (p0 = payload) as -> by congruence.
        rewrite (json_normalize_mixed payload Hc) in Hn. discriminate Hn. }
  destruct (json_normalize_error_cases payload e Hn) as [[-> Hc] | [-> Hc]];
    repeat split; try discriminate.
  - intros (r0 & [= <-] & Hf & _). rewrite Hst in Hf. discriminate Hf.
  - intros _. exists resp, payload. now rewrite Hst.
  - intros (r0 & p0 & [= <-] & _ & Hp & Hc').
    assert (p0 = payload) as -> by congruence.
    rewrite (json_normalize_mixed payload Hc') in Hn. discriminate Hn.
  - intros (r0 & [= <-] & Hf & _). rewrite Hst in Hf. discriminate Hf.
  - intros (r0 & p0 & [= <-] & _ & Hp & Hc').
    assert (p0 = payload) as -> by congruence.
    rewrite (json_normalize_scalar payload Hc') in Hn. discriminate Hn.
  - intros _. exists resp, payload. now rewrite Hst.
Qed.

End FetchMore.

Lemma fetch_failure_not_cached_witness :
  exists w1 r w2,
    fetch_data flaky_server example_loads example_utcnow "u1" world0
    = (inl RequestException, w1) /\
    fetch_data flaky_server example_loads example_utcnow "u1" w1 = (r, w2) /\
    requests w2 = ["u1"; "u1"].
Proof.
  assert (E : fetch_data flaky_server example_loads example_utcnow "u1" world0
              = (inl RequestException, mkWorld 0 ∅ ["u1"] [] [])) by reflexivity.
  destruct (fetch_failure_not_cached flaky_server example_loads example_utcnow
              "u1" world0 _ RequestException E) as (_ & r & w2 & E2 & Hreq).
  exists (mkWorld 0 ∅ ["u1"] [] []), r, w2. repeat split; assumption.
Defined.

Lemma fetch_data_repeat_witness :
  exists value w1,
    fetch_data amount_server example_loads example_utcnow "u" world0 = (inr value, w1) /\
    fetch_data amount_server example_loads example_utcnow "u" w1 = (inr value, w1).
Proof.
  destruct (fetch_data amount_server example_loads example_utcnow "u" world0)
    as [[e|value] w1] eqn:E; [vm_compute in E; discriminate |].
  exists value, w1. split; [reflexivity |].
  exact (fetch_data_repeat amount_server example_loads example_utcnow
           "u" world0 w1 value E).
Defined.

Lemma fetch_data_keeps_cache_ok_witness :
  exists df fetched_at w1,
    fetch_data amount_server example_loads example_utcnow "u" world0
    = (inr (df, fetched_at), w1) /\
    cache_ok example_utcnow w1 /\ well_formed df.
Proof.
  destruct (fetch_data amount_server example_loads example_utcnow "u" world0)
    as [[e|[df fetched_at]] w1] eqn:E; [vm_compute in E; discriminate |].
  assert (H0 : cache_ok example_utcnow world0).
  { intros u stored d a Hu. cbn [world0 cache] in Hu. rewrite lookup_empty in Hu.
    discriminate. }
  destruct (fetch_data_keeps_cache_ok amount_server example_loads example_utcnow
              "u" world0 w1 _ H0 E) as (Hok & Hwf & _).
  exists df, fetched_at, w1. split; [reflexivity | split; assumption].
Defined.


(** ** More on the script *)

Section ScriptMore.

Variable alt : Altair.
Variable http_get : string -> nat -> Reply.
Variable json_loads : string -> option json.
Variable utcnow_str : nat -> string.
Variable parse_datetime : Series -> cell -> option Z.
Variable user_choice : string -> nat.
Variable draw_time : element -> nat -> nat.

Local Abbreviation fetch := (fetch_data http_get json_loads utcnow_str).
Local Abbreviation summary := (summary_loop http_get json_loads utcnow_str draw_time).
Local Abbreviation analytics :=
  (analytics_loop alt http_get json_loads utcnow_str parse_datetime user_choice
                  draw_time).
Local Abbreviation render :=
  (render_dataset alt parse_datetime user_choice draw_time).
Local Abbreviation the_script :=
  (script alt http_get json_loads utcnow_str parse_datetime user_choice draw_time).

Lemma advances_refl (urls : list string) (w : World) : advances 0 urls w w.
Proof.
  split; [lia |]. exists []. rewrite app_nil_r. repeat split; [cbn; lia | intros u []].
Qed.

Lemma advances_same (urls : list string) (w w' : World) :
  (now w <= now w')%nat -> requests w' = requests w -> advances 0 urls w w'.
Proof.
  intros Hn Hr. split; [lia |]. exists []. rewrite app_nil_r.
  repeat split; [exact Hr | cbn; lia | intros u []].
Qed.

Lemma advances_trans (n m : nat) (urls1 urls2 urls : list string) (w1 w2 w3 : World) :
  advances n urls1 w1 w2 -> advances m urls2 w2 w3 ->
  (forall u, In u urls1 -> In u urls) -> (forall u, In u urls2 -> In u urls) ->
  advances (n + m) urls w1 w3.
Proof.
  intros (Hn1 & e1 & Hr1 & Hl1 & Hu1) (Hn2 & e2 & Hr2 & Hl2 & Hu2) H1 H2.
  split; [lia |]. exists (e1 ++ e2). rewrite Hr2, Hr1, <- app_assoc.
  repeat split; [rewrite length_app; lia |].
  intros u Hu. apply in_app_iff in Hu as [Hu | Hu]; auto.
Qed.

Lemma advances_weaken (n m : nat) (urls urls' : list string) (w w' : World) :
  advances n urls w w' -> (n <= m)%nat -> (forall u, In u urls -> In u urls') ->
  advances m urls' w w'.
Proof.
  intros (Hn & extra & Hreq & Hlen & Hu) Hnm Hin.
  split; [exact Hn |]. exists extra. repeat split; [exact Hreq | lia | auto].
Qed.

(** One dataset, then the others. *)
Lemma advances_step (n : nat) (url : string) (urls : list string) (w w1 w2 w3 : World) :
  advances 1 [url] w w1 ->
  (now w1 <= now w2)%nat -> requests w2 = requests w1 ->
  advances n urls w2 w3 ->
  advances (S n) (url :: urls) w w3.
Proof.
  intros H1 Hn2 Hr2 H3.
  pose proof (advances_same [] w1 w2 Hn2 Hr2) as H2.
  pose proof (advances_trans 1 0 [url] [] (url :: urls) w w1 w2 H1 H2) as H12.
  apply (advances_trans (1 + 0) n (url :: urls) urls (url :: urls) w w2 w3).
  - apply H12; [intros u [<- | []]; now left | intros u []].
  - exact H3.
  - trivial.
  - intros u Hu. now right.
Qed.

Lemma fetch_advances (url : string) (w w' : World) (r : exn + DataFrame * string) :
  fetch url w = (r, w') -> advances 1 [url] w w'.
Proof.
  intros E. destruct (fetch_data_world _ _ _ url w w' r E) as (_ & _ & Hn & Hreq).
  split; [exact Hn |]. destruct Hreq as [-> | ->].
  - exists []. rewrite app_nil_r. repeat split; [cbn; lia | intros u []].
  - exists [url]. repeat split; [cbn; lia | trivial].
Qed.

(** Drawing lets time pass and changes neither the cache, nor the request
    log, nor the widget keys. *)
Lemma draw_world (e : element) (w : World) :
  page (draw draw_time e w) = page w ++ [e] /\
  cache (draw draw_time e w) = cache w /\
  requests (draw draw_time e w) = requests w /\
  widget_keys (draw draw_time e w) = widget_keys w /\
  (now w <= now (draw draw_time e w))%nat.
Proof. unfold draw. cbn [page cache requests widget_keys now]. repeat split. lia. Qed.

(** What [render_dataset] does to the world, whether it returns or
    raises. *)
Lemma render_dataset_world (name : string) (df : DataFrame) (w w' : World)
    (r : exn + DataFrame) :
  render name df w = (r, w') ->
  cache w' = cache w /\ requests w' = requests w /\ (now w <= now w')%nat.
Proof.
  intros Hrun. destruct r as [e|df'].
  - destruct (render_dataset_raises alt parse_datetime user_choice draw_time
                name df e w w' Hrun) as (H1 & H2 & H3 & _). auto.
  - destruct (render_dataset_returns alt parse_datetime user_choice draw_time
                name df df' w w' Hrun) as (_ & _ & H1 & H2 & H3). auto.
Qed.

Lemma summary_loop_frame (selected_urls : list (string * string))
    (summary_rows : list summary_row) (w w' : World)
    (r : exn + list summary_row) :
  summary selected_urls summary_rows w = (r, w') ->
  widget_keys w' = widget_keys w /\
  advances (length selected_urls) (map snd selected_urls) w w'.
Proof.
  revert summary_rows w.
  induction selected_urls as [|[name url] rest IH]; intros summary_rows w Hrun.
  - cbn [summary_loop] in Hrun. unfold ret in Hrun. injection Hrun as _ <-.
    split; [reflexivity | apply advances_refl].
  - destruct (fetch url w) as [[exc|[df fetched_at]] w1] eqn:E;
      pose proof (fetch_advances url w w1 _ E) as H1;
      destruct (fetch_data_world _ _ _ url w w1 _ E) as (_ & Hk1 & _).
    + rewrite (summary_loop_fail _ _ _ _ name url rest summary_rows w w1 exc E) in Hrun.
      apply IH in Hrun as [Hk Hadv].
      destruct (draw_world (Error (LoadFailed name exc)) w1)
        as (_ & _ & Hr2 & Hk2 & Hn2).
      split; [congruence |]. cbn [length map snd].
      apply (advances_step _ url _ w w1
               (draw draw_time (Error (LoadFailed name exc)) w1) w');
        [exact H1 | exact Hn2 | exact Hr2 | exact Hadv].
    + rewrite (summary_loop_ok _ _ _ _ name url rest summary_rows w w1 df fetched_at E)
        in Hrun.
      apply IH in Hrun as [Hk Hadv].
      split; [congruence |]. cbn [length map snd].
      apply (advances_step _ url _ w w1 w1 w');
        [exact H1 | lia | reflexivity | exact Hadv].
Qed.

Lemma analytics_loop_frame (selected_urls : list (string * string)) (w w' : World)
    (r : exn + unit) :
  analytics selected_urls w = (r, w') ->
  advances (length selected_urls) (map snd selected_urls) w w'.
Proof.
  revert w. induction selected_urls as [|[name url] rest IH]; intros w Hrun.
  - cbn [analytics_loop] in Hrun. unfold ret in Hrun. injection Hrun as _ <-.
    apply advances_refl.
  - cbn [length map snd].
    destruct (fetch url w) as [[exc|[df fetched_at]] w1] eqn:E;
      pose proof (fetch_advances url w w1 _ E) as H1.
    + rewrite (analytics_loop_fail _ _ _ _ _ _ _ name url rest w w1 exc E) in Hrun.
      apply IH in Hrun.
      apply (advances_step _ url _ w w1 w1 w');
        [exact H1 | lia | reflexivity | exact Hrun].
    + destruct (render name df w1) as [r2 w2] eqn:R.
      destruct (render_dataset_world name df w1 w2 r2 R) as (_ & Hr2 & Hn2).
      destruct r2 as [exc|df'].
      * rewrite (analytics_loop_raise _ _ _ _ _ _ _ name url rest w w1 w2 df
                   fetched_at exc E R) in Hrun.
        apply pair_equal_spec in Hrun as [_ <-].
        pose proof (advances_step 0 url [] w w1 w2 w2 H1 Hn2 Hr2
                      (advances_refl [] w2)) as H.
        apply (advances_weaken 1 _ [url]); [exact H | lia |].
        intros u [<- | []]. now left.
      * rewrite (analytics_loop_ok _ _ _ _ _ _ _ name url rest w w1 w2 df df'
                   fetched_at E R) in Hrun.
        apply IH in Hrun.
        apply (advances_step _ url _ w w1 w2 w');
          [exact H1 | exact Hn2 | exact Hr2 | exact Hrun].
Qed.

(** Lines 159-190 for a selection that is not empty: the summary pass,
    which returns; the summary table; the analytics pass. *)
Lemma script_unfold (selected_urls : list (string * string)) (w : World) :
  selected_urls <> [] ->
  exists rows w1,
    summary selected_urls [] w = (inr rows, w1) /\
    the_script selected_urls w
    = analytics selected_urls
        (draw draw_time (SummaryTable rows)
           (draw draw_time (Caption SummaryHeading) w1)).
Proof.
  intros Hne.
  destruct (summary_loop_total http_get json_loads utcnow_str draw_time
              selected_urls [] w) as (rows & w1 & msgs & E & _).
  exists rows, w1. split; [exact E |].
  destruct selected_urls as [|item rest]; [contradiction |].
  unfold script, bind. rewrite E. reflexivity.
Qed.

(** X11: One run of the script never turns the clock back and requests only
    selected URLs, at most two requests per selected dataset (one in each
    pass); with nothing selected it makes no request. *)
Theorem run_requests (selected_urls : list (string * string)) (w : World) :
  advances (2 * length selected_urls) (map snd selected_urls) w
    (snd (run alt http_get json_loads utcnow_str parse_datetime user_choice
              draw_time selected_urls w)).
Proof.
  unfold run. set (w0 := mkWorld (now w) (cache w) (requests w) [] []).
  assert (H0 : forall n urls w', advances n urls w0 w' -> advances n urls w w').
  { intros n urls w' H. exact H. }
  apply H0. clear H0.
  destruct selected_urls as [|item rest] eqn:Hsel.
  - cbn [script]. unfold emit. cbn [snd].
    destruct (draw_world (Info EmptySelection) w0) as (_ & _ & Hr & _ & Hn).
    now apply advances_same.
  - rewrite <- Hsel.
    destruct (script_unfold selected_urls w0) as (rows & w1 & E & ->);
      [rewrite Hsel; discriminate |].
    destruct (summary_loop_frame selected_urls [] w0 w1 _ E) as [_ H1].
    set (w1' := draw draw_time (SummaryTable rows)
                  (draw draw_time (Caption SummaryHeading) w1)).
    assert (H1' : advances 0 [] w1 w1').
    { apply advances_same; unfold w1', draw;
        cbn [now requests]; [lia | reflexivity]. }
    destruct (analytics selected_urls w1') as [r w2] eqn:E2.
    apply analytics_loop_frame in E2. cbn [snd].
    replace (2 * length selected_urls)%nat
      with (length selected_urls + 0 + length selected_urls)%nat by lia.
    apply (advances_trans _ _ (map snd selected_urls) (map snd selected_urls) _
             w0 w1' w2); [| exact E2 | trivial | trivial].
    apply (advances_trans _ _ (map snd selected_urls) [] _ w0 w1 w1');
      [exact H1 | exact H1' | trivial | intros u []].
Qed.

(** ** Select-box keys *)






(** ** Tables with plain column names *)





End ScriptMore.

(** ** The whole run *)



Section AppRun.

Variable ticked : string -> bool.
Variable custom_name : string.
Variable custom_url : string.
Variable alt : Altair.
Variable http_get : string -> nat -> Reply.
Variable json_loads : string -> option json.
Variable utcnow_str : nat -> string.
Variable parse_datetime : Series -> cell -> option Z.
Variable user_choice : string -> nat.
Variable draw_time : element -> nat -> nat.


End AppRun.



(** ** The two passes and the cache *)

Section Passes.

Variable alt : Altair.
Variable http_get : string -> nat -> Reply.
Variable json_loads : string -> option json.
Variable utcnow_str : nat -> string.
Variable parse_datetime : Series -> cell -> option Z.
Variable user_choice : string -> nat.
Variable draw_time : element -> nat -> nat.

Local Abbreviation fetch := (fetch_data http_get json_loads utcnow_str).
Local Abbreviation summary := (summary_loop http_get json_loads utcnow_str draw_time).
Local Abbreviation analytics :=
  (analytics_loop alt http_get json_loads utcnow_str parse_datetime user_choice
                  draw_time).
Local Abbreviation render :=
  (render_dataset alt parse_datetime user_choice draw_time).









End Passes.



(** ** The outcomes of [render_dataset] *)



(** ** More on [detect_date_column] *)

Lemma lower_char_idem (c : ascii) : lower_char (lower_char c) = lower_char c.
Proof. destruct c as [[] [] [] [] [] [] [] []]; reflexivity. Qed.

Lemma lower_idem (s : string) : lower (lower s) = lower s.
Proof.
  induction s as [|c s IH]; [reflexivity |].
  cbn [lower]. now rewrite lower_char_idem, IH.
Qed.

Lemma detect_in_lower (cols : list string) :
  detect_in (map lower cols) = option_map lower (detect_in cols).
Proof.
  induction cols as [|c cols IH]; [reflexivity |].
  cbn [map detect_in]. unfold is_date_name at 1. rewrite lower_idem.
  fold (is_date_name c). destruct (is_date_name c); [reflexivity | exact IH].
Qed.

(** X14: The column [detect_date_column] returns is a column of the table and
    its name is not empty, so the test [if date_col:] on line 93 takes a
    detected column for present; and the detection does not depend on the
    case of the names: after lowercasing every column name the column at
    the same place is detected.  (When the call raises, the table is
    labelled by positions.) *)
Theorem detect_date_column_sound (df : DataFrame) :
  match detect_date_column df with
  | inr o =>
      truthy o = o /\
      match o with
      | Some d => In d (columns df)
      | None => True
      end /\
      detect_in (map lower (columns df)) = option_map lower o
  | inl e => e = AttributeError /\ df_labels df = Positions
  end.
Proof.
  destruct (detect_date_column_cases df) as [[Hd _] | (Hd & Hl & _)].
  - pose proof Hd as Hd'. rewrite Hd. split; [| split].
    + destruct (detect_in (columns df)) as [d|]; [| reflexivity].
      cbn [truthy]. now rewrite (proj1 (detect_date_column_present df d Hd')).
    + destruct (detect_in (columns df)) as [d|]; [| exact I].
      apply (detect_date_column_present df d Hd').
    + apply detect_in_lower.
  - rewrite Hd. auto.
Qed.
(** ** More on normalization *)

Lemma normalise_json_leaves (data : json) :
  forall (key_string : string) (acc : dict json),
    Forall (fun kv => is_dict (snd kv) = false) acc ->
    Forall (fun kv => is_dict (snd kv) = false) (normalise_json data key_string acc).
Proof.
  revert data. fix IH 1. intros data key_string acc Hacc.
  destruct data as [| | | | | | | |members];
    try (apply dict_set_Forall; [exact Hacc | reflexivity]).
  cbn [normalise_json]. revert acc Hacc.
  induction members as [|[k v] rest IHm]; intros acc Hacc; [exact Hacc |].
  apply IHm. apply IH. exact Hacc.
Qed.

Lemma dict_merge_Forall {V} (P : string * V -> Prop) (a b : dict V) :
  Forall P a -> Forall P b -> Forall P (dict_merge a b).
Proof.
  unfold dict_merge. revert a. induction b as [|[k v] b IH]; intros a Ha Hb; [exact Ha |].
  apply Forall_cons in Hb as [Hkv Hb]. cbn [fold_left fst snd].
  apply IH; [| exact Hb]. now apply dict_set_Forall.
Qed.

Lemma normalise_json_ordered_leaves (o : dict json) :
  Forall (fun kv => is_dict (snd kv) = false) (normalise_json_ordered o).
Proof.
  unfold normalise_json_ordered. apply dict_merge_Forall.
  - apply Forall_forall. intros kv Hkv. apply list_elem_of_In, filter_In in Hkv as [_ H].
    now apply negb_true_iff in H.
  - apply normalise_json_leaves. constructor.
Qed.

(** X15: Nested objects never reach a cell: in the table of an array of
    objects no cell holds an object, only scalars, nulls and raw arrays. *)
Theorem json_normalize_no_object_cell (objs : list (dict json)) :
  exists df,
    json_normalize (JArr (map JObj objs)) = inr df /\
    forall c s i,
      getitem df c = inr s ->
      match cell_at s i with
      | VRaw (JObj _) => False
      | _ => True
      end.
Proof.
  exists (DataFrame_of_records (map normalise_json_ordered objs)).
  split; [apply json_normalize_objects |].
  intros c s i Hs. unfold getitem in Hs.
  destruct (dict_get c _) as [s'|] eqn:E in Hs; [| discriminate].
  injection Hs as ->. unfold DataFrame_of_records in E. cbn [df_data] in E.
  apply dict_get_tabulate in E as ->.
  assert (Hcell : match nth i (column_objects (map normalise_json_ordered objs) c) VNaN with
                  | VRaw (JObj _) => False
                  | _ => True
                  end).
  { destruct (nth_error (map normalise_json_ordered objs) i) as [r|] eqn:Hi.
    - rewrite (nth_column_objects _ c i r Hi).
      destruct (dict_get c r) as [v|] eqn:Hv; [| exact I].
      apply nth_error_In, in_map_iff in Hi as (o & <- & _).
      apply dict_get_some_In in Hv.
      pose proof (normalise_json_ordered_leaves o) as Hl.
      rewrite Forall_forall in Hl. specialize (Hl _ (proj2 (list_elem_of_In _ _) Hv)).
      cbn [snd] in Hl. destruct v; try exact I; discriminate Hl.
    - apply nth_error_None in Hi. rewrite nth_overflow; [exact I |].
      unfold column_objects. now rewrite length_map. }
  destruct (cell_at_convert_objects
              (column_objects (map normalise_json_ordered objs) c) i) as [-> | ->].
  - exact Hcell.
  - destruct (nth i (column_objects (map normalise_json_ordered objs) c) VNaN);
      try exact I; exact Hcell.
Qed.

Lemma fold_add_unique_NoDup_eq (ks acc : list string) :
  NoDup (acc ++ ks) -> fold_left add_unique ks acc = acc ++ ks.
Proof.
  revert acc. induction ks as [|k ks IH]; intros acc Hnd; cbn [fold_left].
  - now rewrite app_nil_r.
  - assert (Hk : existsb (String.eqb k) acc = false).
    { apply existsb_eqb_false. apply NoDup_app in Hnd as (_ & Hdisj & _).
      intros Hin. apply (Hdisj k Hin). now left. }
    unfold add_unique at 2. rewrite Hk, IH; rewrite <- app_assoc; [reflexivity | exact Hnd].
Qed.

Lemma dict_get_tabulate_In {V} (f : string -> V) (l : list string) (c : string) :
  In c l -> dict_get c (map (fun k => (k, f k)) l) = Some (f c).
Proof.
  induction l as [|k l IH]; [intros [] |]. cbn [map dict_get].
  destruct (String.eqb k c) eqn:E.
  - apply String.eqb_eq in E as ->. reflexivity.
  - apply String.eqb_neq in E. intros [H | H]; [contradiction | now apply IH].
Qed.

Lemma dtype_of_seen_float (seen : Seen) :
  dtype_of_seen seen = float64 ->
  float_seen seen = true \/ null_seen seen = true \/ nan_seen seen = true.
Proof. destruct seen as [[] [] [] [] [] [] [] []]; cbn; auto; discriminate. Qed.

Lemma convert_single (v : json) :
  s_values (convert_objects [cell_of_json v]) = [cell_of_json v].
Proof.
  destruct v; try reflexivity.
  unfold convert_objects.
  destruct (infer_dtype [cell_of_json (JInt n)]) eqn:E; try reflexivity.
  exfalso. apply dtype_of_seen_float in E. revert E.
  cbn [cell_of_json scan_objects nothing_seen null_seen]. cbv zeta.
  match goal with |- context [if ?c then _ else _] => destruct c end;
    cbn [saw_int saw_object nothing_seen float_seen null_seen nan_seen];
    intros [H | [H | H]]; discriminate H.
Qed.

(** X16: A single object becomes a table of one row.  Its columns are the keys
    of the flattened object; when no value is an object (and the keys are
    distinct, as in a Python dict) they are the keys of the object, in
    order, and each cell is the value of its key, as it is. *)
Theorem json_normalize_single_object (members : dict json) :
  exists df,
    json_normalize (JObj members) = inr df /\
    len df = 1%nat /\
    (forall c, In c (columns df) <-> In c (keys (normalise_json_ordered members))) /\
    (flat members = true -> NoDup (keys members) ->
     columns df = keys members /\
     forall c v, dict_get c members = Some v ->
                 exists s, getitem df c = inr s /\ s_values s = [cell_of_json v]).
Proof.
  exists (DataFrame_of_records [normalise_json_ordered members]).
  split; [reflexivity |]. split; [reflexivity |]. split.
  - intros c. rewrite columns_of_records, fast_unique_In. cbn [map]. split.
    + intros (ks & [<- | []] & Hc). exact Hc.
    + intros Hc. eexists. split; [now left | exact Hc].
  - intros Hflat Hnd. rewrite (normalise_json_ordered_flat members Hflat).
    assert (Hcols : fast_unique [keys members] = keys members).
    { unfold fast_unique. cbn [fold_left]. now rewrite fold_add_unique_NoDup_eq. }
    split; [now rewrite columns_of_records; cbn [map] |].
    intros c v Hv. unfold getitem, DataFrame_of_records. cbn [df_data map].
    rewrite Hcols, dict_get_tabulate_In by (apply dict_get_In; eauto).
    eexists. split; [reflexivity |].
    unfold column_objects. cbn [map]. rewrite Hv. apply convert_single.
Qed.

Lemma json_normalize_single_object_witness :
  exists df s,
    json_normalize (JObj currency_object) = inr df /\
    len df = 1%nat /\ columns df = ["id"; "name"] /\
    getitem df "id" = inr s /\ s_values s = [VStr "UAH"].
Proof.
  destruct (json_normalize_single_object currency_object)
    as (df & Hdf & Hlen & _ & Hflat).
  destruct Hflat as [Hcols Hcells];
    [reflexivity | apply (bool_decide_unpack _); vm_compute; reflexivity |].
  destruct (Hcells "id" (JStr "UAH") eq_refl) as (s & Hs & Hv).
  exists df, s. repeat split; assumption.
Defined.

Lemma json_normalize_no_object_cell_witness :
  exists df s,
    json_normalize nested_feed = inr df /\
    getitem df "a.b" = inr s /\
    match cell_at s 0 with
    | VRaw (JObj _) => False
    | _ => True
    end.
Proof.
  destruct (json_normalize_no_object_cell [[("a", JObj [("b", JInt 1)])]])
    as (df & Hdf & Hcells).
  exists df, (mkSeries int64 [VInt 1]).
  assert (Hs : getitem df "a.b" = inr (mkSeries int64 [VInt 1])).
  { change (json_normalize nested_feed = inr df) in Hdf.
    vm_compute in Hdf. injection Hdf as <-. reflexivity. }
  split; [exact Hdf |]. split; [exact Hs |]. exact (Hcells "a.b" _ 0%nat Hs).
Defined.


(** ** Feeds of other shapes *)

(** X17: A feed that is a list of lists gives a table whose columns are
    labelled by positions, here 0 and 1; the summary pass reports it;
    [render_dataset] raises [AttributeError] when it looks for the date
    column, nothing catches it and the run ends there, with no error
    message drawn. *)
Theorem positional_feed_raises :
  exists df,
    json_normalize feed_of_lists = inr df /\
    df_labels df = Positions /\ columns df = ["0"; "1"] /\ len df = 1%nat /\
    detect_date_column df = inl AttributeError /\
    fst (run example_altair (serving feed_of_lists) example_loads example_utcnow
             example_dates first_option instant [("lists", "u")] world0)
    = inl AttributeError /\
    page (snd (run example_altair (serving feed_of_lists) example_loads
                   example_utcnow example_dates first_option instant
                   [("lists", "u")] world0))
    = [Caption SummaryHeading;
       SummaryTable [mkRow "lists" "u" 1 2 "2024-01-01 00:00 UTC"];
       Subheader "lists"; Counts 1 2].
Proof.
  eexists. split; [reflexivity |]. repeat split.
Qed.

(** X18: A numeric column whose name reads like a call of an aggregate
    operation, here [sum(x)]: Altair reads the shorthand of the axis as
    the sum of a field [x], so the chart that is drawn does not show the
    column. *)
Theorem call_like_name_charted :
  exists df c,
    json_normalize feed_with_call = inr df /\
    select_dtypes_number df = ["sum(x)"] /\
    charts (page (snd (render_dataset example_altair example_dates first_option
                         instant "feed" df world0))) = [c] /\
    ch_x c = mkAttrs (Some "sum") None (Some "x") (Some (Given Quantitative)) /\
    getitem (ch_data c) "x" = inl (KeyError "x").
Proof.
  do 2 eexists. split; [reflexivity |]. split; [reflexivity |].
  split; [vm_compute; reflexivity |]. split; reflexivity.
Qed.
